(** * Overmind: the terminal network (TerminalNetworkV2)

    A shallow embedding of [TerminalNetwork_v2.ts]: the threshold table, the
    state classifier, the override entry points, the transfer executor, the
    request / provide handlers, the assignment of states and the exchange
    of a tick, followed by the properties of the specification and of the
    code stated over that embedding.

    Conventions of the embedding.
    - A JavaScript [number] is an exact rational, one of the two infinities,
      or NaN.  Signed zeros and rounding are not modelled: the quantities of
      the game are integers far below 2^53, and the divisions of the file
      (the mean and the fifth of [getEnergyThresholds], the score of
      [getBestSenderColony]) are taken exactly.
    - JavaScript objects used as dictionaries are [gmap]s keyed by strings.
      Reading a missing numeric property and using it in arithmetic or in a
      comparison behaves as NaN does, which is how [get_num] reads them.
    - The class instance, the game world and the record of what the code
      did to its environment (terminal sends, market orders, log lines) are
      threaded through a state-and-exception monad; a [TypeError] raised by
      dereferencing [undefined] is the exception.
    - What the file imports from the game and from the rest of the
      repository is gathered in the classes [Host] and [TickHost]; the
      properties hold for every instance of them. *)

From Stdlib Require Import QArith Lqa Lia Bool List Sorted.
From stdpp Require Import gmap strings list fin_maps.

Local Open Scope string_scope.

(* ===================================================================== *)
(** ** JavaScript numbers *)
(* ===================================================================== *)

Module Num.

Inductive number : Type :=
| Fin (q : Q)
| PInf
| NInf
| NaN.

Definition Qlt_bool (x y : Q) : bool := negb (Qle_bool y x).

Definition of_Z (z : Z) : number := Fin (inject_Z z).

(** [a + b] *)
Definition add (a b : number) : number :=
  match a, b with
  | NaN, _ | _, NaN => NaN
  | Fin x, Fin y => Fin (x + y)
  | PInf, NInf | NInf, PInf => NaN
  | PInf, _ | _, PInf => PInf
  | NInf, _ | _, NInf => NInf
  end.

(** unary [-a] *)
Definition neg (a : number) : number :=
  match a with
  | Fin x => Fin (- x)
  | PInf => NInf
  | NInf => PInf
  | NaN => NaN
  end.

(** [a - b] *)
Definition sub (a b : number) : number := add a (neg b).

Definition sign_mul (pos_a pos_b : bool) : number :=
  if Bool.eqb pos_a pos_b then PInf else NInf.

(** [a * b] *)
Definition mul (a b : number) : number :=
  match a, b with
  | NaN, _ | _, NaN => NaN
  | Fin x, Fin y => Fin (x * y)
  | Fin x, PInf | PInf, Fin x =>
      if Qeq_bool x 0 then NaN else sign_mul (Qlt_bool 0 x) true
  | Fin x, NInf | NInf, Fin x =>
      if Qeq_bool x 0 then NaN else sign_mul (Qlt_bool 0 x) false
  | PInf, PInf | NInf, NInf => PInf
  | PInf, NInf | NInf, PInf => NInf
  end.

(** [a / b] *)
Definition div (a b : number) : number :=
  match a, b with
  | NaN, _ | _, NaN => NaN
  | Fin x, Fin y =>
      if Qeq_bool y 0
      then (if Qeq_bool x 0 then NaN else sign_mul (Qlt_bool 0 x) true)
      else Fin (x / y)
  | Fin _, (PInf | NInf) => Fin 0
  | (PInf | NInf), (PInf | NInf) => NaN
  | PInf, Fin y => sign_mul true (Qle_bool 0 y)
  | NInf, Fin y => sign_mul false (Qle_bool 0 y)
  end.

(** [a < b]; every comparison with NaN is false. *)
Definition lt (a b : number) : bool :=
  match a, b with
  | NaN, _ | _, NaN => false
  | Fin x, Fin y => Qlt_bool x y
  | NInf, (Fin _ | PInf) => true
  | Fin _, PInf => true
  | _, _ => false
  end.

(** [a <= b] *)
Definition le (a b : number) : bool :=
  match a, b with
  | NaN, _ | _, NaN => false
  | Fin x, Fin y => Qle_bool x y
  | NInf, _ => true
  | _, PInf => true
  | _, _ => false
  end.

(** [a > b] and [a >= b] *)
Definition gt (a b : number) : bool := lt b a.
Definition ge (a b : number) : bool := le b a.

(** [a == b] on numbers *)
Definition eqb (a b : number) : bool :=
  match a, b with
  | Fin x, Fin y => Qeq_bool x y
  | PInf, PInf | NInf, NInf => true
  | _, _ => false
  end.

(** Truthiness of a number: [0] and [NaN] are falsy. *)
Definition truthy (a : number) : bool :=
  match a with
  | Fin x => negb (Qeq_bool x 0)
  | PInf | NInf => true
  | NaN => false
  end.

(** [Math.min(a, b)]: NaN if either argument is, else the smaller. *)
Definition min2 (a b : number) : number :=
  match a, b with
  | NaN, _ | _, NaN => NaN
  | _, _ => if le a b then a else b
  end.

Definition max2 (a b : number) : number :=
  match a, b with
  | NaN, _ | _, NaN => NaN
  | _, _ => if le a b then b else a
  end.

(** [Math.min(a, b, c)] *)
Definition min3 (a b c : number) : number := min2 (min2 a b) c.

Definition is_nan (a : number) : bool :=
  match a with NaN => true | _ => false end.

(** [_.sum(xs)] of lodash 3 over an array of numbers:
    [result += +x || 0] from [0], so an entry that is [0], NaN or
    [undefined] adds [0]. *)
Definition sum (xs : list number) : number :=
  fold_left (fun result x => add result (if truthy x then x else Fin 0)) xs (Fin 0).

End Num.

Abbreviation number := Num.number.
Abbreviation Fin := Num.Fin.
Abbreviation PInf := Num.PInf.
Abbreviation NInf := Num.NInf.
Abbreviation NaN := Num.NaN.

(* ===================================================================== *)
(** ** Game constants and enumerations *)
(* ===================================================================== *)

(** Resource identifiers are the string constants of the game. *)
Abbreviation ResourceConstant := string (only parsing).

Definition RESOURCE_ENERGY : string := "energy".
Definition RESOURCE_POWER : string := "power".
Definition RESOURCE_OPS : string := "ops".

(** [ScreepsReturnCode], the result type of the game's actions. *)
Inductive ScreepsReturnCode : Type :=
| OK                          (* 0 *)
| ERR_NOT_OWNER               (* -1 *)
| ERR_NO_PATH                 (* -2 *)
| ERR_NAME_EXISTS             (* -3 *)
| ERR_BUSY                    (* -4 *)
| ERR_NOT_FOUND               (* -5 *)
| ERR_NOT_ENOUGH_RESOURCES    (* -6 *)
| ERR_INVALID_TARGET          (* -7 *)
| ERR_FULL                    (* -8 *)
| ERR_NOT_IN_RANGE            (* -9 *)
| ERR_INVALID_ARGS            (* -10 *)
| ERR_TIRED                   (* -11 *)
| ERR_NO_BODYPART             (* -12 *)
| ERR_RCL_NOT_ENOUGH          (* -14 *)
| ERR_GCL_NOT_ENOUGH.         (* -15 *)

#[global] Instance ScreepsReturnCode_eq_dec : EqDecision ScreepsReturnCode.
Proof. solve_decision. Defined.

(** [const enum TN_STATE] *)
Inductive TN_STATE : Type :=
| activeProvider    (* = 5 *)
| passiveProvider   (* = 4 *)
| equilibrium       (* = 3 *)
| passiveRequestor  (* = 2 *)
| activeRequestor   (* = 1 *)
| error.            (* = 0 *)

Definition TN_STATE_value (s : TN_STATE) : Z :=
  match s with
  | activeProvider => 5
  | passiveProvider => 4
  | equilibrium => 3
  | passiveRequestor => 2
  | activeRequestor => 1
  | error => 0
  end.

(** [interface Thresholds]; [surplus: undefined] is [None]. *)
Record Thresholds : Type := mkThresholds {
  target : number;
  surplus : option number;
  tolerance : number;
}.

Record RequestOpts : Type := mkRequestOpts {
  allowDivvying : bool;
  sendTargetPlusTolerance : bool;
  allowMarketBuy : bool;
  receiveOnlyOncePerTick : bool;
}.

Record ProvideOpts : Type := mkProvideOpts {
  allowPushToOtherRooms : bool;
  allowMarketSell : bool;
}.

Record TradeOpts : Type := mkTradeOpts {
  preferDirect : bool;
}.

(** A terminal structure, as far as this file looks at it: the room it
    stands in and whether it is owned.  What changes during a tick (its
    store, whether it is ready) is read from the world. *)
Record StructureTerminal : Type := mkTerminal {
  room_name : string;
  my : bool;
}.

Record StructureStorage : Type := mkStorage {
  storage_store : gmap string number;
}.

(** The part of [Colony] that the terminal network reads. *)
Record Colony : Type := mkColony {
  name : string;
  level : Z;
  assets : gmap string number;
  terminal : option StructureTerminal;
  storage : option StructureStorage;
  factory : bool;
}.

(** Whether an optional property holds an object (objects are truthy). *)
Definition defined {A} (o : option A) : bool :=
  match o with Some _ => true | None => false end.

(** [obj[key]] read as a number: a missing property is [undefined], which
    every arithmetic operator and comparison treats as NaN. *)
Definition get_num (obj : gmap string number) (key : string) : number :=
  default NaN (obj !! key).

(** [_.sum(obj)] over the values of an object. *)
Definition sum_values (obj : gmap string number) : number :=
  Num.sum (snd <$> map_to_list obj).

(** The game's [LAB_MINERAL_CAPACITY]; with it the three defaults below
    are the 7000, 45000 and 1000 that the source gives for them. *)
Definition LAB_MINERAL_CAPACITY : number := Fin 3000.

Definition DEFAULT_TARGET : number :=
  Num.add (Num.mul (Fin 2) LAB_MINERAL_CAPACITY) (Fin 1000).
Definition DEFAULT_SURPLUS : number := Num.mul (Fin 15) LAB_MINERAL_CAPACITY.
Definition DEFAULT_TOLERANCE : number := Num.div LAB_MINERAL_CAPACITY (Fin 3).

Definition THRESHOLDS_DEFAULT : Thresholds :=
  {| target := DEFAULT_TARGET;
     surplus := Some DEFAULT_SURPLUS;
     tolerance := DEFAULT_TOLERANCE |}.
Definition THRESHOLDS_DONT_WANT : Thresholds :=
  {| target := Fin 0; surplus := Some (Fin 0); tolerance := Fin 0 |}.
Definition THRESHOLDS_DONT_CARE : Thresholds :=
  {| target := Fin 0; surplus := None; tolerance := Fin 0 |}.
Definition THRESHOLDS_POWER : Thresholds :=
  {| target := Fin 2500; surplus := None; tolerance := Fin 2500 |}.
Definition THRESHOLDS_OPS : Thresholds :=
  {| target := Fin 2500; surplus := None; tolerance := Fin 2500 |}.

(** [TerminalNetworkV2.settings] *)
Definition maxEnergySendAmount : number := Fin 25000.
Definition maxResourceSendAmount : number := Fin 3000.
Definition minColonySpace : number := Fin 20000.

(* ===================================================================== *)
(** ** The network object, the world and the monad *)
(* ===================================================================== *)

(** [interface TerminalNetworkStats], the object kept in persistent memory.
    The [costs] table sits beside the per-resource tables inside
    [transfers]; no resource is called [costs], so the two are separate
    fields here.  The [states] snapshot is written by [recordStats] only. *)
Record TerminalNetworkStats : Type := mkStats {
  transfers : gmap string (gmap string (gmap string number));
  costs : gmap string (gmap string number);
  avgCooldown : gmap string number;
  overload : gmap string number;
}.

Definition TerminalNetworkStatsDefaults : TerminalNetworkStats :=
  {| transfers := ∅; costs := ∅; avgCooldown := ∅; overload := ∅ |}.

(** A line pushed on [notifications]: the rendered text is kept as its
    parts (the bullet and the arrows are decoration). *)
Inductive Notification : Type :=
| TransferNote (origin : string) (amount : number) (resourceType : string)
               (destination : string) (description : string)
| TextNote (msg : string).

(** The fields of [class TerminalNetworkV2]. *)
Record TerminalNetworkV2 : Type := mkNetwork {
  colonies : list Colony;
  colonyThresholds : gmap string (gmap string Thresholds);
  _energyThresholds : option Thresholds;
  colonyStates : gmap string (gmap string TN_STATE);
  activeProviders : gmap string (list Colony);
  passiveProviders : gmap string (list Colony);
  equilibriumNodes : gmap string (list Colony);
  passiveRequestors : gmap string (list Colony);
  activeRequestors : gmap string (list Colony);
  network_assets : gmap string number;
  notifications : list Notification;
  stats : TerminalNetworkStats;
  terminalOverload : gmap string bool;
}.

Inductive LogLevel : Type := LogError | LogWarning | LogInfo.

Section Host.

(** The state of the game outside the network object. *)
Context {World : Type}.

(** What the code did to its environment, newest first.  A [Send] keeps
    the world in which the terminal was asked to send. *)
Inductive Effect : Type :=
| Send (w : World) (sender : StructureTerminal) (resourceType : string)
       (amount : number) (destination : string) (response : ScreepsReturnCode)
| Buy (term : option StructureTerminal) (resource : string) (amount : number)
      (ret : number)
| Sell (term : option StructureTerminal) (resource : string) (amount : number)
       (opts : TradeOpts) (ret : number)
| Log (lvl : LogLevel) (msg : string).

(** Everything this file uses and does not define: constants of the game,
    the game API, and the helpers of other modules of the repository
    ([Abathur], [TraderJoe], [Mem], [maxBy] and [minBy] of [utils]). *)
Class Host : Type := mkHost {
  STORAGE_CAPACITY : number;
  TERMINAL_CAPACITY : number;
  FACTORY_CAPACITY : number;
  isBaseMineral : string -> bool;
  isIntermediateReactant : string -> bool;
  isHealBoost : string -> bool;
  isMineralOrCompound : string -> bool;
  isDepositResource : string -> bool;
  isCommodity : string -> bool;
  isBoost : string -> bool;
  canBuyEnergyAbove : number;
  canBuyBoostsAbove : number;
  (** [Game.market.calcTransactionCost(amount, roomName1, roomName2)] *)
  calcTransactionCost : number -> string -> string -> number;
  (** [Game.market.credits] *)
  credits : World -> number;
  (** [terminal.isReady] and [terminal.store[resource]]; the game's store
      answers every resource constant with a finite amount. *)
  isReady : World -> StructureTerminal -> bool;
  store : World -> StructureTerminal -> string -> Q;
  (** [terminal.send(resourceType, amount, destination)] *)
  send : World -> StructureTerminal -> string -> number -> string ->
         ScreepsReturnCode * World;
  (** [Overmind.tradeNetwork.buy] and [.sell] *)
  buy : World -> option StructureTerminal -> string -> number ->
        number * World;
  sell : World -> option StructureTerminal -> string -> number -> TradeOpts ->
         number * World;
  (** [maxBy(objects, iteratee)] and [minBy(objects, iteratee)]; [None] is
      [undefined]. *)
  maxBy : list Colony -> (Colony -> number) -> option Colony;
  minBy : list Colony -> (Colony -> number) -> option Colony;
  (** [Mem.wrap(Memory.stats.persistent, 'terminalNetwork', defaults, true)]
      applied to the object currently stored there. *)
  Mem_wrap : TerminalNetworkStats -> TerminalNetworkStats -> TerminalNetworkStats;
  (** [mergeSum(objects)] of [utils] *)
  mergeSum : list (gmap string number) -> gmap string number;
}.

Record St : Type := mkSt {
  net : TerminalNetworkV2;
  world : World;
  trace : list Effect;
}.

(** A call either returns or throws a [TypeError]. *)
Inductive Outcome (A : Type) : Type :=
| Ret (a : A)
| Throw.
#[global] Arguments Ret {A} a.
#[global] Arguments Throw {A}.

Definition M (A : Type) : Type := St -> Outcome A * St.

Definition ret {A} (a : A) : M A := fun s => (Ret a, s).
Definition throw {A} : M A := fun s => (Throw, s).
Definition bind {A B} (m : M A) (k : A -> M B) : M B :=
  fun s => match m s with
           | (Ret a, s') => k a s'
           | (Throw, s') => (Throw, s')
           end.

(** Primitive actions on the three components of the state. *)
Definition getNet : M TerminalNetworkV2 := fun s => (Ret (net s), s).
Definition getWorld : M World := fun s => (Ret (world s), s).
Definition modifyNet (f : TerminalNetworkV2 -> TerminalNetworkV2) : M unit :=
  fun s => (Ret tt, {| net := f (net s); world := world s; trace := trace s |}).
Definition emit (e : Effect) : M unit :=
  fun s => (Ret tt, {| net := net s; world := world s; trace := e :: trace s |}).
Definition setWorld (w : World) : M unit :=
  fun s => (Ret tt, {| net := net s; world := w; trace := trace s |}).

End Host.

#[global] Arguments Effect : clear implicits.
#[global] Arguments Host : clear implicits.
#[global] Arguments St : clear implicits.
#[global] Arguments M : clear implicits.

Declare Scope tn_scope.
Delimit Scope tn_scope with tn.
Notation "'let*' x ':=' m 'in' k" := (bind m (fun x => k))
  (at level 10, x pattern, m at level 100, k at level 200) : tn_scope.
Notation "m ';;' k" := (bind m (fun _ => k))
  (at level 100, k at level 200, right associativity) : tn_scope.
Local Open Scope tn_scope.

(** Field updates of the network object. *)
Definition set_colonies (v : list Colony) (n : TerminalNetworkV2) :=
  {| colonies := v; colonyThresholds := colonyThresholds n;
     _energyThresholds := _energyThresholds n; colonyStates := colonyStates n;
     activeProviders := activeProviders n; passiveProviders := passiveProviders n;
     equilibriumNodes := equilibriumNodes n; passiveRequestors := passiveRequestors n;
     activeRequestors := activeRequestors n; network_assets := network_assets n;
     notifications := notifications n; stats := stats n;
     terminalOverload := terminalOverload n |}.
Definition set_colonyThresholds (v : gmap string (gmap string Thresholds))
    (n : TerminalNetworkV2) :=
  {| colonies := colonies n; colonyThresholds := v;
     _energyThresholds := _energyThresholds n; colonyStates := colonyStates n;
     activeProviders := activeProviders n; passiveProviders := passiveProviders n;
     equilibriumNodes := equilibriumNodes n; passiveRequestors := passiveRequestors n;
     activeRequestors := activeRequestors n; network_assets := network_assets n;
     notifications := notifications n; stats := stats n;
     terminalOverload := terminalOverload n |}.
Definition set_energyThresholds (v : option Thresholds) (n : TerminalNetworkV2) :=
  {| colonies := colonies n; colonyThresholds := colonyThresholds n;
     _energyThresholds := v; colonyStates := colonyStates n;
     activeProviders := activeProviders n; passiveProviders := passiveProviders n;
     equilibriumNodes := equilibriumNodes n; passiveRequestors := passiveRequestors n;
     activeRequestors := activeRequestors n; network_assets := network_assets n;
     notifications := notifications n; stats := stats n;
     terminalOverload := terminalOverload n |}.
Definition set_colonyStates (v : gmap string (gmap string TN_STATE))
    (n : TerminalNetworkV2) :=
  {| colonies := colonies n; colonyThresholds := colonyThresholds n;
     _energyThresholds := _energyThresholds n; colonyStates := v;
     activeProviders := activeProviders n; passiveProviders := passiveProviders n;
     equilibriumNodes := equilibriumNodes n; passiveRequestors := passiveRequestors n;
     activeRequestors := activeRequestors n; network_assets := network_assets n;
     notifications := notifications n; stats := stats n;
     terminalOverload := terminalOverload n |}.
Definition set_network_assets (v : gmap string number) (n : TerminalNetworkV2) :=
  {| colonies := colonies n; colonyThresholds := colonyThresholds n;
     _energyThresholds := _energyThresholds n; colonyStates := colonyStates n;
     activeProviders := activeProviders n; passiveProviders := passiveProviders n;
     equilibriumNodes := equilibriumNodes n; passiveRequestors := passiveRequestors n;
     activeRequestors := activeRequestors n; network_assets := v;
     notifications := notifications n; stats := stats n;
     terminalOverload := terminalOverload n |}.
Definition set_notifications (v : list Notification) (n : TerminalNetworkV2) :=
  {| colonies := colonies n; colonyThresholds := colonyThresholds n;
     _energyThresholds := _energyThresholds n; colonyStates := colonyStates n;
     activeProviders := activeProviders n; passiveProviders := passiveProviders n;
     equilibriumNodes := equilibriumNodes n; passiveRequestors := passiveRequestors n;
     activeRequestors := activeRequestors n; network_assets := network_assets n;
     notifications := v; stats := stats n;
     terminalOverload := terminalOverload n |}.
Definition set_stats (v : TerminalNetworkStats) (n : TerminalNetworkV2) :=
  {| colonies := colonies n; colonyThresholds := colonyThresholds n;
     _energyThresholds := _energyThresholds n; colonyStates := colonyStates n;
     activeProviders := activeProviders n; passiveProviders := passiveProviders n;
     equilibriumNodes := equilibriumNodes n; passiveRequestors := passiveRequestors n;
     activeRequestors := activeRequestors n; network_assets := network_assets n;
     notifications := notifications n; stats := v;
     terminalOverload := terminalOverload n |}.
Definition set_terminalOverload (v : gmap string bool) (n : TerminalNetworkV2) :=
  {| colonies := colonies n; colonyThresholds := colonyThresholds n;
     _energyThresholds := _energyThresholds n; colonyStates := colonyStates n;
     activeProviders := activeProviders n; passiveProviders := passiveProviders n;
     equilibriumNodes := equilibriumNodes n; passiveRequestors := passiveRequestors n;
     activeRequestors := activeRequestors n; network_assets := network_assets n;
     notifications := notifications n; stats := stats n;
     terminalOverload := v |}.
Definition set_transfers (v : gmap string (gmap string (gmap string number)))
    (t : TerminalNetworkStats) :=
  {| transfers := v; costs := costs t; avgCooldown := avgCooldown t;
     overload := overload t |}.
Definition set_costs (v : gmap string (gmap string number))
    (t : TerminalNetworkStats) :=
  {| transfers := transfers t; costs := v; avgCooldown := avgCooldown t;
     overload := overload t |}.

(* ===================================================================== *)
(** ** Threshold table *)
(* ===================================================================== *)

Section Network.

Context {World : Type} `{!Host World}.

Definition log (lvl : LogLevel) (msg : string) : M World unit :=
  emit (Log lvl msg).

(** [function getThresholds(resource)].  The [log.error] of the last
    branch happens once, when the module is loaded, and is left out. *)
Definition getThresholds (resource : string) : Thresholds :=
  if String.eqb resource RESOURCE_POWER then THRESHOLDS_POWER
  else if String.eqb resource RESOURCE_OPS then THRESHOLDS_OPS
  else if isBaseMineral resource then THRESHOLDS_DEFAULT
  else if isIntermediateReactant resource then THRESHOLDS_DEFAULT
  else if isHealBoost resource then
    {| target := Num.mul (Fin 1.5) DEFAULT_TARGET;
       surplus := Some DEFAULT_SURPLUS;
       tolerance := DEFAULT_TOLERANCE |}
  else if isMineralOrCompound resource then THRESHOLDS_DEFAULT
  else if isDepositResource resource then THRESHOLDS_DONT_CARE
  else if isCommodity resource then THRESHOLDS_DONT_CARE
  else THRESHOLDS_DONT_CARE.

(** [ALL_THRESHOLDS[resource]]: the table holds [getThresholds(res)] for
    every resource constant other than energy, which is where
    [thresholds] reads it.  The argument stands for a [ResourceConstant]:
    at a string that is no key of the table the source reads [undefined],
    which this function does not model; the table itself, with its keys,
    is [ALL_THRESHOLDS_object]. *)
Definition ALL_THRESHOLDS (resource : string) : Thresholds :=
  getThresholds resource.

(** [this.colonyThresholds[colName] && this.colonyThresholds[colName][resource]] *)
Definition colonyThreshold (n : TerminalNetworkV2) (colName resource : string)
    : option Thresholds :=
  match colonyThresholds n !! colName with
  | Some byResource => byResource !! resource
  | None => None
  end.

(* ===================================================================== *)
(** ** The class methods *)
(* ===================================================================== *)

(** [refresh()] *)
Definition refresh : M World unit :=
  modifyNet (fun n =>
    {| colonies := colonies n;
       colonyThresholds := ∅;
       _energyThresholds := None;
       colonyStates := ∅;
       activeProviders := ∅;
       passiveProviders := ∅;
       equilibriumNodes := ∅;
       passiveRequestors := ∅;
       activeRequestors := ∅;
       network_assets := ∅;
       terminalOverload := ∅;
       notifications := [];
       stats := Mem_wrap (stats n) TerminalNetworkStatsDefaults |}).

(** [addColony(colony)] *)
Definition addColony (colony : Colony) : M World unit :=
  if negb (match terminal colony with
           | Some t => my t && (6 <=? level colony)%Z
           | None => false
           end)
  then log LogError "Cannot add colony to terminal network!"
  else modifyNet (fun n => set_colonies (colonies n ++ [colony]) n).

(** [_.isEmpty(obj)] *)
Definition isEmpty {A} (obj : gmap string A) : bool := Nat.eqb (size obj) 0.

(** [getAssets()] *)
Definition getAssets : M World (gmap string number) :=
  let* n := getNet in
  (if isEmpty (network_assets n)
   then modifyNet (set_network_assets (mergeSum (assets <$> colonies n)))
   else ret tt);;
  let* n := getNet in
  ret (network_assets n).

(** [logTransferCosts(amount, origin, destination)] *)
Definition logTransferCosts (amount : number) (origin destination : string)
    : M World unit :=
  modifyNet (fun n =>
    let byOrigin := default ∅ (costs (stats n) !! origin) in
    let old := match byOrigin !! destination with
               | Some v => if Num.truthy v then v else Fin 0
               | None => Fin 0
               end in
    let transactionCost := calcTransactionCost amount origin destination in
    set_stats
      (set_costs (<[origin := <[destination := Num.add old transactionCost]> byOrigin]>
                    (costs (stats n)))
                 (stats n)) n).

(** [logTransfer(resourceType, amount, origin, destination)] *)
Definition logTransfer (resourceType : string) (amount : number)
    (origin destination : string) : M World unit :=
  modifyNet (fun n =>
    let byResource := default ∅ (transfers (stats n) !! resourceType) in
    let byOrigin := default ∅ (byResource !! origin) in
    let old := match byOrigin !! destination with
               | Some v => if Num.truthy v then v else Fin 0
               | None => Fin 0
               end in
    set_stats
      (set_transfers
         (<[resourceType := <[origin := <[destination := Num.add old amount]> byOrigin]>
                              byResource]>
            (transfers (stats n)))
         (stats n)) n);;
  logTransferCosts amount origin destination.

(** [notify(msg)] *)
Definition notify (msg : Notification) : M World unit :=
  modifyNet (fun n => set_notifications (notifications n ++ [msg]) n).

(** [this.terminalOverload[roomName] = true] *)
Definition markOverloaded (roomName : string) : M World unit :=
  modifyNet (fun n =>
    set_terminalOverload (<[roomName := true]> (terminalOverload n)) n).

(** [transfer(sender, receiver, resourceType, amount, description)].  The
    callers pass [colony.terminal!], which may be [undefined]; reading
    [.room] of it throws. *)
Definition transfer (sender receiver : option StructureTerminal)
    (resourceType : string) (amount : number) (description : string)
    : M World ScreepsReturnCode :=
  match sender, receiver with
  | Some sender, Some receiver =>
      let cost := calcTransactionCost amount (room_name sender) (room_name receiver) in
      let* w := getWorld in
      let (response, w') := send w sender resourceType amount (room_name receiver) in
      setWorld w';;
      emit (Send w sender resourceType amount (room_name receiver) response);;
      (if bool_decide (response = OK) then
         notify (TransferNote (room_name sender) amount resourceType
                              (room_name receiver) description);;
         logTransfer resourceType amount (room_name sender) (room_name receiver)
       else
         log LogWarning "Could not send!";;
         if bool_decide (response = ERR_NOT_ENOUGH_RESOURCES)
            || bool_decide (response = ERR_TIRED)
         then markOverloaded (room_name sender)
         else ret tt);;
      ret response
  | _, _ => throw
  end.

(** [getRemainingSpace(colony, includeFactoryCapacity = false)] *)
Definition getRemainingSpace (colony : Colony) (includeFactoryCapacity : bool)
    : number :=
  let totalAssets := sum_values (assets colony) in
  let totalAssets :=
    match storage colony with
    | Some st =>
        if Num.gt (sum_values (storage_store st)) STORAGE_CAPACITY
        then Num.sub totalAssets
               (Num.sub (sum_values (storage_store st)) STORAGE_CAPACITY)
        else totalAssets
    | None => totalAssets
    end in
  let roomCapacity :=
    Num.add (Num.add (if defined (terminal colony) then TERMINAL_CAPACITY else Fin 0)
                     (if defined (storage colony) then STORAGE_CAPACITY else Fin 0))
            (if factory colony && includeFactoryCapacity
             then FACTORY_CAPACITY else Fin 0) in
  Num.sub roomCapacity totalAssets.

(** The colonies [getEnergyThresholds] averages over. *)
Definition nonExceptionalColonies (n : TerminalNetworkV2) : list Colony :=
  List.filter
    (fun colony =>
       defined (storage colony)
       && negb (defined (colonyThreshold n (name colony) RESOURCE_ENERGY)))
    (colonies n).

(** [getEnergyThresholds()] *)
Definition getEnergyThresholds : M World Thresholds :=
  let* n := getNet in
  match _energyThresholds n with
  | Some th => ret th
  | None =>
      let avgEnergy :=
        Num.div
          (Num.sum (List.map (fun colony => get_num (assets colony) RESOURCE_ENERGY)
                             (nonExceptionalColonies n)))
          (Num.of_Z (Z.of_nat (length (nonExceptionalColonies n)))) in
      let th := {| target := avgEnergy;
                   surplus := Some (Fin 500000);
                   tolerance := Num.div avgEnergy (Fin 5) |} in
      modifyNet (set_energyThresholds (Some th));;
      ret th
  end.

(** [thresholds(colony, resource)] *)
Definition thresholds (colony : Colony) (resource : string) : M World Thresholds :=
  let* n := getNet in
  match colonyThreshold n (name colony) resource with
  | Some th => ret th
  | None =>
      if String.eqb resource RESOURCE_ENERGY
      then getEnergyThresholds
      else ret (ALL_THRESHOLDS resource)
  end.

(** [getColonyState(colony, resource)] *)
Definition getColonyState (colony : Colony) (resource : string) : M World TN_STATE :=
  let* th := thresholds colony resource in
  let amount := get_num (assets colony) resource in
  if match surplus th with Some s => Num.gt amount s | None => false end
     || (Num.gt amount (Num.add (target th) (tolerance th))
         && Num.lt (getRemainingSpace colony false) minColonySpace)
  then ret activeProvider
  else if Num.ge (match surplus th with Some s => s | None => PInf end) amount
          && Num.gt amount (Num.add (target th) (tolerance th))
  then ret passiveProvider
  else if Num.ge (Num.add (target th) (tolerance th)) amount
          && Num.ge amount (Num.max2 (Num.sub (target th) (tolerance th)) (Fin 0))
  then ret equilibrium
  else if Num.lt amount (Num.max2 (Num.sub (target th) (tolerance th)) (Fin 0))
  then ret passiveRequestor
  else
    log LogError "Shouldn't reach this part of TerminalNetwork code!";;
    ret error.

(** [requestResource(requestor, resource, amount, tolerance = 0)] *)
Definition requestResource (requestor : Colony) (resource : string)
    (amount : number) (tolerance : number) : M World unit :=
  if Num.ge (get_num (assets requestor) resource) amount then
    log LogError "TerminalNetwork.requestResource() called, but colony already has amount!"
  else
    let* n := getNet in
    (match colonyThresholds n !! name requestor with
     | Some _ => ret tt
     | None =>
         modifyNet (set_colonyThresholds (<[name requestor := ∅]> (colonyThresholds n)))
     end);;
    let* n := getNet in
    (match colonyThreshold n (name requestor) resource with
     | Some _ => log LogWarning "colonyThresholds already set; overriding previous request!"
     | None => ret tt
     end);;
    modifyNet (fun n =>
      set_colonyThresholds
        (<[name requestor :=
             <[resource := {| target := amount; surplus := None; tolerance := tolerance |}]>
               (default ∅ (colonyThresholds n !! name requestor))]>
           (colonyThresholds n)) n);;
    let* n := getNet in
    match colonyStates n !! name requestor with
    | Some byResource =>
        modifyNet (set_colonyStates
                     (<[name requestor := <[resource := activeRequestor]> byResource]>
                        (colonyStates n)))
    | None => throw
    end.

(** [exportResource(provider, resource, thresholds = THRESHOLDS_DONT_WANT)] *)
Definition exportResource (provider : Colony) (resource : string)
    (th : Thresholds) : M World unit :=
  let* n := getNet in
  (match colonyThreshold n (name provider) resource with
   | Some _ => log LogWarning "colonyThresholds already set; overriding previous request!"
   | None => ret tt
   end);;
  modifyNet (fun n =>
    set_colonyThresholds
      (<[name provider :=
           <[resource := th]> (default ∅ (colonyThresholds n !! name provider))]>
         (colonyThresholds n)) n).

(** [init()] *)
Definition init : M World unit :=
  let* a := getAssets in
  modifyNet (set_network_assets a);;
  let* n := getNet in
  modifyNet (fun n =>
    set_colonyStates
      (fold_left (fun m colony => <[name colony := ∅]> m) (colonies n) (colonyStates n))
      n).

(* ===================================================================== *)
(** ** Request and provide handlers *)
(* ===================================================================== *)

(** [_.filter(xs, pred)] with a predicate that runs in the monad (the
    predicates below call [this.thresholds], which may fill the cache). *)
Fixpoint filterM {A} (pred : A -> M World bool) (xs : list A) : M World (list A) :=
  match xs with
  | [] => ret []
  | x :: rest =>
      let* keep := pred x in
      let* kept := filterM pred rest in
      ret (if keep then x :: kept else kept)
  end.

(** [_.map(xs, f)] with [f] in the monad. *)
Fixpoint mapM {A B} (f : A -> M World B) (xs : list A) : M World (list B) :=
  match xs with
  | [] => ret []
  | x :: rest =>
      let* y := f x in
      let* ys := mapM f rest in
      ret (y :: ys)
  end.

(** lodash's [baseCompareAscending(value, other)] on numbers: [1], [-1] or
    [0]; a NaN sorts after everything. *)
Definition compareAscending (value other : number) : Z :=
  if Num.eqb value other then 0%Z
  else if Num.gt value other || Num.is_nan value then 1%Z
  else if Num.lt value other || Num.is_nan other then (-1)%Z
  else 0%Z.

(** [_.sortBy(xs, key)] is a stable ascending sort of the (element, key)
    pairs: an element goes before the first one that does not compare
    lower than it. *)
Fixpoint sortBy_insert {A} (x : A * number) (sorted : list (A * number))
    : list (A * number) :=
  match sorted with
  | [] => [x]
  | y :: rest =>
      if (compareAscending (snd x) (snd y) <=? 0)%Z
      then x :: y :: rest
      else y :: sortBy_insert x rest
  end.

Definition sortBy {A} (keyed : list (A * number)) : list A :=
  fst <$> foldr sortBy_insert [] keyed.

(** [resource == RESOURCE_ENERGY ? maxEnergySendAmount : maxResourceSendAmount] *)
Definition maxAmountFor (resource : string) : number :=
  if String.eqb resource RESOURCE_ENERGY
  then maxEnergySendAmount
  else maxResourceSendAmount.

(** [sendTerm.store[resource]] where [sendTerm] is [colony.terminal!] *)
Definition storeOf (t : option StructureTerminal) (resource : string) : M World number :=
  match t with
  | Some t => let* w := getWorld in ret (Fin (store w t resource))
  | None => throw
  end.

(** [sendTerm.isReady] *)
Definition isReadyOf (t : option StructureTerminal) : M World bool :=
  match t with
  | Some t => let* w := getWorld in ret (isReady w t)
  | None => throw
  end.

(** [this.terminalOverload[sendTerm.room.name] = true] *)
Definition markOverloadedOf (t : option StructureTerminal) : M World unit :=
  match t with
  | Some t => markOverloaded (room_name t)
  | None => throw
  end.

(** [getBestSenderColony(resource, amount, colony, partners)] *)
Definition getBestSenderColony (resource : string) (amount : number)
    (colony : Colony) (partners : list Colony) : M World (option Colony) :=
  (if Nat.eqb (length partners) 0
   then log LogError "Passed an empty list of sender partners!"
   else ret tt);;
  let K := Fin 2 in
  let BIG_COST := Fin 2000 in
  let* n := getNet in
  ret (maxBy partners (fun partner =>
    let sendCost := calcTransactionCost amount (name partner) (name colony) in
    let avgCooldown :=
      match avgCooldown (stats n) !! name partner with
      | Some v => if Num.truthy v then v else Fin 0
      | None => Fin 0
      end in
    Num.mul (Num.mul (Fin (-1)) sendCost)
            (Num.add (Num.add K (Num.div sendCost BIG_COST)) avgCooldown))).

(** The first loop of [handleRequestInstance]: the search for a single
    partner, one partner set after the other.  [Some b] is [return b];
    [None] is the end of the loop. *)
Fixpoint handleRequestInstance_single (colony : Colony) (resource : string)
    (requestAmount : number) (partnerSets : list (list Colony))
    : M World (option bool) :=
  match partnerSets with
  | [] => ret None
  | partners :: rest =>
      let* validPartners :=
        filterM (fun partner =>
                   let* th := thresholds partner resource in
                   ret (Num.ge (Num.sub (get_num (assets partner) resource) requestAmount)
                               (target th)))
                partners in
      let* validPartners :=
        if Nat.eqb (length validPartners) 0 then
          filterM (fun partner =>
                     let* thp := thresholds partner resource in
                     let* thc := thresholds colony resource in
                     ret (Num.ge (Num.sub (get_num (assets partner) resource) requestAmount)
                                 (Num.sub (target thp) (tolerance thc))))
                  partners
        else ret validPartners in
      if (0 <? length validPartners)%nat then
        let* bestPartner :=
          getBestSenderColony resource requestAmount colony validPartners in
        match bestPartner with
        | None => throw
        | Some bestPartner =>
            let sendTerm := terminal bestPartner in
            let recvTerm := terminal colony in
            let maxAmount := maxAmountFor resource in
            let* sendTermStore := storeOf sendTerm resource in
            let sendAmount := Num.min3 requestAmount sendTermStore maxAmount in
            let* ready := isReadyOf sendTerm in
            (if ready
             then let* _ := transfer sendTerm recvTerm resource requestAmount
                                     "request for resource" in ret tt
             else markOverloadedOf sendTerm);;
            ret (Some true)
        end
      else handleRequestInstance_single colony resource requestAmount rest
  end.

(** The loop over the partners chosen for divvying; the loop variables
    [remainingAmount] and [sentSome] are threaded through.  [inl tt] is
    the [return true] inside the loop, [inr] the variables at its end. *)
Fixpoint handleRequestInstance_divvy (colony : Colony) (resource : string)
    (validPartners : list Colony) (remainingAmount : number) (sentSome : bool)
    : M World (unit + number * bool) :=
  match validPartners with
  | [] => ret (inr (remainingAmount, sentSome))
  | partner :: rest =>
      let sendTerm := terminal partner in
      let recvTerm := terminal colony in
      let* sendTermStore := storeOf sendTerm resource in
      let* th := thresholds partner resource in
      let amountPartnerCanSend := Num.sub sendTermStore (target th) in
      let maxAmount := maxAmountFor resource in
      let sendAmount := Num.min3 amountPartnerCanSend remainingAmount maxAmount in
      let* ready := isReadyOf sendTerm in
      let* vars :=
        if ready then
          let* r := transfer sendTerm recvTerm resource sendAmount
                             "request for resource" in
          if bool_decide (r = OK)
          then ret (Num.sub remainingAmount sendAmount, true)
          else markOverloadedOf sendTerm;; ret (remainingAmount, sentSome)
        else markOverloadedOf sendTerm;; ret (remainingAmount, sentSome) in
      let remainingAmount := fst vars in
      let sentSome := snd vars in
      if Num.le remainingAmount (Fin 0)
      then ret (inl tt)
      else handleRequestInstance_divvy colony resource rest remainingAmount sentSome
  end.

(** The partners the divvy loop runs over:
    [_(allPartners).filter(..).sortBy(..).take(MAX_SEND_REQUESTS).value()] *)
Definition divvyPartners (resource : string) (partnerSets : list (list Colony))
    : M World (list Colony) :=
  let MAX_SEND_REQUESTS := 3%nat in
  let allPartners := concat partnerSets in
  let* filtered :=
    filterM (fun partner =>
               let* th := thresholds partner resource in
               ret (Num.gt (get_num (assets partner) resource) (target th)))
            allPartners in
  let* keyed :=
    mapM (fun partner =>
            let* th := thresholds partner resource in
            ret (partner, Num.sub (get_num (assets partner) resource) (target th)))
         filtered in
  ret (take MAX_SEND_REQUESTS (sortBy keyed)).

(** [handleRequestInstance(colony, resource, requestAmount, partnerSets, opts)] *)
Definition handleRequestInstance (colony : Colony) (resource : string)
    (requestAmount : number) (partnerSets : list (list Colony)) (opts : RequestOpts)
    : M World bool :=
  let* single := handleRequestInstance_single colony resource requestAmount partnerSets in
  match single with
  | Some b => ret b
  | None =>
      let* divvied :=
        if allowDivvying opts then
          let* validPartners := divvyPartners resource partnerSets in
          let* r := handleRequestInstance_divvy colony resource validPartners
                                                requestAmount false in
          match r with
          | inl tt => ret true
          | inr (_, sentSome) => ret sentSome
          end
        else ret false in
      if divvied then ret true
      else if allowMarketBuy opts then
        let* w := getWorld in
        if String.eqb resource RESOURCE_ENERGY
           && Num.lt (credits w) canBuyEnergyAbove
        then ret false
        else if isBoost resource && Num.lt (credits w) canBuyBoostsAbove
        then ret false
        else
          let (r, w') := buy w (terminal colony) resource requestAmount in
          setWorld w';;
          emit (Buy (terminal colony) resource requestAmount r);;
          if Num.ge r (Fin 0) then ret true else ret false
      else ret false
  end.

(** The loop of [handleProvideInstance] over the partner sets.  [Some b]
    is [return b]; [None] is the end of the loop. *)
Fixpoint handleProvideInstance_push (colony : Colony) (resource : string)
    (sendAmount : number) (partnerSets : list (list Colony))
    : M World (option bool) :=
  match partnerSets with
  | [] => ret None
  | partners :: rest =>
      let* validPartners :=
        filterM (fun partner =>
                   let* th := thresholds partner resource in
                   ret (Num.le (Num.add (get_num (assets partner) resource) sendAmount)
                               (target th)
                        && Num.ge (Num.sub (getRemainingSpace partner false) sendAmount)
                                  minColonySpace))
                partners in
      let* validPartners :=
        if Nat.eqb (length validPartners) 0 then
          filterM (fun partner =>
                     let* thp := thresholds partner resource in
                     let* thc := thresholds colony resource in
                     ret (Num.le (Num.add (get_num (assets partner) resource) sendAmount)
                                 (Num.add (target thp) (tolerance thc))
                          && Num.ge (Num.sub (getRemainingSpace partner false) sendAmount)
                                    minColonySpace))
                  partners
        else ret validPartners in
      let* validPartners :=
        if Nat.eqb (length validPartners) 0 then
          filterM (fun partner =>
                     if Num.lt (Num.sub (getRemainingSpace partner false) sendAmount)
                               minColonySpace
                     then ret false
                     else
                       let* th := thresholds partner resource in
                       match surplus th with
                       | Some s =>
                           ret (Num.lt (Num.add (get_num (assets partner) resource)
                                                sendAmount) s)
                       | None =>
                           ret (Num.le (Num.add (get_num (assets partner) resource)
                                                sendAmount)
                                       (Num.add (target th) (tolerance th)))
                       end)
                  partners
        else ret validPartners in
      if (0 <? length validPartners)%nat then
        match minBy validPartners (fun partner =>
                calcTransactionCost sendAmount (name colony) (name partner)) with
        | None => throw
        | Some bestPartner =>
            let sendTerm := terminal colony in
            let recvTerm := terminal bestPartner in
            let maxAmount := maxAmountFor resource in
            let* sendTermStore := storeOf sendTerm resource in
            let sendAmount := Num.min3 sendAmount sendTermStore maxAmount in
            let* ready := isReadyOf sendTerm in
            (if ready
             then let* _ := transfer sendTerm recvTerm resource sendAmount
                                     "provide instance for resource" in ret tt
             else markOverloadedOf sendTerm);;
            ret (Some true)
        end
      else handleProvideInstance_push colony resource sendAmount rest
  end.

(** [handleProvideInstance(colony, resource, sendAmount, partnerSets, opts)] *)
Definition handleProvideInstance (colony : Colony) (resource : string)
    (sendAmount : number) (partnerSets : list (list Colony)) (opts : ProvideOpts)
    : M World bool :=
  let* pushed :=
    if allowPushToOtherRooms opts
    then handleProvideInstance_push colony resource sendAmount partnerSets
    else ret None in
  match pushed with
  | Some b => ret b
  | None =>
      if allowMarketSell opts then
        let tradeOpts :=
          {| preferDirect :=
               (String.eqb resource RESOURCE_ENERGY || isBaseMineral resource)
               && Num.lt (getRemainingSpace colony false) minColonySpace |} in
        let* w := getWorld in
        let (r, w') := sell w (terminal colony) resource sendAmount tradeOpts in
        setWorld w';;
        emit (Sell (terminal colony) resource sendAmount tradeOpts r);;
        if Num.ge r (Fin 0) then ret true else ret false
      else ret false
  end.

End Network.

(* ===================================================================== *)
(** ** A small world to run the code in *)
(* ===================================================================== *)

(** The examples below run the code against this stand-in for the game: a
    terminal's store per room, the rooms whose terminal has already sent or
    is cooling down, and the player's credits. *)
Module Demo.

Record World : Type := mkWorld {
  stores : gmap string (gmap string Q);
  busy : list string;
  wallet : number;
}.

Definition inb (x : string) (xs : list string) : bool :=
  existsb (String.eqb x) xs.

Definition demo_store (w : World) (t : StructureTerminal) (resource : string) : Q :=
  match stores w !! room_name t with
  | Some st => default 0%Q (st !! resource)
  | None => 0%Q
  end.

Definition demo_isReady (w : World) (t : StructureTerminal) : bool :=
  negb (inb (room_name t) (busy w)).

(** A send is refused while the terminal is busy, when the amount is not
    positive, and when it asks for more than the store holds; otherwise it
    is accepted and the terminal is busy for the rest of the tick. *)
Definition demo_send (w : World) (t : StructureTerminal) (resource : string)
    (amount : number) (destination : string) : ScreepsReturnCode * World :=
  if negb (demo_isReady w t) then (ERR_TIRED, w)
  else if negb (Num.gt amount (Fin 0)) then (ERR_INVALID_ARGS, w)
  else if Num.lt (Fin (demo_store w t resource)) amount
  then (ERR_NOT_ENOUGH_RESOURCES, w)
  else (OK, {| stores := stores w; busy := room_name t :: busy w;
               wallet := wallet w |}).

(** The first element with the greatest (least) score, as a left-to-right
    scan that starts from minus (plus) infinity. *)
Definition demo_maxBy (objects : list Colony) (iteratee : Colony -> number)
    : option Colony :=
  fst (fold_left (fun acc obj =>
                    if Num.gt (iteratee obj) (snd acc)
                    then (Some obj, iteratee obj) else acc)
                 objects (None, NInf)).

Definition demo_minBy (objects : list Colony) (iteratee : Colony -> number)
    : option Colony :=
  fst (fold_left (fun acc obj =>
                    if Num.lt (iteratee obj) (snd acc)
                    then (Some obj, iteratee obj) else acc)
                 objects (None, PInf)).

Definition demo_mergeSum (objects : list (gmap string number)) : gmap string number :=
  fold_left (union_with (fun a b => Some (Num.add a b))) objects ∅.

#[global] Instance host : Host World := {|
  STORAGE_CAPACITY := Fin 1000000;
  TERMINAL_CAPACITY := Fin 300000;
  FACTORY_CAPACITY := Fin 50000;
  isBaseMineral := fun r => inb r ["H"; "O"; "U"; "L"; "K"; "Z"; "X"];
  isIntermediateReactant := fun r => inb r ["OH"; "ZK"; "UL"; "G"];
  isHealBoost := fun r => inb r ["LO"; "LHO2"; "XLHO2"];
  isMineralOrCompound := fun r => inb r ["UH"; "UO"; "KH"; "KO"; "LH"; "ZH"; "ZO"; "GH"; "GO"];
  isDepositResource := fun r => inb r ["silicon"; "metal"; "biomass"; "mist"];
  isCommodity := fun r => inb r ["wire"; "cell"; "alloy"; "condensate"];
  isBoost := fun r => inb r ["LO"; "LHO2"; "XLHO2"; "UH"; "UO"; "KH"; "KO"; "LH"; "ZH";
                             "ZO"; "GH"; "GO"];
  canBuyEnergyAbove := Fin 200000;
  canBuyBoostsAbove := Fin 100000;
  calcTransactionCost := fun amount _ _ => Num.div amount (Fin 10);
  credits := wallet;
  isReady := demo_isReady;
  store := demo_store;
  send := demo_send;
  buy := fun w _ _ amount => (Fin 0, w);
  sell := fun w _ _ amount _ => (Fin 0, w);
  maxBy := demo_maxBy;
  minBy := demo_minBy;
  Mem_wrap := fun memory _ => memory;
  mergeSum := demo_mergeSum;
|}.

Definition emptyNetwork : TerminalNetworkV2 :=
  {| colonies := []; colonyThresholds := ∅; _energyThresholds := None;
     colonyStates := ∅; activeProviders := ∅; passiveProviders := ∅;
     equilibriumNodes := ∅; passiveRequestors := ∅; activeRequestors := ∅;
     network_assets := ∅; notifications := [];
     stats := TerminalNetworkStatsDefaults; terminalOverload := ∅ |}.

(** A colony of level 8 with a terminal and a storage, holding [amount] of
    [resource] (all of it in the storage unless the world says otherwise). *)
Definition colonyWith (room resource : string) (amount : Q) : Colony :=
  {| name := room; level := 8;
     assets := {[ resource := Fin amount ]};
     terminal := Some {| room_name := room; my := true |};
     storage := Some {| storage_store := {[ resource := Fin amount ]} |};
     factory := false |}.

Definition start (cs : list Colony) (st : gmap string (gmap string Q)) : St World :=
  {| net := set_colonies cs emptyNetwork;
     world := {| stores := st; busy := []; wallet := Fin 1000000 |};
     trace := [] |}.

End Demo.

(* ===================================================================== *)
(** ** The tick: tier lists, requestors and providers *)
(* ===================================================================== *)

(** Field updates of the five tier lists. *)
Definition set_activeProviders (v : gmap string (list Colony)) (n : TerminalNetworkV2) :=
  {| colonies := colonies n; colonyThresholds := colonyThresholds n;
     _energyThresholds := _energyThresholds n; colonyStates := colonyStates n;
     activeProviders := v; passiveProviders := passiveProviders n;
     equilibriumNodes := equilibriumNodes n; passiveRequestors := passiveRequestors n;
     activeRequestors := activeRequestors n; network_assets := network_assets n;
     notifications := notifications n; stats := stats n;
     terminalOverload := terminalOverload n |}.
Definition set_passiveProviders (v : gmap string (list Colony)) (n : TerminalNetworkV2) :=
  {| colonies := colonies n; colonyThresholds := colonyThresholds n;
     _energyThresholds := _energyThresholds n; colonyStates := colonyStates n;
     activeProviders := activeProviders n; passiveProviders := v;
     equilibriumNodes := equilibriumNodes n; passiveRequestors := passiveRequestors n;
     activeRequestors := activeRequestors n; network_assets := network_assets n;
     notifications := notifications n; stats := stats n;
     terminalOverload := terminalOverload n |}.
Definition set_equilibriumNodes (v : gmap string (list Colony)) (n : TerminalNetworkV2) :=
  {| colonies := colonies n; colonyThresholds := colonyThresholds n;
     _energyThresholds := _energyThresholds n; colonyStates := colonyStates n;
     activeProviders := activeProviders n; passiveProviders := passiveProviders n;
     equilibriumNodes := v; passiveRequestors := passiveRequestors n;
     activeRequestors := activeRequestors n; network_assets := network_assets n;
     notifications := notifications n; stats := stats n;
     terminalOverload := terminalOverload n |}.
Definition set_passiveRequestors (v : gmap string (list Colony)) (n : TerminalNetworkV2) :=
  {| colonies := colonies n; colonyThresholds := colonyThresholds n;
     _energyThresholds := _energyThresholds n; colonyStates := colonyStates n;
     activeProviders := activeProviders n; passiveProviders := passiveProviders n;
     equilibriumNodes := equilibriumNodes n; passiveRequestors := v;
     activeRequestors := activeRequestors n; network_assets := network_assets n;
     notifications := notifications n; stats := stats n;
     terminalOverload := terminalOverload n |}.
Definition set_activeRequestors (v : gmap string (list Colony)) (n : TerminalNetworkV2) :=
  {| colonies := colonies n; colonyThresholds := colonyThresholds n;
     _energyThresholds := _energyThresholds n; colonyStates := colonyStates n;
     activeProviders := activeProviders n; passiveProviders := passiveProviders n;
     equilibriumNodes := equilibriumNodes n; passiveRequestors := passiveRequestors n;
     activeRequestors := v; network_assets := network_assets n;
     notifications := notifications n; stats := stats n;
     terminalOverload := terminalOverload n |}.

(** [interface RequestOpts] and [interface ProvideOpts] as a caller writes
    them: every field may be left out. *)
Record PartialRequestOpts : Type := mkPartialRequestOpts {
  opt_allowDivvying : option bool;
  opt_sendTargetPlusTolerance : option bool;
  opt_allowMarketBuy : option bool;
  opt_receiveOnlyOncePerTick : option bool;
}.

Record PartialProvideOpts : Type := mkPartialProvideOpts {
  opt_allowPushToOtherRooms : option bool;
  opt_allowMarketSell : option bool;
}.

(** The literal [{}]. *)
Definition noRequestOpts : PartialRequestOpts :=
  {| opt_allowDivvying := None; opt_sendTargetPlusTolerance := None;
     opt_allowMarketBuy := None; opt_receiveOnlyOncePerTick := None |}.
Definition noProvideOpts : PartialProvideOpts :=
  {| opt_allowPushToOtherRooms := None; opt_allowMarketSell := None |}.

(** [_.indexOf(array, value)] *)
Fixpoint indexOf (xs : list string) (x : string) : Z :=
  match xs with
  | [] => -1
  | y :: rest =>
      if String.eqb y x then 0
      else let i := indexOf rest x in
           if (i <? 0)%Z then -1 else (i + 1)%Z
  end.

(** [array.includes(value)] *)
Definition includes (xs : list string) (x : string) : bool :=
  existsb (String.eqb x) xs.

(** [_.zipObject(props, values)] (and its alias [_.object]): the pairs are
    written from left to right, a later one replacing an earlier one of the
    same key. *)
Definition zipObject {A} (props : list string) (values : list A) : gmap string A :=
  fold_left (fun obj kv => <[fst kv := snd kv]> obj) (zip props values) ∅.

(** What the tick reads beside [Host]: the resource tables of
    [map_resources] and of the game, the market setting of [TraderJoe], the
    clock, and [_.shuffle].  The random numbers [_.shuffle] draws belong to
    the world; the tier and the resource name the call.  All that is known
    of its result is that it holds the elements it was given. *)
Class TickHost (World : Type) : Type := mkTickHost {
  BOOSTS_T3 : list string;
  BOOSTS_T2 : list string;
  BOOSTS_T1 : list string;
  INTERMEDIATE_REACTANTS : list string;
  BASE_RESOURCES : list string;
  RESOURCES_ALL : list string;
  RESOURCES_ALL_EXCEPT_ENERGY : list string;
  (** [TraderJoe.settings.market.credits.canBuyAbove] *)
  canBuyAbove : number;
  (** [Game.time] *)
  time : World -> Z;
  (** [terminal.hasReceived] *)
  hasReceived : World -> StructureTerminal -> bool;
  (** [_.shuffle(cols)] *)
  shuffle : World -> TN_STATE -> string -> list Colony -> list Colony;
  shuffle_Permutation :
    forall w tier resource cols, shuffle w tier resource cols ≡ₚ cols;
}.

Section Tick.

Context {World : Type} `{!Host World} `{!TickHost World}.

(** [ALL_THRESHOLDS] as the module builds it, an object keyed by the
    resources other than energy. *)
Definition ALL_THRESHOLDS_object : gmap string Thresholds :=
  zipObject RESOURCES_ALL_EXCEPT_ENERGY (getThresholds <$> RESOURCES_ALL_EXCEPT_ENERGY).

Definition _resourcePrioritiesOrdered : list string :=
  (BOOSTS_T3 ++ [RESOURCE_OPS] ++ BOOSTS_T2 ++ BOOSTS_T1 ++ INTERMEDIATE_REACTANTS
   ++ BASE_RESOURCES ++ [RESOURCE_POWER; RESOURCE_ENERGY])%list.

Definition _resourcePrioritiesEverythingElse : list string :=
  List.filter (fun res => negb (includes _resourcePrioritiesOrdered res)) RESOURCES_ALL.

Definition RESOURCE_EXCHANGE_ORDER : list string :=
  (_resourcePrioritiesOrdered ++ _resourcePrioritiesEverythingElse)%list.

Definition _resourceExchangePrioritiesLookup : gmap string Z :=
  zipObject RESOURCE_EXCHANGE_ORDER
            (indexOf RESOURCE_EXCHANGE_ORDER <$> RESOURCE_EXCHANGE_ORDER).

(** [for (const x of xs) body(x)] *)
Fixpoint forEach {A} (xs : list A) (body : A -> M World unit) : M World unit :=
  match xs with
  | [] => ret tt
  | x :: rest => body x;; forEach rest body
  end.

(** [if (tier[resource] == undefined) tier[resource] = []; tier[resource].push(colony)] *)
Definition pushTo (resource : string) (colony : Colony)
    (tier : gmap string (list Colony)) : gmap string (list Colony) :=
  <[resource := (default [] (tier !! resource) ++ [colony])%list]> tier.

(** The body of the two loops of [assignColonyStates].  A state is kept
    when it is set and is not [error] (whose value is 0); [colonyStates]
    holds values of the enumeration only, so the [default] case of the
    [switch] is never taken. *)
Definition assignColonyStates_visit (colony : Colony) (resource : string)
    : M World unit :=
  let* n := getNet in
  (match colonyThresholds n !! name colony with
   | Some _ => ret tt
   | None =>
       modifyNet (set_colonyThresholds (<[name colony := ∅]> (colonyThresholds n)))
   end);;
  let* n := getNet in
  match colonyStates n !! name colony with
  | None => throw
  | Some byResource =>
      let compute :=
        let* st := getColonyState colony resource in
        modifyNet (fun n =>
          set_colonyStates
            (<[name colony := <[resource := st]> byResource]> (colonyStates n)) n);;
        ret st in
      let* state :=
        match byResource !! resource with
        | Some st => if (TN_STATE_value st =? 0)%Z then compute else ret st
        | None => compute
        end in
      match state with
      | activeProvider =>
          modifyNet (fun n =>
            set_activeProviders (pushTo resource colony (activeProviders n)) n)
      | passiveProvider =>
          modifyNet (fun n =>
            set_passiveProviders (pushTo resource colony (passiveProviders n)) n)
      | equilibrium =>
          modifyNet (fun n =>
            set_equilibriumNodes (pushTo resource colony (equilibriumNodes n)) n)
      | passiveRequestor =>
          modifyNet (fun n =>
            set_passiveRequestors (pushTo resource colony (passiveRequestors n)) n)
      | activeRequestor =>
          modifyNet (fun n =>
            set_activeRequestors (pushTo resource colony (activeRequestors n)) n)
      | error => log LogError "TN_STATE.error type encountered!"
      end
  end.

(** [_.forEach(tier, (cols, resource) => tier[resource] = _.shuffle(cols))] *)
Definition shuffleTier (w : World) (t : TN_STATE) (tier : gmap string (list Colony))
    : gmap string (list Colony) :=
  map_imap (fun resource cols => Some (shuffle w t resource cols)) tier.

(** The two nested loops of [assignColonyStates]. *)
Definition assignColonyStates_loops (cs : list Colony) : M World unit :=
  forEach cs (fun colony =>
    forEach RESOURCE_EXCHANGE_ORDER (fun resource =>
      assignColonyStates_visit colony resource)).

(** [assignColonyStates()] *)
Definition assignColonyStates : M World unit :=
  let* n := getNet in
  assignColonyStates_loops (colonies n);;
  let* w := getWorld in
  modifyNet (fun n =>
    set_activeRequestors (shuffleTier w activeRequestor (activeRequestors n)) n);;
  modifyNet (fun n =>
    set_passiveRequestors (shuffleTier w passiveRequestor (passiveRequestors n)) n);;
  modifyNet (fun n =>
    set_equilibriumNodes (shuffleTier w equilibrium (equilibriumNodes n)) n);;
  modifyNet (fun n =>
    set_passiveProviders (shuffleTier w passiveProvider (passiveProviders n)) n);;
  modifyNet (fun n =>
    set_activeProviders (shuffleTier w activeProvider (activeProviders n)) n).

(** [_.defaults(opts, {...})] of [handleRequestors].  The object of
    defaults spells its last key [recieveOnlyOncePerTick], so
    [opts.receiveOnlyOncePerTick] stays [undefined] when the caller left it
    out; the loop reads it as a condition, where [undefined] is false. *)
Definition requestDefaults (w : World) (opts : PartialRequestOpts) : RequestOpts :=
  {| allowDivvying := default false (opt_allowDivvying opts);
     sendTargetPlusTolerance := default false (opt_sendTargetPlusTolerance opts);
     allowMarketBuy := default (Num.gt (credits w) canBuyAbove) (opt_allowMarketBuy opts);
     receiveOnlyOncePerTick := default false (opt_receiveOnlyOncePerTick opts) |}.

(** [_.defaults(opts, {...})] of [handleProviders] *)
Definition provideDefaults (opts : PartialProvideOpts) : ProvideOpts :=
  {| allowPushToOtherRooms := default true (opt_allowPushToOtherRooms opts);
     allowMarketSell := default true (opt_allowMarketSell opts) |}.

(** [_.map(prioritizedPartners, partners => partners[resource] || [])] *)
Definition partnerSetsFor (resource : string)
    (prioritizedPartners : list (gmap string (list Colony))) : list (list Colony) :=
  (fun partners => default [] (partners !! resource)) <$> prioritizedPartners.

(** The body of the loops of [handleRequestors].  The text of the
    notification is kept without the amount. *)
Definition handleRequestors_visit
    (prioritizedPartners : list (gmap string (list Colony))) (opts : RequestOpts)
    (resource : string) (colony : Colony) : M World unit :=
  let* w := getWorld in
  if receiveOnlyOncePerTick opts
     && match terminal colony with Some t => hasReceived w t | None => false end
  then ret tt
  else
    let* th := thresholds colony resource in
    let requestAmount := Num.sub (target th) (get_num (assets colony) resource) in
    let requestAmount :=
      if sendTargetPlusTolerance opts
      then Num.add requestAmount (tolerance th)
      else requestAmount in
    if Num.le requestAmount (Fin 0) then ret tt
    else
      let partnerSets := partnerSetsFor resource prioritizedPartners in
      let* success :=
        handleRequestInstance colony resource requestAmount partnerSets opts in
      let* w := getWorld in
      if negb success && (Z.rem (time w) 5 =? 0)%Z
      then notify (TextNote ("Unable to fulfill request instance from " ++ name colony
                             ++ " for " ++ resource))
      else ret tt.

(** [handleRequestors(requestors, prioritizedPartners, opts = {})] *)
Definition handleRequestors (requestors : gmap string (list Colony))
    (prioritizedPartners : list (gmap string (list Colony)))
    (opts : PartialRequestOpts) : M World unit :=
  let* w := getWorld in
  let opts := requestDefaults w opts in
  forEach RESOURCE_EXCHANGE_ORDER (fun resource =>
    forEach (default [] (requestors !! resource))
            (handleRequestors_visit prioritizedPartners opts resource)).

(** The body of the loops of [handleProviders]. *)
Definition handleProviders_visit
    (prioritizedPartners : list (gmap string (list Colony))) (opts : ProvideOpts)
    (resource : string) (colony : Colony) : M World unit :=
  let* w := getWorld in
  if match terminal colony with Some t => negb (isReady w t) | None => false end
  then ret tt
  else
    let* th := thresholds colony resource in
    let sendAmount := Num.sub (get_num (assets colony) resource) (target th) in
    if Num.le sendAmount (Fin 0) then ret tt
    else
      let partnerSets := partnerSetsFor resource prioritizedPartners in
      let* success :=
        handleProvideInstance colony resource sendAmount partnerSets opts in
      let* w := getWorld in
      if negb success && (Z.rem (time w) 5 =? 0)%Z
      then notify (TextNote ("Unable to fulfill provide instance from " ++ name colony
                             ++ " for " ++ resource))
      else ret tt.

(** [handleProviders(providers, prioritizedPartners, opts = {})] *)
Definition handleProviders (providers : gmap string (list Colony))
    (prioritizedPartners : list (gmap string (list Colony)))
    (opts : PartialProvideOpts) : M World unit :=
  let opts := provideDefaults opts in
  forEach RESOURCE_EXCHANGE_ORDER (fun resource =>
    forEach (default [] (providers !! resource))
            (handleProviders_visit prioritizedPartners opts resource)).

(** The exchange of [run()]: its statements up to the call of
    [recordStats()].  The statistics snapshot, the summary printed to the
    console and the final log line come after it and are not part of this
    definition. *)
Definition run_exchange : M World unit :=
  assignColonyStates;;
  let* n := getNet in
  handleRequestors (activeRequestors n)
    [activeProviders n; passiveProviders n; equilibriumNodes n; passiveRequestors n]
    noRequestOpts;;
  let* n := getNet in
  handleProviders (activeProviders n)
    [activeRequestors n; passiveRequestors n]
    noProvideOpts;;
  let* n := getNet in
  handleRequestors (passiveRequestors n)
    [activeProviders n; passiveProviders n]
    {| opt_allowDivvying := None; opt_sendTargetPlusTolerance := None;
       opt_allowMarketBuy := Some false; opt_receiveOnlyOncePerTick := None |}.

End Tick.

(** The tables of the small world: the resources its [Host] instance knows,
    tick 5, no terminal has received, and a shuffle that reverses. *)
Module DemoTick.

Import Demo.

#[global] Instance tick : TickHost World := {|
  BOOSTS_T3 := ["XLHO2"];
  BOOSTS_T2 := ["LHO2"];
  BOOSTS_T1 := ["LO"; "UH"; "UO"; "KH"; "KO"; "LH"; "ZH"; "ZO"; "GH"; "GO"];
  INTERMEDIATE_REACTANTS := ["OH"; "ZK"; "UL"; "G"];
  BASE_RESOURCES := ["H"; "O"; "U"; "L"; "K"; "Z"; "X"];
  RESOURCES_ALL :=
    ["energy"; "power"; "H"; "O"; "U"; "L"; "K"; "Z"; "X"; "G"; "silicon"; "metal";
     "biomass"; "mist"; "OH"; "ZK"; "UL"; "UH"; "UO"; "KH"; "KO"; "LH"; "LO"; "ZH";
     "ZO"; "GH"; "GO"; "LHO2"; "XLHO2"; "ops"; "wire"; "cell"; "alloy"; "condensate"];
  RESOURCES_ALL_EXCEPT_ENERGY :=
    ["power"; "H"; "O"; "U"; "L"; "K"; "Z"; "X"; "G"; "silicon"; "metal";
     "biomass"; "mist"; "OH"; "ZK"; "UL"; "UH"; "UO"; "KH"; "KO"; "LH"; "LO"; "ZH";
     "ZO"; "GH"; "GO"; "LHO2"; "XLHO2"; "ops"; "wire"; "cell"; "alloy"; "condensate"];
  canBuyAbove := Fin 10000;
  time := fun _ => 5%Z;
  hasReceived := fun _ _ => false;
  shuffle := fun _ _ _ cols => reverse cols;
  shuffle_Permutation := fun _ _ _ cols => reverse_Permutation cols;
|}.

End DemoTick.

(* ===================================================================== *)
(** ** Notions used to state the properties *)
(* ===================================================================== *)

(** Equality of numbers up to the representation of a rational. *)
Definition num_equiv (a b : number) : Prop :=
  match a, b with
  | Num.Fin x, Num.Fin y => (x == y)%Q
  | Num.PInf, Num.PInf | Num.NInf, Num.NInf | Num.NaN, Num.NaN => True
  | _, _ => False
  end.

(** The order [_.sortBy] establishes between (element, key) pairs. *)
Definition keyLe {A} (x y : A * number) : Prop := Num.le (snd x) (snd y) = true.

Section Notions.

Context {World : Type} `{!Host World}.

(** The energy thresholds a call of [getEnergyThresholds] computes when
    nothing is cached. *)
Definition freshEnergyThresholds (n : TerminalNetworkV2) : Thresholds :=
  let avgEnergy :=
    Num.div
      (Num.sum (List.map (fun colony => get_num (assets colony) RESOURCE_ENERGY)
                         (nonExceptionalColonies n)))
      (Num.of_Z (Z.of_nat (length (nonExceptionalColonies n)))) in
  {| target := avgEnergy;
     surplus := Some (Fin 500000);
     tolerance := Num.div avgEnergy (Fin 5) |}.

(** The value [thresholds(colony, resource)] returns in a network [n]. *)
Definition thresholdsOf (n : TerminalNetworkV2) (colony : Colony) (resource : string)
    : Thresholds :=
  match colonyThreshold n (name colony) resource with
  | Some th => th
  | None =>
      if String.eqb resource RESOURCE_ENERGY
      then match _energyThresholds n with
           | Some th => th
           | None => freshEnergyThresholds n
           end
      else ALL_THRESHOLDS resource
  end.

(** Following the specification, [remainingSpace(colony)]: the capacity
    of the terminal, of the storage and (when asked for) of the factory
    the colony has, less its total assets, where what a storage holds
    beyond [STORAGE_CAPACITY] is not counted: an overfilled storage counts
    as exactly full. *)
Definition remainingSpace (colony : Colony) (includeFactory : bool) : number :=
  let capacity :=
    Num.add (Num.add (if defined (terminal colony) then TERMINAL_CAPACITY else Fin 0)
                     (if defined (storage colony) then STORAGE_CAPACITY else Fin 0))
            (if factory colony && includeFactory then FACTORY_CAPACITY else Fin 0) in
  let overfill :=
    match storage colony with
    | Some st =>
        if Num.gt (sum_values (storage_store st)) STORAGE_CAPACITY
        then Num.sub (sum_values (storage_store st)) STORAGE_CAPACITY
        else Fin 0
    | None => Fin 0
    end in
  Num.sub capacity (Num.sub (sum_values (assets colony)) overfill).

(** The only change [thresholds] can make to the state: an empty cache of
    energy thresholds gets filled. *)
Definition fillCache (s : St World) : St World :=
  {| net := set_energyThresholds (Some (freshEnergyThresholds (net s))) (net s);
     world := world s;
     trace := trace s |}.

Definition cacheExt (s s' : St World) : Prop :=
  s' = s \/ (_energyThresholds (net s) = None /\ s' = fillCache s).

(** What the divvy fallback sorts the partners by:
    [partner.assets[resource] - this.thresholds(partner, resource).target]. *)
Definition excess (n : TerminalNetworkV2) (resource : string) (partner : Colony)
    : number :=
  Num.sub (get_num (assets partner) resource)
          (target (thresholdsOf n partner resource)).

(** A computation that, from any state reached from [s0] by filling the
    cache, returns [a] and at most fills the cache. *)
Definition cachePure {A} (m : M World A) (s0 : St World) (a : A) : Prop :=
  forall s1, cacheExt s0 s1 ->
             exists s2, m s1 = (Ret a, s2) /\ cacheExt s0 s2.

(** The invariant the specification gives for a thresholds triple. *)
Definition Thresholds_invariant (th : Thresholds) : Prop :=
  Num.le (tolerance th) (target th) = true /\
  forall sp, surplus th = Some sp ->
             Num.ge sp (Num.add (target th) (tolerance th)) = true.

(** [this.colonyStates[colName] && this.colonyStates[colName][resource]] *)
Definition colonyState (n : TerminalNetworkV2) (colName resource : string)
    : option TN_STATE :=
  match colonyStates n !! colName with
  | Some byResource => byResource !! resource
  | None => None
  end.

(** The per-tick part of the network object. *)
Definition perTick (n : TerminalNetworkV2) :=
  (colonyThresholds n, _energyThresholds n, colonyStates n,
   (activeProviders n, passiveProviders n, equilibriumNodes n,
    passiveRequestors n, activeRequestors n),
   network_assets n, terminalOverload n, notifications n).

(** [ledger[resource][origin][destination]] and [costs[origin][destination]]
    in the persistent statistics; an entry that was never written reads as
    [0]. *)
Definition ledgerEntry (n : TerminalNetworkV2) (resource origin destination : string)
    : option number :=
  match transfers (stats n) !! resource with
  | Some byOrigin =>
      match byOrigin !! origin with
      | Some byDestination => byDestination !! destination
      | None => None
      end
  | None => None
  end.

Definition ledger (n : TerminalNetworkV2) (resource origin destination : string)
    : number :=
  default (Fin 0) (ledgerEntry n resource origin destination).

Definition costsEntry (n : TerminalNetworkV2) (origin destination : string)
    : option number :=
  match costs (stats n) !! origin with
  | Some byDestination => byDestination !! destination
  | None => None
  end.

Definition costsLedger (n : TerminalNetworkV2) (origin destination : string) : number :=
  default (Fin 0) (costsEntry n origin destination).

(** [if (!entry) entry = 0; entry += amount] on an entry that may be
    missing. *)
Definition bump (old : option number) (amount : number) : number :=
  Num.add (match old with
           | Some v => if Num.truthy v then v else Fin 0
           | None => Fin 0
           end) amount.

Definition isOkSend (e : Effect World) : bool :=
  match e with Send _ _ _ _ _ r => bool_decide (r = OK) | _ => false end.
Definition isBuy (e : Effect World) : bool :=
  match e with Buy _ _ _ _ => true | _ => false end.

(** A send stays within the cap of the resource and within what the
    sending terminal holds in the world in which it is asked to send. *)
Definition sendWithinBounds (e : Effect World) : bool :=
  match e with
  | Send w sender resource amount _ _ =>
      Num.le amount (maxAmountFor resource)
      && Num.le amount (Fin (store w sender resource))
  | _ => true
  end.

End Notions.

(* ===================================================================== *)
(** ** Scenarios *)
(* ===================================================================== *)

Module Scenario.

Import Demo.

(** The start of a tick: [refresh()], the colonies registering themselves
    with [addColony], then [init()]. *)
Definition beginTick (cs : list Colony) (st : gmap string (gmap string Q)) : St World :=
  let s := snd (refresh (start [] st)) in
  let s := fold_left (fun s c => snd (addColony c s)) cs s in
  snd (init s).

(** The options as [run()] leaves them for active requestors, with
    divvying switched on. *)
Definition requestOpts : RequestOpts :=
  {| allowDivvying := true; sendTargetPlusTolerance := false;
     allowMarketBuy := true; receiveOnlyOncePerTick := false |}.

(** A colony with 30000 utrium (a passive provider: the default target is
    7000, the surplus 45000) and one that asks for 10000. *)
Definition rich : Colony := colonyWith "W1N1" "U" 30000.
Definition poor : Colony := colonyWith "W2N2" "U" 0.
Definition richAndPoor : St World :=
  snd (requestResource poor "U" (Fin 10000) (Fin 0)
         (beginTick [rich; poor] {[ "W1N1" := {[ "U" := 30000%Q ]} ]})).

(** Four partners holding 1000, 2000, 3000 and 4000 of utrium above the
    target, all of it in their terminals, and a colony that asks for 20000.
    The first partner is in equilibrium, the others are passive
    providers. *)
Definition p1 : Colony := colonyWith "W1N1" "U" 8000.
Definition p2 : Colony := colonyWith "W2N2" "U" 9000.
Definition p3 : Colony := colonyWith "W3N3" "U" 10000.
Definition p4 : Colony := colonyWith "W4N4" "U" 11000.
Definition requestor : Colony := colonyWith "W5N5" "U" 0.
Definition fourPartners : St World :=
  snd (requestResource requestor "U" (Fin 20000) (Fin 0)
         (beginTick [p1; p2; p3; p4; requestor]
            {[ "W1N1" := {[ "U" := 8000%Q ]}; "W2N2" := {[ "U" := 9000%Q ]};
               "W3N3" := {[ "U" := 10000%Q ]}; "W4N4" := {[ "U" := 11000%Q ]} ]})).
Definition fourPartnerSets : list (list Colony) := [[]; [p4; p2; p3]; [p1]; []].

(** A partner with 9000 of utrium, of which 1000 stand in its terminal. *)
Definition lowTerminal : Colony := colonyWith "W1N1" "U" 9000.
Definition lowTerminalState : St World :=
  snd (requestResource requestor "U" (Fin 20000) (Fin 0)
         (beginTick [lowTerminal; requestor] {[ "W1N1" := {[ "U" := 1000%Q ]} ]})).

(** Three colonies with a storage and 100000, 200000 and 300000 energy, and
    a colony without storage (so outside the mean) holding [amount]. *)
Definition energyNetwork : St World :=
  beginTick [colonyWith "W1N1" "energy" 100000; colonyWith "W2N2" "energy" 200000;
             colonyWith "W3N3" "energy" 300000] ∅.
Definition outpost (amount : Q) : Colony :=
  {| name := "W9N9"; level := 6;
     assets := {[ "energy" := Fin amount ]};
     terminal := Some {| room_name := "W9N9"; my := true |};
     storage := None;
     factory := false |}.

(** The sends recorded in a trace, oldest first: sender, resource, amount,
    destination and the code returned. *)
Definition sends (tr : list (Effect World))
    : list (string * string * number * string * ScreepsReturnCode) :=
  rev (omap (fun e =>
               match e with
               | Send _ t r a d c => Some (room_name t, r, a, d, c)
               | _ => None
               end) tr).

End Scenario.

(* ===================================================================== *)
(** ** Further notions *)
(* ===================================================================== *)

(** A number that is neither an infinity nor NaN. *)
Definition is_finite (a : number) : bool :=
  match a with Num.Fin _ => true | _ => false end.

(** The chain of comparisons of [getColonyState], on the thresholds, the
    amount and the remaining space it reads. *)
Definition classify (th : Thresholds) (amount space : number) : TN_STATE :=
  if match surplus th with Some sp => Num.gt amount sp | None => false end
     || (Num.gt amount (Num.add (target th) (tolerance th))
         && Num.lt space minColonySpace)
  then activeProvider
  else if Num.ge (match surplus th with Some sp => sp | None => PInf end) amount
          && Num.gt amount (Num.add (target th) (tolerance th))
  then passiveProvider
  else if Num.ge (Num.add (target th) (tolerance th)) amount
          && Num.ge amount (Num.max2 (Num.sub (target th) (tolerance th)) (Fin 0))
  then equilibrium
  else if Num.lt amount (Num.max2 (Num.sub (target th) (tolerance th)) (Fin 0))
  then passiveRequestor
  else error.

#[global] Instance TN_STATE_eq_dec : EqDecision TN_STATE.
Proof. solve_decision. Defined.

(** What [addColony] asks of a colony: an owned terminal and level 6. *)
Definition eligible (colony : Colony) : bool :=
  match terminal colony with
  | Some t => my t && (6 <=? level colony)%Z
  | None => false
  end.

Section TickNotions.

Context {World : Type} `{!Host World}.

(** The tier list a state stands for; [error] has none. *)
Definition tierOf (t : TN_STATE) (n : TerminalNetworkV2) : gmap string (list Colony) :=
  match t with
  | activeProvider => activeProviders n
  | passiveProvider => passiveProviders n
  | equilibrium => equilibriumNodes n
  | passiveRequestor => passiveRequestors n
  | activeRequestor => activeRequestors n
  | error => ∅
  end.

(** [tier[resource] || []] *)
Definition tierList (t : TN_STATE) (n : TerminalNetworkV2) (resource : string)
    : list Colony :=
  default [] (tierOf t n !! resource).

(** The state [assignColonyStates] settles on for a colony and a resource
    in a network [n]: the state already set, unless there is none or it is
    [error]; otherwise what the classifier says. *)
Definition assignedState (n : TerminalNetworkV2) (colony : Colony) (resource : string)
    : TN_STATE :=
  let computed :=
    classify (thresholdsOf n colony resource) (get_num (assets colony) resource)
             (getRemainingSpace colony false) in
  match colonyState n (name colony) resource with
  | Some st => if (TN_STATE_value st =? 0)%Z then computed else st
  | None => computed
  end.

Definition isLog (e : Effect World) : bool :=
  match e with Log _ _ => true | _ => false end.
Definition isSell (e : Effect World) : bool :=
  match e with Sell _ _ _ _ _ => true | _ => false end.

(** What the assignment of states leaves alone, and the direction in which
    it changes the rest: the world, the colonies, the statistics and every
    thresholds triple stay; the state tables keep their names; a state
    other than [error] stays; the tier lists grow; the trace grows by log
    lines. *)
Definition tierFrame (s s' : St World) : Prop :=
  world s' = world s /\
  colonies (net s') = colonies (net s) /\
  stats (net s') = stats (net s) /\
  notifications (net s') = notifications (net s) /\
  (forall c r, thresholdsOf (net s') c r = thresholdsOf (net s) c r) /\
  (forall k, colonyStates (net s') !! k = None <-> colonyStates (net s) !! k = None) /\
  (forall k r st, colonyState (net s) k r = Some st -> st <> error ->
                  colonyState (net s') k r = Some st) /\
  (forall t r x, x ∈ tierList t (net s) r -> x ∈ tierList t (net s') r) /\
  (exists new, trace s' = (new ++ trace s)%list /\ forallb isLog new = true).

(** The trace grows by entries that all satisfy [p]. *)
Definition grows (p : Effect World -> bool) (s s' : St World) : Prop :=
  exists new, trace s' = (new ++ trace s)%list /\ forallb p new = true.

Definition notBuy (e : Effect World) : bool := negb (isBuy e).
Definition boundedNotBuy (e : Effect World) : bool := sendWithinBounds e && notBuy e.


(** Every run of [m] relates the state before to the state after,
    however it ends. *)
Definition within {A} (R : St World -> St World -> Prop) (m : M World A) : Prop :=
  forall s o s', m s = (o, s') -> R s s'.

(** What the handlers of a tick leave alone: the colonies, the states, the
    overrides, the tier lists and every thresholds triple (all they may do
    to the thresholds is compute those of energy); and the trace grows by
    effects that satisfy [P]. *)
Definition handlerFrame (P : Effect World -> Prop) (s s' : St World) : Prop :=
  colonies (net s') = colonies (net s) /\
  colonyStates (net s') = colonyStates (net s) /\
  colonyThresholds (net s') = colonyThresholds (net s) /\
  (forall t, tierOf t (net s') = tierOf t (net s)) /\
  (forall c r, thresholdsOf (net s') c r = thresholdsOf (net s) c r) /\
  exists new, trace s' = (new ++ trace s)%list /\ Forall P new.

(** The effects of the requestors' handler: a send is addressed to the
    room of the terminal of a requestor of the resource sent, a buy order
    is placed for the terminal of a requestor of the resource bought, and
    nothing is sold. *)
Definition requestEffect (requestors : gmap string (list Colony)) (rs : list string)
    (e : Effect World) : Prop :=
  match e with
  | Send _ _ r _ d _ =>
      In r rs /\
      exists c tc, In c (default [] (requestors !! r)) /\ terminal c = Some tc /\
                   d = room_name tc
  | Buy term r _ _ =>
      In r rs /\ exists c, In c (default [] (requestors !! r)) /\ term = terminal c
  | Sell _ _ _ _ _ => False
  | Log _ _ => True
  end.

(** The effects of the providers' handler: a send leaves the terminal of a
    provider of the resource sent, a sell order is placed for the terminal
    of a provider of the resource sold, and nothing is bought. *)
Definition provideEffect (providers : gmap string (list Colony)) (rs : list string)
    (e : Effect World) : Prop :=
  match e with
  | Send _ t r _ _ _ =>
      In r rs /\ exists c, In c (default [] (providers !! r)) /\ terminal c = Some t
  | Sell term r _ _ _ =>
      In r rs /\ exists c, In c (default [] (providers !! r)) /\ term = terminal c
  | Buy _ _ _ _ => False
  | Log _ _ => True
  end.

(** The effects of the exchange of [run()], in a network whose tier lists
    are assigned. *)
Definition exchangeEffect (n : TerminalNetworkV2) (rs : list string)
    (e : Effect World) : Prop :=
  requestEffect (activeRequestors n) rs e \/
  provideEffect (activeProviders n) rs e \/
  requestEffect (passiveRequestors n) rs e.

(** The pairs the two nested loops of [assignColonyStates] visit, in
    order. *)
Definition visits (cs : list Colony) (rs : list string) : list (Colony * string) :=
  flat_map (fun c => List.map (pair c) rs) cs.

End TickNotions.

(** The tick of [Scenario.richAndPoor] in other worlds: with 5000 credits
    (below [canBuyAbove]), and with the terminal of W1N1 busy. *)
Module TickScenario.

Import Demo DemoTick.

Definition withWorld (w : World) (s : St World) : St World :=
  {| net := net s; world := w; trace := trace s |}.

Definition lowCredits : St World :=
  withWorld {| stores := stores (world Scenario.richAndPoor); busy := [];
               wallet := Fin 5000 |}
            Scenario.richAndPoor.

Definition busyProvider : St World :=
  withWorld {| stores := stores (world Scenario.richAndPoor); busy := ["W1N1"];
               wallet := Fin 1000000 |}
            Scenario.richAndPoor.

End TickScenario.

(* ===================================================================== *)
(** ** Facts about numbers *)
(* ===================================================================== *)

Lemma Qlt_bool_iff x y : Num.Qlt_bool x y = true <-> (x < y)%Q.
Proof.
  unfold Num.Qlt_bool. rewrite negb_true_iff, <- not_true_iff_false, Qle_bool_iff.
  split; [apply Qnot_le_lt | apply Qlt_not_le].
Qed.

Lemma Qlt_bool_false_iff x y : Num.Qlt_bool x y = false <-> (y <= x)%Q.
Proof.
  unfold Num.Qlt_bool. rewrite negb_false_iff. apply Qle_bool_iff.
Qed.

Lemma Qle_bool_false_iff x y : Qle_bool x y = false <-> (y < x)%Q.
Proof.
  rewrite <- not_true_iff_false, Qle_bool_iff.
  split; [apply Qnot_le_lt | apply Qlt_not_le].
Qed.

(** Turns the boolean comparisons of rationals in the context and the goal
    into propositions. *)
Ltac q_bool :=
  repeat match goal with
  | H : Qle_bool _ _ = true |- _ => apply Qle_bool_iff in H
  | H : Qle_bool _ _ = false |- _ => apply Qle_bool_false_iff in H
  | H : Num.Qlt_bool _ _ = true |- _ => apply Qlt_bool_iff in H
  | H : Num.Qlt_bool _ _ = false |- _ => apply Qlt_bool_false_iff in H
  | H : Qeq_bool _ _ = true |- _ => apply Qeq_bool_iff in H
  | H : Qeq_bool _ _ = false |- _ => apply Qeq_bool_neq in H
  | |- Qle_bool _ _ = true => apply Qle_bool_iff
  | |- Qle_bool _ _ = false => apply Qle_bool_false_iff
  | |- Num.Qlt_bool _ _ = true => apply Qlt_bool_iff
  | |- Num.Qlt_bool _ _ = false => apply Qlt_bool_false_iff
  | |- Qeq_bool _ _ = true => apply Qeq_bool_iff
  end.

Lemma num_equiv_refl a : num_equiv a a.
Proof. destruct a; simpl; auto. reflexivity. Qed.

Lemma num_equiv_sym a b : num_equiv a b -> num_equiv b a.
Proof. destruct a, b; simpl; auto. intros E; symmetry; exact E. Qed.

Lemma num_equiv_trans a b c : num_equiv a b -> num_equiv b c -> num_equiv a c.
Proof.
  destruct a, b, c; simpl; auto; try contradiction.
  intros E1 E2; rewrite E1; exact E2.
Qed.

Lemma min3_le_2 a b c :
  Num.is_nan (Num.min3 a b c) = false -> Num.le (Num.min3 a b c) b = true.
Proof.
  unfold Num.min3, Num.min2.
  destruct a as [x| | |], b as [y| | |], c as [z| | |]; simpl; try discriminate;
    repeat (match goal with
            | |- context [if ?g then _ else _] => destruct g eqn:?
            end; simpl; try discriminate); intros _; auto; q_bool; try lra.
Qed.

Lemma min3_le_3 a b c :
  Num.is_nan (Num.min3 a b c) = false -> Num.le (Num.min3 a b c) c = true.
Proof.
  unfold Num.min3, Num.min2.
  destruct a as [x| | |], b as [y| | |], c as [z| | |]; simpl; try discriminate;
    repeat (match goal with
            | |- context [if ?g then _ else _] => destruct g eqn:?
            end; simpl; try discriminate); intros _; auto; q_bool; try lra.
Qed.

Lemma min3_nan a b c :
  Num.is_nan (Num.min3 a b c)
  = Num.is_nan a || Num.is_nan b || Num.is_nan c.
Proof.
  unfold Num.min3, Num.min2.
  destruct a as [x| | |], b as [y| | |], c as [z| | |]; simpl; auto;
    repeat (match goal with
            | |- context [if ?g then _ else _] => destruct g eqn:?
            end; simpl; auto).
Qed.

Lemma min3_lt_1 a b c d :
  Num.lt a d = true -> Num.is_nan b = false -> Num.is_nan c = false ->
  Num.lt (Num.min3 a b c) d = true.
Proof.
  unfold Num.min3, Num.min2.
  destruct a as [x| | |], b as [y| | |], c as [z| | |], d as [u| | |];
    simpl; try discriminate;
    repeat (match goal with
            | |- context [if ?g then _ else _] => destruct g eqn:?
            end; simpl; try discriminate); intros; auto; q_bool; try lra.
Qed.

(* ===================================================================== *)
(** ** [_.sortBy] *)
(* ===================================================================== *)

Section SortBy.

Lemma le_total_number (a b : number) :
  Num.is_nan a = false -> Num.is_nan b = false ->
  Num.le a b = true \/ Num.le b a = true.
Proof.
  destruct a as [x| | |], b as [y| | |]; simpl; try discriminate; auto.
  intros _ _. destruct (Qle_bool x y) eqn:E; [auto |].
  right. q_bool. lra.
Qed.

Lemma le_trans_number (a b c : number) :
  Num.le a b = true -> Num.le b c = true -> Num.le a c = true.
Proof.
  destruct a as [x| | |], b as [y| | |], c as [z| | |]; simpl; try discriminate; auto.
  intros H1 H2. q_bool. lra.
Qed.

Lemma compareAscending_le (a b : number) :
  Num.is_nan a = false -> Num.is_nan b = false ->
  (compareAscending a b <=? 0)%Z = Num.le a b.
Proof.
  unfold compareAscending, Num.gt.
  destruct a as [x| | |], b as [y| | |]; simpl; try discriminate; auto; intros _ _.
  destruct (Qeq_bool x y) eqn:Eeq.
  - q_bool. symmetry. apply Qle_bool_iff. lra.
  - unfold Num.Qlt_bool.
    destruct (Qle_bool x y) eqn:Exy; simpl.
    + destruct (Qle_bool y x) eqn:Eyx; simpl; [| reflexivity].
      exfalso. q_bool. apply Eeq. lra.
    + reflexivity.
Qed.

Lemma sortBy_insert_In {A} (x y : A * number) (l : list (A * number)) :
  In y (sortBy_insert x l) <-> y = x \/ In y l.
Proof.
  induction l as [| z l IH]; simpl.
  - intuition.
  - destruct (compareAscending (snd x) (snd z) <=? 0)%Z; simpl; [intuition |].
    rewrite IH. intuition.
Qed.

Lemma sortBy_insert_sorted {A} (x : A * number) (l : list (A * number)) :
  Num.is_nan (snd x) = false ->
  Forall (fun y => Num.is_nan (snd y) = false) l ->
  StronglySorted keyLe l ->
  StronglySorted keyLe (sortBy_insert x l).
Proof.
  intros Hx Hl Hs. induction Hs as [| z l Hs IH Hz]; simpl.
  - constructor; constructor.
  - inversion Hl as [| ? ? Hnz Hl']; subst.
    rewrite (compareAscending_le _ _ Hx Hnz).
    destruct (Num.le (snd x) (snd z)) eqn:E.
    + constructor; [constructor; assumption |].
      constructor; [exact E |].
      eapply Forall_impl; [exact Hz |].
      intros y Hy. unfold keyLe in *. eapply le_trans_number; eassumption.
    + constructor; [apply IH; exact Hl' |].
      apply List.Forall_forall. intros y Hy. apply sortBy_insert_In in Hy.
      destruct Hy as [-> | Hy].
      * unfold keyLe. destruct (le_total_number _ _ Hx Hnz) as [H1 | H1];
          [congruence | exact H1].
      * rewrite List.Forall_forall in Hz. apply Hz. exact Hy.
Qed.

(** [_.sortBy] puts the keys in ascending order: every element is followed
    only by elements whose key is at least its own. *)
Lemma sortBy_ascending {A} (keyed : list (A * number)) :
  Forall (fun y => Num.is_nan (snd y) = false) keyed ->
  StronglySorted keyLe (foldr sortBy_insert [] keyed) /\
  (forall y, In y (foldr sortBy_insert [] keyed) <-> In y keyed).
Proof.
  induction keyed as [| x keyed IH]; intros Hk; simpl.
  - split; [constructor | tauto].
  - inversion Hk as [| ? ? Hx Hk']; subst.
    destruct (IH Hk') as [Hs Hin].
    split.
    + apply sortBy_insert_sorted; [exact Hx | | exact Hs].
      apply List.Forall_forall. intros y Hy. apply Hin in Hy.
      rewrite List.Forall_forall in Hk'. apply Hk'. exact Hy.
    + intros y. rewrite sortBy_insert_In, Hin.
      split; intros [E | E]; auto.
Qed.

End SortBy.

(* ===================================================================== *)
(** ** Running [thresholds] *)
(* ===================================================================== *)

Section ThresholdFacts.

Context {World : Type} `{!Host World}.

Lemma cacheExt_refl (s : St World) : cacheExt s s.
Proof. left; reflexivity. Qed.

Lemma cacheExt_trans (s1 s2 s3 : St World) :
  cacheExt s1 s2 -> cacheExt s2 s3 -> cacheExt s1 s3.
Proof.
  intros [-> | [E1 ->]] [-> | [E2 ->]]; try (left; reflexivity);
    right; (split; [assumption | reflexivity]).
Qed.

Lemma cacheExt_world (s s' : St World) : cacheExt s s' -> world s' = world s.
Proof. intros [-> | [_ ->]]; reflexivity. Qed.

Lemma cacheExt_trace (s s' : St World) : cacheExt s s' -> trace s' = trace s.
Proof. intros [-> | [_ ->]]; reflexivity. Qed.

Lemma cacheExt_colonyThresholds (s s' : St World) :
  cacheExt s s' -> colonyThresholds (net s') = colonyThresholds (net s).
Proof. intros [-> | [_ ->]]; reflexivity. Qed.

Lemma cacheExt_stats (s s' : St World) :
  cacheExt s s' -> stats (net s') = stats (net s).
Proof. intros [-> | [_ ->]]; reflexivity. Qed.

Lemma cacheExt_thresholdsOf (s s' : St World) colony resource :
  cacheExt s s' ->
  thresholdsOf (net s') colony resource = thresholdsOf (net s) colony resource.
Proof.
  intros [-> | [E ->]]; [reflexivity |].
  unfold thresholdsOf, colonyThreshold; simpl. rewrite E. reflexivity.
Qed.

Lemma getEnergyThresholds_run (s : St World) :
  exists s',
    getEnergyThresholds s
    = (Ret (match _energyThresholds (net s) with
            | Some th => th
            | None => freshEnergyThresholds (net s)
            end), s')
    /\ cacheExt s s'.
Proof.
  unfold getEnergyThresholds, bind, getNet; simpl.
  destruct (_energyThresholds (net s)) as [th|] eqn:E.
  - exists s. split; [reflexivity | apply cacheExt_refl].
  - exists (fillCache s). split; [reflexivity | right; auto].
Qed.

Lemma thresholds_run (colony : Colony) (resource : string) (s : St World) :
  exists s',
    thresholds colony resource s = (Ret (thresholdsOf (net s) colony resource), s')
    /\ cacheExt s s'.
Proof.
  unfold thresholds, thresholdsOf, bind, getNet; simpl.
  destruct (colonyThreshold (net s) (name colony) resource) as [th|].
  - exists s. split; [reflexivity | apply cacheExt_refl].
  - destruct (String.eqb resource RESOURCE_ENERGY).
    + apply getEnergyThresholds_run.
    + exists s. split; [reflexivity | apply cacheExt_refl].
Qed.

(** What a call of [requestResource] does, in one equation. *)
Lemma requestResource_run (c : Colony) (r : string) (a t : number) (s : St World) :
  requestResource c r a t s =
  if Num.ge (get_num (assets c) r) a then
    (Ret tt,
     {| net := net s; world := world s;
        trace := Log LogError
                   "TerminalNetwork.requestResource() called, but colony already has amount!"
                 :: trace s |})
  else
    let tr := if defined (colonyThreshold (net s) (name c) r)
              then Log LogWarning
                     "colonyThresholds already set; overriding previous request!"
                   :: trace s
              else trace s in
    let n1 := set_colonyThresholds
                (<[name c := <[r := {| target := a; surplus := None; tolerance := t |}]>
                               (default ∅ (colonyThresholds (net s) !! name c))]>
                   (colonyThresholds (net s))) (net s) in
    match colonyStates (net s) !! name c with
    | Some byResource =>
        (Ret tt,
         {| net := set_colonyStates
                     (<[name c := <[r := activeRequestor]> byResource]>
                        (colonyStates (net s))) n1;
            world := world s; trace := tr |})
    | None => (Throw, {| net := n1; world := world s; trace := tr |})
    end.
Proof.
  unfold requestResource, bind, getNet, log, emit, modifyNet, ret, throw; simpl.
  destruct (Num.ge (get_num (assets c) r) a); [reflexivity |].
  unfold colonyThreshold.
  destruct (colonyThresholds (net s) !! name c) as [byRes|] eqn:Ect; simpl.
  - rewrite Ect. destruct (byRes !! r); simpl; rewrite ?Ect; simpl;
      destruct (colonyStates (net s) !! name c); reflexivity.
  - rewrite lookup_insert_eq. rewrite lookup_empty. simpl.
    rewrite lookup_insert_eq. simpl. rewrite insert_insert_eq.
    destruct (colonyStates (net s) !! name c); reflexivity.
Qed.

Lemma lookup2_insert {A} (m : gmap string (gmap string A)) (k1 k2 : string) (v : A)
    (j1 j2 : string) :
  match <[k1 := <[k2 := v]> (default ∅ (m !! k1))]> m !! j1 with
  | Some inner => inner !! j2
  | None => None
  end
  = if decide (k1 = j1 /\ k2 = j2) then Some v
    else match m !! j1 with Some inner => inner !! j2 | None => None end.
Proof.
  destruct (decide (k1 = j1)) as [-> | Hne1].
  - rewrite lookup_insert_eq.
    destruct (decide (k2 = j2)) as [-> | Hne2].
    + rewrite lookup_insert_eq. rewrite decide_True; auto.
    + rewrite lookup_insert_ne by assumption.
      rewrite decide_False by (intros [_ ?]; contradiction).
      destruct (m !! j1); simpl; [reflexivity | apply lookup_empty].
  - rewrite lookup_insert_ne by assumption.
    rewrite decide_False by (intros [? _]; contradiction). reflexivity.
Qed.

End ThresholdFacts.

(* ===================================================================== *)
(** ** The state classifier *)
(* ===================================================================== *)

Section Classifier.

Context {World : Type} `{!Host World}.

Lemma gt_le_PInf a b : Num.gt a b = true -> Num.le a PInf = true.
Proof. destruct a, b; simpl; auto; discriminate. Qed.

Lemma sub_0_equiv (a : number) : num_equiv (Num.sub a (Fin 0)) a.
Proof. destruct a as [x| | |]; simpl; auto. ring. Qed.

Lemma sub_equiv_r (a b b' : number) :
  num_equiv b b' -> num_equiv (Num.sub a b) (Num.sub a b').
Proof.
  destruct a as [x| | |], b as [y| | |], b' as [y'| | |]; simpl; auto; try contradiction.
  intros E. rewrite E. reflexivity.
Qed.

Lemma lt_equiv_l (a a' b : number) : num_equiv a a' -> Num.lt a b = Num.lt a' b.
Proof.
  destruct a as [x| | |], a' as [x'| | |], b as [y| | |]; simpl; auto; try contradiction.
  intros E. unfold Num.Qlt_bool. f_equal.
  destruct (Qle_bool y x) eqn:E1, (Qle_bool y x') eqn:E2; auto; exfalso; q_bool;
    rewrite E in *; lra.
Qed.

(** The remaining space the code computes is the one the specification
    defines. *)
Lemma getRemainingSpace_refines (colony : Colony) (includeFactory : bool) :
  num_equiv (getRemainingSpace colony includeFactory)
            (remainingSpace colony includeFactory).
Proof.
  unfold getRemainingSpace, remainingSpace. apply sub_equiv_r.
  destruct (storage colony) as [st |].
  - destruct (Num.gt (sum_values (storage_store st)) STORAGE_CAPACITY).
    + apply num_equiv_refl.
    + apply num_equiv_sym, sub_0_equiv.
  - apply num_equiv_sym, sub_0_equiv.
Qed.

(** C3.  With [(target, surplus, tolerance)] the thresholds of the colony
    for the resource and [amount] its assets of it, [getColonyState]
    returns ActiveProvider if [surplus] is set and [amount > surplus], or if
    [amount > target + tolerance] and the remaining space of the colony (as
    the specification defines it, [remainingSpace]) is below
    [minColonySpace]; else PassiveProvider if
    [amount > target + tolerance] (and [amount <= surplus] when [surplus]
    is set); else Equilibrium if
    [max(target - tolerance, 0) <= amount <= target + tolerance]; else
    PassiveRequestor if [amount < max(target - tolerance, 0)]; and it never
    returns ActiveRequestor.  The space [getRemainingSpace] computes is
    the specification's. *)
Theorem C3_getColonyState_classifies (s : St World) (colony : Colony)
    (resource : string) :
  let th := thresholdsOf (net s) colony resource in
  let amount := get_num (assets colony) resource in
  let above := Num.gt amount (Num.add (target th) (tolerance th)) in
  let floor := Num.max2 (Num.sub (target th) (tolerance th)) (Fin 0) in
  let isActiveProvider :=
    match surplus th with Some sp => Num.gt amount sp | None => false end
    || (above && Num.lt (remainingSpace colony false) minColonySpace) in
  let isPassiveProvider :=
    above && match surplus th with Some sp => Num.le amount sp | None => true end in
  let isEquilibrium :=
    Num.le floor amount && Num.le amount (Num.add (target th) (tolerance th)) in
  let isPassiveRequestor := Num.lt amount floor in
  fst (thresholds colony resource s) = Ret th /\
  (exists st s',
     getColonyState colony resource s = (Ret st, s') /\
     st = (if isActiveProvider then activeProvider
           else if isPassiveProvider then passiveProvider
           else if isEquilibrium then equilibrium
           else if isPassiveRequestor then passiveRequestor
           else error) /\
     st <> activeRequestor) /\
  (forall includeFactory,
     num_equiv (getRemainingSpace colony includeFactory)
               (remainingSpace colony includeFactory)).
Proof.
  intros th amount above floor isAP isPP isEQ isPR.
  destruct (thresholds_run colony resource s) as (s1 & Hrun & _).
  split; [rewrite Hrun; reflexivity |].
  split; [| intros b; apply getRemainingSpace_refines].
  unfold getColonyState, bind. rewrite Hrun.
  rewrite (lt_equiv_l _ _ minColonySpace (getRemainingSpace_refines colony false)).
  fold th amount. fold above. fold floor. fold isAP.
  assert (HPP : Num.ge (match surplus th with Some sp => sp | None => PInf end) amount
                && above = isPP).
  { unfold isPP. destruct above eqn:Ha; [| apply andb_false_r].
    rewrite andb_true_r. simpl.
    destruct (surplus th); [reflexivity |].
    unfold Num.ge. apply (gt_le_PInf _ _ Ha). }
  assert (HEQ : Num.ge (Num.add (target th) (tolerance th)) amount
                && Num.ge amount floor = isEQ).
  { unfold isEQ, Num.ge. apply andb_comm. }
  rewrite HPP, HEQ. fold isPR.
  destruct isAP; [eexists _, _; (split; [reflexivity | split; [reflexivity | discriminate]]) |].
  destruct isPP; [eexists _, _; (split; [reflexivity | split; [reflexivity | discriminate]]) |].
  destruct isEQ; [eexists _, _; (split; [reflexivity | split; [reflexivity | discriminate]]) |].
  destruct isPR; eexists _, _; (split; [reflexivity | split; [reflexivity | discriminate]]).
Qed.

End Classifier.

(** With a mean of 200000 energy the thresholds are
    [(200000, 500000, 40000)]: 150000 is below the band, 210000 inside it,
    250000 above it, 600000 above the surplus. *)
Example getColonyState_energy :
  let classify amount :=
    fst (getColonyState (Scenario.outpost amount) RESOURCE_ENERGY
           Scenario.energyNetwork) in
  classify 150000%Q = Ret passiveRequestor /\
  classify 210000%Q = Ret equilibrium /\
  classify 250000%Q = Ret passiveProvider /\
  classify 600000%Q = Ret activeProvider.
Proof. vm_compute. repeat split. Qed.

(** An outpost with a terminal and no storage has room for 300000.  With
    the thresholds [(200000, 500000, 40000)], 250000 energy leave 50000 of
    space and make a passive provider; 290000 leave 10000, below
    [minColonySpace], and make an active provider although the amount is
    below the surplus. *)
Lemma C3_getColonyState_classifies_witness :
  fst (getColonyState (Scenario.outpost 250000) RESOURCE_ENERGY Scenario.energyNetwork)
  = Ret passiveProvider /\
  fst (getColonyState (Scenario.outpost 290000) RESOURCE_ENERGY Scenario.energyNetwork)
  = Ret activeProvider /\
  num_equiv (getRemainingSpace (Scenario.outpost 250000) false) (Fin 50000) /\
  num_equiv (getRemainingSpace (Scenario.outpost 290000) false) (Fin 10000).
Proof.
  destruct (C3_getColonyState_classifies Scenario.energyNetwork
              (Scenario.outpost 250000) RESOURCE_ENERGY)
    as (_ & (st1 & s1 & Hrun1 & Hst1 & _) & Hspace1).
  destruct (C3_getColonyState_classifies Scenario.energyNetwork
              (Scenario.outpost 290000) RESOURCE_ENERGY)
    as (_ & (st2 & s2 & Hrun2 & Hst2 & _) & Hspace2).
  split; [rewrite Hrun1, Hst1; vm_compute; reflexivity |].
  split; [rewrite Hrun2, Hst2; vm_compute; reflexivity |].
  split.
  - eapply num_equiv_trans; [apply (Hspace1 false) | vm_compute; reflexivity].
  - eapply num_equiv_trans; [apply (Hspace2 false) | vm_compute; reflexivity].
Defined.

(* ===================================================================== *)
(** ** [refresh] *)
(* ===================================================================== *)

Section Refresh.

Context {World : Type} `{!Host World}.

(** C9.  Calling [refresh()] twice in succession leaves the per-tick state
    (colonyThresholds, the cached energy thresholds, colonyStates, the five
    tier buckets, assets, terminalOverload, notifications) identical to
    calling it once. *)
Theorem C9_refresh_idempotent (s : St World) :
  fst (refresh s) = Ret tt /\
  fst (refresh (snd (refresh s))) = Ret tt /\
  perTick (net (snd (refresh (snd (refresh s))))) = perTick (net (snd (refresh s))) /\
  perTick (net (snd (refresh s)))
  = (∅, None, ∅, (∅, ∅, ∅, ∅, ∅), ∅, ∅, []).
Proof. repeat split. Qed.

End Refresh.

(* ===================================================================== *)
(** ** The invariant of the thresholds *)
(* ===================================================================== *)

Section ThresholdInvariant.

Context {World : Type} `{!Host World}.

Lemma div5_le (t : number) :
  Num.le (Fin 0) t = true -> Num.le (Num.div t (Fin 5)) t = true.
Proof.
  destruct t as [x| | |]; simpl; try discriminate; auto.
  intros Hx. q_bool. unfold Qdiv. change (/ 5)%Q with (1 # 5)%Q. lra.
Qed.

Lemma surplus_ge_iff (t : number) :
  Num.ge (Fin 500000) (Num.add t (Num.div t (Fin 5)))
  = Num.le t (Fin (2500000 / 6)).
Proof.
  destruct t as [x| | |]; simpl; auto.
  unfold Num.ge; simpl.
  destruct (Qle_bool x (2500000 / 6)) eqn:E; q_bool; unfold Qdiv in *;
    change (/ 5)%Q with (1 # 5)%Q; change (/ 6)%Q with (1 # 6)%Q in E; lra.
Qed.

Lemma getThresholds_invariant (resource : string) :
  Thresholds_invariant (getThresholds resource).
Proof.
  unfold getThresholds.
  repeat match goal with
         | |- context [if ?g then _ else _] => destruct g
         end;
    (split; [reflexivity | intros sp E; vm_compute in E; inversion E; reflexivity]).
Qed.

Lemma THRESHOLDS_DONT_WANT_invariant : Thresholds_invariant THRESHOLDS_DONT_WANT.
Proof.
  split; [reflexivity | intros sp E; inversion E; reflexivity].
Qed.

Lemma colonyThreshold_export (n : TerminalNetworkV2) (colName resource : string)
    (th : Thresholds) :
  colonyThreshold
    (set_colonyThresholds
       (<[colName := <[resource := th]> (default ∅ (colonyThresholds n !! colName))]>
          (colonyThresholds n)) n)
    colName resource = Some th.
Proof.
  unfold colonyThreshold; simpl.
  rewrite lookup_insert_eq. apply lookup_insert_eq.
Qed.

Lemma exportResource_run (provider : Colony) (resource : string) (th : Thresholds)
    (s : St World) :
  exists s',
    exportResource provider resource th s = (Ret tt, s') /\
    colonyThreshold (net s') (name provider) resource = Some th /\
    _energyThresholds (net s') = _energyThresholds (net s).
Proof.
  unfold exportResource, bind, getNet; simpl.
  destruct (colonyThreshold (net s) (name provider) resource);
    simpl; eexists; (split; [reflexivity |]); simpl;
    (split; [apply colonyThreshold_export | reflexivity]).
Qed.

(** C5, as the code has it.  The triple returned by
    [thresholds(colony, resource)] satisfies [tolerance <= target] and, when
    [surplus] is set, [surplus >= target + tolerance], when it is a static
    default or the default of [exportResource].  The dynamically derived
    energy thresholds have [surplus = 500000] and
    [tolerance = target / 5]: they satisfy [tolerance <= target] when the
    mean [target] is at least [0], and [surplus >= target + tolerance]
    exactly when [target <= 2500000 / 6]. *)
Theorem C5_thresholds_invariant_by_source (s : St World) (colony : Colony)
    (resource : string) :
  (colonyThreshold (net s) (name colony) resource = None ->
   resource <> RESOURCE_ENERGY ->
   exists th, fst (thresholds colony resource s) = Ret th /\
              Thresholds_invariant th) /\
  (exists s1 th,
     exportResource colony resource THRESHOLDS_DONT_WANT s = (Ret tt, s1) /\
     fst (thresholds colony resource s1) = Ret th /\
     Thresholds_invariant th) /\
  (colonyThreshold (net s) (name colony) RESOURCE_ENERGY = None ->
   _energyThresholds (net s) = None ->
   exists th, fst (thresholds colony RESOURCE_ENERGY s) = Ret th /\
              th = freshEnergyThresholds (net s) /\
              surplus th = Some (Fin 500000) /\
              tolerance th = Num.div (target th) (Fin 5) /\
              (Num.le (Fin 0) (target th) = true ->
               Num.le (tolerance th) (target th) = true) /\
              Num.ge (Fin 500000) (Num.add (target th) (tolerance th))
              = Num.le (target th) (Fin (2500000 / 6))).
Proof.
  split; [| split].
  - intros Hnone Hne.
    destruct (thresholds_run colony resource s) as (s1 & Hrun & _).
    exists (thresholdsOf (net s) colony resource).
    split; [rewrite Hrun; reflexivity |].
    unfold thresholdsOf. rewrite Hnone.
    destruct (String.eqb_spec resource RESOURCE_ENERGY) as [E | _]; [contradiction |].
    apply getThresholds_invariant.
  - destruct (exportResource_run colony resource THRESHOLDS_DONT_WANT s)
      as (s1 & Hexp & Hset & _).
    destruct (thresholds_run colony resource s1) as (s2 & Hrun & _).
    exists s1, THRESHOLDS_DONT_WANT. split; [exact Hexp |].
    split; [| apply THRESHOLDS_DONT_WANT_invariant].
    rewrite Hrun. unfold thresholdsOf. rewrite Hset. reflexivity.
  - intros Hnone Hcache.
    destruct (thresholds_run colony RESOURCE_ENERGY s) as (s1 & Hrun & _).
    exists (freshEnergyThresholds (net s)).
    split.
    { rewrite Hrun. unfold thresholdsOf. rewrite Hnone, Hcache. reflexivity. }
    split; [reflexivity |]. split; [reflexivity |]. split; [reflexivity |].
    split; [apply div5_le | apply surplus_ge_iff].
Qed.

End ThresholdInvariant.

(** C5 fails for the energy thresholds: one colony with a storage and
    500000 energy gives [target = 500000], [tolerance = 100000] and
    [surplus = 500000 < target + tolerance]. *)
Lemma C5_energy_thresholds_break_invariant :
  let c := Demo.colonyWith "W1N1" "energy" 500000 in
  let s := Demo.start [c] ∅ in
  exists th, fst (thresholds c RESOURCE_ENERGY s) = Ret th /\
             ~ Thresholds_invariant th.
Proof.
  eexists. split; [vm_compute; reflexivity |].
  intros [_ Hs]. specialize (Hs _ eq_refl). vm_compute in Hs. discriminate.
Qed.

Lemma C5_thresholds_invariant_by_source_witness :
  let c := Demo.colonyWith "W1N1" "energy" 100000 in
  let s := Demo.start [c] ∅ in
  (exists th, fst (thresholds c "U" s) = Ret th /\ Thresholds_invariant th) /\
  (exists th, fst (thresholds c RESOURCE_ENERGY s) = Ret th /\
              Num.le (tolerance th) (target th) = true /\
              Num.ge (Fin 500000) (Num.add (target th) (tolerance th)) = true).
Proof.
  intros c s.
  destruct (C5_thresholds_invariant_by_source s c "U") as (Hstatic & _ & _).
  destruct (C5_thresholds_invariant_by_source s c RESOURCE_ENERGY) as (_ & _ & Henergy).
  split.
  - apply Hstatic; [reflexivity | discriminate].
  - destruct Henergy as (th & Hrun & Hfresh & _ & _ & Hle & Hge);
      [reflexivity | reflexivity |].
    exists th. split; [exact Hrun |].
    split.
    + apply Hle. rewrite Hfresh. vm_compute. reflexivity.
    + rewrite Hge. rewrite Hfresh. vm_compute. reflexivity.
Defined.

(* ===================================================================== *)
(** ** The energy thresholds and their cache *)
(* ===================================================================== *)

Section EnergyThresholds.

Context {World : Type} `{!Host World}.

Lemma fold_Qplus_equiv (qs : list Q) (a b : Q) :
  (a == b)%Q -> (fold_left Qplus qs a == fold_left Qplus qs b)%Q.
Proof.
  revert a b. induction qs as [| q qs IH]; intros a b E; simpl; [exact E |].
  apply IH. rewrite E. reflexivity.
Qed.

Lemma sum_Fin_from (qs : list Q) (a : Q) :
  exists x,
    fold_left (fun result v => Num.add result (if Num.truthy v then v else Fin 0))
              (List.map Num.Fin qs) (Fin a) = Fin x /\
    (x == fold_left Qplus qs a)%Q.
Proof.
  revert a. induction qs as [| q qs IH]; intros a; cbn [List.map fold_left].
  - exists a. split; reflexivity.
  - cbn [Num.truthy]. destruct (Qeq_bool q 0) eqn:E; cbn [negb Num.add].
    + destruct (IH (a + 0)%Q) as (x & Ex & Hx). exists x. split; [exact Ex |].
      rewrite Hx. apply fold_Qplus_equiv. apply Qeq_bool_iff in E. rewrite E.
      reflexivity.
    + apply IH.
Qed.

Lemma sum_Fin (qs : list Q) :
  exists x, Num.sum (List.map Num.Fin qs) = Fin x /\ (x == fold_left Qplus qs 0)%Q.
Proof. apply sum_Fin_from. Qed.

Lemma mean_Fin (qs : list Q) :
  qs <> [] ->
  exists m,
    Num.div (Num.sum (List.map Num.Fin qs)) (Num.of_Z (Z.of_nat (length qs))) = Fin m /\
    (m * inject_Z (Z.of_nat (length qs)) == fold_left Qplus qs 0)%Q.
Proof.
  intros Hne. destruct (sum_Fin qs) as (x & Ex & Hx). rewrite Ex.
  unfold Num.of_Z; simpl.
  assert (Hlen : ~ (inject_Z (Z.of_nat (length qs)) == 0)%Q).
  { destruct qs as [| q qs]; [contradiction |].
    unfold Qeq, inject_Z; simpl. lia. }
  destruct (Qeq_bool (inject_Z (Z.of_nat (length qs))) 0) eqn:E.
  - apply Qeq_bool_iff in E. contradiction.
  - eexists. split; [reflexivity |].
    rewrite <- Hx. rewrite Qmult_comm. apply Qmult_div_r. exact Hlen.
Qed.

Lemma requestResource_cache (c : Colony) (r : string) (a t : number) (s : St World) :
  _energyThresholds (net (snd (requestResource c r a t s)))
  = _energyThresholds (net s).
Proof.
  rewrite requestResource_run.
  destruct (Num.ge (get_num (assets c) r) a); [reflexivity |].
  simpl. destruct (colonyStates (net s) !! name c); reflexivity.
Qed.

Lemma exportResource_cache (c : Colony) (r : string) (th : Thresholds) (s : St World) :
  _energyThresholds (net (snd (exportResource c r th s)))
  = _energyThresholds (net s).
Proof.
  destruct (exportResource_run c r th s) as (s' & -> & _ & E). exact E.
Qed.

(** C6.  The energy thresholds are computed when nothing is cached and
    kept until the next [refresh()]: [target] is the mean of
    [colony.assets.energy] over exactly the registered colonies that have a
    storage and no energy override of their own, [surplus] is [500000] and
    [tolerance] is [target / 5]; a later call returns the cached triple
    without computing, whatever overrides and threshold lookups were made
    in between. *)
Theorem C6_energy_thresholds_cached (s : St World) :
  let n := net s in
  let averaged := nonExceptionalColonies n in
  let energies := List.map (fun c => get_num (assets c) RESOURCE_ENERGY) averaged in
  let mean := Num.div (Num.sum energies) (Num.of_Z (Z.of_nat (length averaged))) in
  let fresh := {| target := mean; surplus := Some (Fin 500000);
                  tolerance := Num.div mean (Fin 5) |} in
  (forall c, In c averaged <->
             In c (colonies n) /\ storage c <> None /\
             colonyThreshold n (name c) RESOURCE_ENERGY = None) /\
  (forall qs, energies = List.map Num.Fin qs -> qs <> [] ->
              exists m, mean = Fin m /\
                        (m * inject_Z (Z.of_nat (length qs)) == fold_left Qplus qs 0)%Q) /\
  (_energyThresholds n = None ->
   getEnergyThresholds s = (Ret fresh, fillCache s) /\
   _energyThresholds (net (fillCache s)) = Some fresh) /\
  (forall th, _energyThresholds n = Some th ->
              getEnergyThresholds s = (Ret th, s)) /\
  (forall c r a t,
     _energyThresholds (net (snd (requestResource c r a t s))) = _energyThresholds n) /\
  (forall c r th,
     _energyThresholds (net (snd (exportResource c r th s))) = _energyThresholds n) /\
  (forall c r th,
     _energyThresholds n = Some th ->
     _energyThresholds (net (snd (thresholds c r s))) = Some th) /\
  _energyThresholds (net (snd (refresh s))) = None.
Proof.
  intros n averaged energies mean fresh.
  split; [| split; [| split; [| split; [| split; [| split; [| split]]]]]].
  - intros c. unfold averaged, nonExceptionalColonies.
    rewrite filter_In, andb_true_iff, negb_true_iff.
    unfold defined.
    destruct (storage c), (colonyThreshold n (name c) RESOURCE_ENERGY);
      split; intros (? & ? & ?); repeat split; auto; congruence.
  - intros qs Hqs Hne. unfold mean. rewrite Hqs.
    assert (Hlen : length averaged = length qs).
    { transitivity (length energies); [unfold energies; now rewrite length_map |].
      rewrite Hqs. apply length_map. }
    rewrite Hlen. apply mean_Fin. exact Hne.
  - intros Hnone. unfold getEnergyThresholds, bind, getNet; simpl.
    fold n. rewrite Hnone. split; reflexivity.
  - intros th Hsome. unfold getEnergyThresholds, bind, getNet; simpl.
    fold n. rewrite Hsome. reflexivity.
  - intros. apply requestResource_cache.
  - intros. apply exportResource_cache.
  - intros c r th Hsome.
    destruct (thresholds_run c r s) as (s1 & -> & [-> | [Hnone _]]); simpl.
    + exact Hsome.
    + fold n in Hnone. congruence.
  - reflexivity.
Qed.

End EnergyThresholds.

(** Three colonies with a storage and 100000, 200000 and 300000 energy: the
    first call computes [(200000, 500000, 40000)] and caches it; after an
    override of the energy thresholds of one of them the cached triple is
    still what is returned. *)
Lemma C6_energy_thresholds_cached_witness :
  let a := Demo.colonyWith "W1N1" "energy" 100000 in
  let b := Demo.colonyWith "W2N2" "energy" 200000 in
  let c := Demo.colonyWith "W3N3" "energy" 300000 in
  let s := Demo.start [a; b; c] ∅ in
  exists th s1,
    getEnergyThresholds s = (Ret th, s1) /\
    num_equiv (target th) (Fin 200000) /\
    surplus th = Some (Fin 500000) /\
    num_equiv (tolerance th) (Fin 40000) /\
    getEnergyThresholds (snd (exportResource a RESOURCE_ENERGY THRESHOLDS_DONT_WANT s1))
    = (Ret th, snd (exportResource a RESOURCE_ENERGY THRESHOLDS_DONT_WANT s1)).
Proof.
  intros a b c s.
  destruct (C6_energy_thresholds_cached s) as (_ & _ & Hfresh & _).
  destruct (Hfresh eq_refl) as [Hrun Hcached].
  eexists _, _. split; [exact Hrun |].
  split; [vm_compute; reflexivity |].
  split; [reflexivity |].
  split; [vm_compute; reflexivity |].
  destruct (C6_energy_thresholds_cached
              (snd (exportResource a RESOURCE_ENERGY THRESHOLDS_DONT_WANT (fillCache s))))
    as (_ & _ & _ & Hkept & _).
  apply Hkept.
  destruct (C6_energy_thresholds_cached (fillCache s)) as (_ & _ & _ & _ & _ & Hexp & _).
  rewrite Hexp. exact Hcached.
Defined.

(* ===================================================================== *)
(** ** [requestResource] *)
(* ===================================================================== *)

Section RequestResource.

Context {World : Type} `{!Host World}.

(** Before [init()] has given the colony its entry in [colonyStates], the
    last assignment of [requestResource] dereferences [undefined]. *)
Lemma requestResource_without_entry (s : St World) (requestor : Colony)
    (resource : string) (amount tolerance : number) :
  Num.ge (get_num (assets requestor) resource) amount = false ->
  colonyStates (net s) !! name requestor = None ->
  fst (requestResource requestor resource amount tolerance s) = Throw.
Proof.
  intros Hlt Hnone. rewrite requestResource_run, Hlt. simpl.
  rewrite Hnone. reflexivity.
Qed.

(** [init()] gives every registered colony an entry in [colonyStates]. *)
Lemma init_entries_from (cs : list Colony) (m : gmap string (gmap string TN_STATE))
    (c : Colony) :
  (In c cs \/ is_Some (m !! name c)) ->
  is_Some (fold_left (fun m colony => <[name colony := ∅]> m) cs m !! name c).
Proof.
  revert m. induction cs as [| c0 cs IH]; intros m; simpl.
  - intros [[] | Hm]; exact Hm.
  - intros [[-> | Hin] | Hm]; apply IH.
    + right. rewrite lookup_insert_eq. eauto.
    + left. exact Hin.
    + right. destruct (decide (name c0 = name c)) as [E | E].
      * rewrite E, lookup_insert_eq. eauto.
      * rewrite lookup_insert_ne by exact E. exact Hm.
Qed.

Lemma init_entries (s : St World) (c : Colony) :
  In c (colonies (net s)) ->
  fst (init s) = Ret tt /\
  is_Some (colonyStates (net (snd (init s))) !! name c).
Proof.
  intros Hin. unfold init, getAssets, bind, getNet, modifyNet, ret; simpl.
  destruct (isEmpty (network_assets (net s))); simpl;
    (split; [reflexivity | apply init_entries_from; left; exact Hin]).
Qed.

(** C4.  When the colony already holds at least the requested amount,
    [requestResource] logs an error and leaves [colonyThresholds] and
    [colonyStates] (and everything else) as they were.  Otherwise it sets
    [colonyThresholds[colony][resource]] to
    [(target = amount, surplus = undefined, tolerance)], touching no other
    threshold, and logs a warning exactly when a threshold was already set
    for the pair; and, the colony having its entry in [colonyStates] (which
    [init()] gives to every registered colony), it sets
    [colonyStates[colony][resource]] to ActiveRequestor, touching no other
    state, and returns. *)
Theorem C4_requestResource (s : St World) (requestor : Colony) (resource : string)
    (amount tolerance : number) :
  (Num.ge (get_num (assets requestor) resource) amount = true ->
   exists msg,
     requestResource requestor resource amount tolerance s
     = (Ret tt, {| net := net s; world := world s;
                   trace := Log LogError msg :: trace s |})) /\
  (Num.ge (get_num (assets requestor) resource) amount = false ->
   exists o s' msg,
     requestResource requestor resource amount tolerance s = (o, s') /\
     (forall colName res,
        colonyThreshold (net s') colName res
        = if decide (name requestor = colName /\ resource = res)
          then Some {| target := amount; surplus := None; tolerance := tolerance |}
          else colonyThreshold (net s) colName res) /\
     world s' = world s /\
     trace s' = (if defined (colonyThreshold (net s) (name requestor) resource)
                 then Log LogWarning msg :: trace s
                 else trace s) /\
     (is_Some (colonyStates (net s) !! name requestor) ->
      o = Ret tt /\
      forall colName res,
        colonyState (net s') colName res
        = if decide (name requestor = colName /\ resource = res)
          then Some activeRequestor
          else colonyState (net s) colName res)).
Proof.
  split.
  - intros Hge. rewrite requestResource_run, Hge. eexists; reflexivity.
  - intros Hlt. rewrite requestResource_run, Hlt. cbv zeta.
    destruct (colonyStates (net s) !! name requestor) as [byResource|] eqn:Hentry.
    + eexists _, _, _. split; [reflexivity |]. cbn [net world trace].
      split; [| split; [reflexivity | split; [reflexivity |]]].
      * intros colName res. unfold colonyThreshold; simpl. apply lookup2_insert.
      * intros _. split; [reflexivity |].
        intros colName res. unfold colonyState; simpl.
        pose proof (lookup2_insert (colonyStates (net s)) (name requestor) resource
                      activeRequestor colName res) as L.
        rewrite Hentry in L. simpl in L. exact L.
    + eexists _, _, _. split; [reflexivity |]. cbn [net world trace].
      split; [| split; [reflexivity | split; [reflexivity |]]].
      * intros colName res. unfold colonyThreshold; simpl. apply lookup2_insert.
      * intros [x Hx]. discriminate.
Qed.

End RequestResource.

(** A colony holding 1000 of a boost asks for 3000 of it after [init()]. *)
Lemma C4_requestResource_witness :
  let c := Demo.colonyWith "W1N1" "XGHO2" 1000 in
  let s := snd (init (Demo.start [c] ∅)) in
  exists s',
    requestResource c "XGHO2" (Fin 3000) (Fin 0) s = (Ret tt, s') /\
    colonyThreshold (net s') "W1N1" "XGHO2"
    = Some {| target := Fin 3000; surplus := None; tolerance := Fin 0 |} /\
    colonyState (net s') "W1N1" "XGHO2" = Some activeRequestor /\
    (exists msg,
       requestResource c "XGHO2" (Fin 500) (Fin 0) s
       = (Ret tt, {| net := net s; world := world s;
                     trace := Log LogError msg :: trace s |})).
Proof.
  intros c s.
  destruct (C4_requestResource s c "XGHO2" (Fin 3000) (Fin 0)) as [_ Hset].
  destruct (C4_requestResource s c "XGHO2" (Fin 500) (Fin 0)) as [Hheld _].
  destruct Hset as (o & s' & msg & Hrun & Hth & _ & _ & Hst); [reflexivity |].
  destruct Hst as [-> Hst]; [eexists; vm_compute; reflexivity |].
  exists s'. split; [exact Hrun |].
  split; [rewrite Hth; reflexivity |].
  split; [rewrite Hst; reflexivity |].
  apply Hheld. reflexivity.
Defined.

(** C4 as the specification states it, for every colony, fails for a
    colony that has no state table.  A colony of level 5 is refused by
    [addColony], so [init()] gives it none; when it requests 3000 utrium
    the override is written and the assignment of the state throws: no
    state is set. *)
Lemma C4_requestResource_throws_without_state_table :
  let c := {| name := "W7N7"; level := 5; assets := {[ "U" := Fin 0 ]};
              terminal := Some {| room_name := "W7N7"; my := true |};
              storage := None; factory := false |} in
  let s := Scenario.beginTick [c; Scenario.rich] ∅ in
  colonies (net s) = [Scenario.rich] /\
  Num.ge (get_num (assets c) "U") (Fin 3000) = false /\
  exists s',
    requestResource c "U" (Fin 3000) (Fin 0) s = (Throw, s') /\
    colonyThreshold (net s') "W7N7" "U"
    = Some {| target := Fin 3000; surplus := None; tolerance := Fin 0 |} /\
    colonyState (net s') "W7N7" "U" = None /\
    colonyState (net s') "W7N7" "U" <> Some activeRequestor.
Proof.
  intros c s. split; [reflexivity |]. split; [reflexivity |].
  eexists. split; [vm_compute; reflexivity |].
  split; [reflexivity |]. split; [reflexivity | discriminate].
Qed.

(* ===================================================================== *)
(** ** The transfer executor *)
(* ===================================================================== *)

Section Transfer.

Context {World : Type} `{!Host World}.

Lemma lookup3_insert {A} (m : gmap string (gmap string (gmap string A)))
    (k1 k2 k3 : string) (v : A) (j1 j2 j3 : string) :
  match <[k1 := <[k2 := <[k3 := v]> (default ∅ (default ∅ (m !! k1) !! k2))]>
                   (default ∅ (m !! k1))]> m !! j1 with
  | Some m2 => match m2 !! j2 with Some m3 => m3 !! j3 | None => None end
  | None => None
  end
  = if decide (k1 = j1 /\ k2 = j2 /\ k3 = j3) then Some v
    else match m !! j1 with
         | Some m2 => match m2 !! j2 with Some m3 => m3 !! j3 | None => None end
         | None => None
         end.
Proof.
  destruct (decide (k1 = j1)) as [-> | Hne1].
  - rewrite lookup_insert_eq.
    pose proof (lookup2_insert (default ∅ (m !! j1)) k2 k3 v j2 j3) as L.
    rewrite L.
    destruct (decide (k2 = j2 /\ k3 = j3)) as [[-> ->] | Hne].
    + rewrite decide_True; auto.
    + rewrite decide_False by (intros (_ & ? & ?); apply Hne; auto).
      destruct (m !! j1); simpl; [reflexivity |].
      rewrite lookup_empty. reflexivity.
  - rewrite lookup_insert_ne by assumption.
    rewrite decide_False by (intros [? _]; contradiction). reflexivity.
Qed.

Lemma transfer_run (sender receiver : StructureTerminal) (r : string) (amount : number)
    (description : string) (s : St World) :
  let o := room_name sender in
  let d := room_name receiver in
  let response := fst (send (world s) sender r amount d) in
  let w' := snd (send (world s) sender r amount d) in
  let e := Send (world s) sender r amount d response in
  transfer (Some sender) (Some receiver) r amount description s
  = if bool_decide (response = OK) then
      (Ret response,
       {| net :=
            set_stats
              (set_costs
                 (<[o := <[d := bump (costsEntry (net s) o d) (calcTransactionCost amount o d)]>
                           (default ∅ (costs (stats (net s)) !! o))]>
                    (costs (stats (net s))))
                 (set_transfers
                    (<[r := <[o := <[d := bump (ledgerEntry (net s) r o d) amount]>
                                     (default ∅ (default ∅ (transfers (stats (net s)) !! r) !! o))]>
                              (default ∅ (transfers (stats (net s)) !! r))]>
                       (transfers (stats (net s))))
                    (stats (net s))))
              (set_notifications
                 (notifications (net s) ++ [TransferNote o amount r d description])
                 (net s));
          world := w';
          trace := e :: trace s |})
    else
      (Ret response,
       {| net := if bool_decide (response = ERR_NOT_ENOUGH_RESOURCES)
                    || bool_decide (response = ERR_TIRED)
                 then set_terminalOverload (<[o := true]> (terminalOverload (net s))) (net s)
                 else net s;
          world := w';
          trace := Log LogWarning "Could not send!" :: e :: trace s |}).
Proof.
  intros o d response w' e. subst o d response w' e.
  unfold transfer, bind, getWorld; simpl.
  destruct (send (world s) sender r amount (room_name receiver)) as [response w'] eqn:Es.
  simpl.
  destruct (bool_decide (response = OK)); simpl.
  - unfold bump, ledgerEntry, costsEntry. 
    destruct (transfers (stats (net s)) !! r) as [a|]; simpl;
    [destruct (a !! room_name sender) as [b|]; simpl |];
    (destruct (costs (stats (net s)) !! room_name sender) as [c|]; simpl);
    rewrite ?lookup_empty; reflexivity.
  - destruct (bool_decide (response = ERR_NOT_ENOUGH_RESOURCES)
              || bool_decide (response = ERR_TIRED)); simpl; [reflexivity |].
    destruct s; reflexivity.
Qed.
Lemma bump_equiv (old : option number) (amount : number) :
  Num.is_nan (default (Fin 0) old) = false ->
  num_equiv (bump old amount) (Num.add (default (Fin 0) old) amount).
Proof.
  unfold bump. destruct old as [[x| | |]|]; simpl; try discriminate; intros _;
    try apply num_equiv_refl.
  destruct (Qeq_bool x 0) eqn:E; simpl; [| apply num_equiv_refl].
  apply Qeq_bool_iff in E.
  destruct amount; simpl; auto. rewrite E. reflexivity.
Qed.

(** C7.  [transfer] returns what the terminal's [send] returned and
    updates the ledger exactly when that is [OK].  On [OK],
    [ledger[resource][origin][destination]] grows by the amount sent and
    [costs[origin][destination]] by
    [calcTransactionCost(amount, origin, destination)] (an entry that was
    never written counts as [0]; the entries are numbers), no other entry
    changes, one notification is appended and [terminalOverload] is left
    alone.  On any other code the statistics and the notifications are
    unchanged, and the sender is flagged in [terminalOverload] exactly when
    the code is [ERR_NOT_ENOUGH_RESOURCES] or [ERR_TIRED]. *)
Theorem C7_transfer_ledger (s : St World) (sender receiver : StructureTerminal)
    (resource : string) (amount : number) (description : string) :
  let o := room_name sender in
  let d := room_name receiver in
  let response := fst (send (world s) sender resource amount d) in
  exists s',
    transfer (Some sender) (Some receiver) resource amount description s
    = (Ret response, s') /\
    (response = OK ->
     (Num.is_nan (ledger (net s) resource o d) = false ->
      num_equiv (ledger (net s') resource o d)
                (Num.add (ledger (net s) resource o d) amount)) /\
     (Num.is_nan (costsLedger (net s) o d) = false ->
      num_equiv (costsLedger (net s') o d)
                (Num.add (costsLedger (net s) o d) (calcTransactionCost amount o d))) /\
     (forall r' o' d', ~ (resource = r' /\ o = o' /\ d = d') ->
                       ledgerEntry (net s') r' o' d' = ledgerEntry (net s) r' o' d') /\
     (forall o' d', ~ (o = o' /\ d = d') ->
                    costsEntry (net s') o' d' = costsEntry (net s) o' d') /\
     notifications (net s')
     = (notifications (net s) ++ [TransferNote o amount resource d description])%list /\
     terminalOverload (net s') = terminalOverload (net s)) /\
    (response <> OK ->
     stats (net s') = stats (net s) /\
     notifications (net s') = notifications (net s) /\
     terminalOverload (net s')
     = if bool_decide (response = ERR_NOT_ENOUGH_RESOURCES)
          || bool_decide (response = ERR_TIRED)
       then <[o := true]> (terminalOverload (net s))
       else terminalOverload (net s)).
Proof.
  intros o d response.
  pose proof (transfer_run sender receiver resource amount description s) as Hrun.
  cbv zeta in Hrun. fold o d in Hrun. fold response in Hrun.
  destruct (bool_decide (response = OK)) eqn:Eok.
  - apply bool_decide_eq_true in Eok.
    eexists. split; [exact Hrun |].
    split; [intros _ | intros Hne; contradiction].
    split; [| split; [| split; [| split; [| split]]]]; simpl.
    + intros Hnan. unfold ledger at 1. unfold ledgerEntry at 1. simpl.
      rewrite lookup3_insert. rewrite decide_True by auto. simpl.
      apply bump_equiv. exact Hnan.
    + intros Hnan. unfold costsLedger at 1. unfold costsEntry at 1. simpl.
      rewrite lookup2_insert. rewrite decide_True by auto. simpl.
      apply bump_equiv. exact Hnan.
    + intros r' o' d' Hne. unfold ledgerEntry at 1. simpl.
      rewrite lookup3_insert. rewrite decide_False by exact Hne. reflexivity.
    + intros o' d' Hne. unfold costsEntry at 1. simpl.
      rewrite lookup2_insert. rewrite decide_False by exact Hne. reflexivity.
    + reflexivity.
    + reflexivity.
  - apply bool_decide_eq_false in Eok.
    eexists. split; [exact Hrun |].
    split; [intros E; contradiction | intros _].
    simpl.
    destruct (bool_decide (response = ERR_NOT_ENOUGH_RESOURCES)
              || bool_decide (response = ERR_TIRED)); repeat split.
Qed.

End Transfer.

(** A terminal holding 5000 U sends 2000 of it: the ledger entry and the
    cost entry, both unwritten so far, become 2000 and the cost of the
    transaction. *)
Lemma C7_transfer_ledger_witness :
  let a := {| room_name := "W1N1"; my := true |} in
  let b := {| room_name := "W2N2"; my := true |} in
  let s := Demo.start [] {[ "W1N1" := {[ "U" := 5000%Q ]} ]} in
  exists s',
    transfer (Some a) (Some b) "U" (Fin 2000) "request for resource" s = (Ret OK, s') /\
    num_equiv (ledger (net s') "U" "W1N1" "W2N2") (Fin 2000) /\
    num_equiv (costsLedger (net s') "W1N1" "W2N2") (Fin 200).
Proof.
  intros a b s.
  destruct (C7_transfer_ledger s a b "U" (Fin 2000) "request for resource")
    as (s' & Hrun & Hok & _).
  exists s'. split; [exact Hrun |].
  destruct Hok as (Hl & Hc & _); [reflexivity |].
  split.
  - eapply num_equiv_trans; [apply Hl; reflexivity | vm_compute; reflexivity].
  - eapply num_equiv_trans; [apply Hc; reflexivity | vm_compute; reflexivity].
Defined.

(* ===================================================================== *)
(** ** Computations that only fill the cache *)
(* ===================================================================== *)

Section CachePure.

Context {World : Type} `{!Host World}.

Lemma cachePure_ret {A} (a : A) (s0 : St World) : cachePure (ret a) s0 a.
Proof. intros s1 H1. exists s1. split; [reflexivity | exact H1]. Qed.

Lemma cachePure_bind {A B} (m : M World A) (k : A -> M World B) (s0 : St World)
    (a : A) (b : B) :
  cachePure m s0 a -> cachePure (k a) s0 b -> cachePure (bind m k) s0 b.
Proof.
  intros Hm Hk s1 H1.
  destruct (Hm s1 H1) as (s2 & E2 & H2).
  destruct (Hk s2 H2) as (s3 & E3 & H3).
  exists s3. unfold bind. rewrite E2. split; assumption.
Qed.

Lemma cachePure_thresholds (colony : Colony) (resource : string) (s0 : St World) :
  cachePure (thresholds colony resource) s0 (thresholdsOf (net s0) colony resource).
Proof.
  intros s1 H1.
  destruct (thresholds_run colony resource s1) as (s2 & E & H2).
  exists s2. rewrite E, (cacheExt_thresholdsOf _ _ _ _ H1).
  split; [reflexivity | eapply cacheExt_trans; eassumption].
Qed.

Lemma cachePure_filterM {A} (pred : A -> M World bool) (p : A -> bool)
    (xs : list A) (s0 : St World) :
  (forall x, cachePure (pred x) s0 (p x)) ->
  cachePure (filterM pred xs) s0 (List.filter p xs).
Proof.
  intros Hp. induction xs as [| x xs IH]; simpl.
  - apply cachePure_ret.
  - eapply cachePure_bind; [apply Hp |].
    eapply cachePure_bind; [apply IH |].
    destruct (p x); apply cachePure_ret.
Qed.

Lemma cachePure_mapM {A B} (f : A -> M World B) (g : A -> B)
    (xs : list A) (s0 : St World) :
  (forall x, cachePure (f x) s0 (g x)) ->
  cachePure (mapM f xs) s0 (List.map g xs).
Proof.
  intros Hf. induction xs as [| x xs IH]; simpl.
  - apply cachePure_ret.
  - eapply cachePure_bind; [apply Hf |].
    eapply cachePure_bind; [apply IH |].
    apply cachePure_ret.
Qed.

Lemma cachePure_run {A} (m : M World A) (s : St World) (a : A) :
  cachePure m s a -> exists s', m s = (Ret a, s') /\ cacheExt s s'.
Proof. intros Hm. apply Hm. apply cacheExt_refl. Qed.

Lemma cachePure_ext {A} (m : M World A) (s0 s1 : St World) (a : A) :
  cacheExt s0 s1 -> cachePure m s0 a ->
  exists s2, m s1 = (Ret a, s2) /\ cacheExt s0 s2.
Proof. intros H1 Hm. apply Hm. exact H1. Qed.

(** The partners [divvyPartners] returns, as a function of the network. *)
Lemma cachePure_divvyPartners (resource : string) (partnerSets : list (list Colony))
    (s0 : St World) :
  cachePure (divvyPartners resource partnerSets) s0
    (take 3
       (sortBy
          (List.map
             (fun partner =>
                (partner,
                 Num.sub (get_num (assets partner) resource)
                         (target (thresholdsOf (net s0) partner resource))))
             (List.filter
                (fun partner =>
                   Num.gt (get_num (assets partner) resource)
                          (target (thresholdsOf (net s0) partner resource)))
                (concat partnerSets))))).
Proof.
  unfold divvyPartners.
  eapply cachePure_bind.
  { apply cachePure_filterM with
      (p := fun partner =>
              Num.gt (get_num (assets partner) resource)
                     (target (thresholdsOf (net s0) partner resource))).
    intros x. eapply cachePure_bind; [apply cachePure_thresholds |].
    apply cachePure_ret. }
  eapply cachePure_bind.
  { apply cachePure_mapM with
      (g := fun partner =>
              (partner,
               Num.sub (get_num (assets partner) resource)
                       (target (thresholdsOf (net s0) partner resource)))).
    intros x. eapply cachePure_bind; [apply cachePure_thresholds |].
    apply cachePure_ret. }
  apply cachePure_ret.
Qed.

End CachePure.

(* ===================================================================== *)
(** ** The loops of the request handler *)
(* ===================================================================== *)

Section DivvyLoop.

Context {World : Type} `{!Host World}.

Lemma markOverloaded_run (roomName : string) (s : St World) :
  markOverloaded roomName s
  = (Ret tt,
     {| net := set_terminalOverload (<[roomName := true]> (terminalOverload (net s)))
                                    (net s);
        world := world s; trace := trace s |}).
Proof. reflexivity. Qed.

(** What [transfer] adds to the trace. *)
Lemma transfer_trace (sender receiver : StructureTerminal) (r : string) (amount : number)
    (description : string) (s : St World) :
  let response := fst (send (world s) sender r amount (room_name receiver)) in
  let e := Send (world s) sender r amount (room_name receiver) response in
  exists s' new,
    transfer (Some sender) (Some receiver) r amount description s = (Ret response, s') /\
    trace s' = (new ++ trace s)%list /\
    new = (if bool_decide (response = OK) then [e]
           else [Log LogWarning "Could not send!"; e]).
Proof.
  intros response e.
  pose proof (transfer_run sender receiver r amount description s) as Hrun.
  cbv zeta in Hrun. fold response in Hrun. fold e in Hrun.
  destruct (bool_decide (response = OK)).
  - exists (snd (transfer (Some sender) (Some receiver) r amount description s)), [e].
    rewrite Hrun. repeat split.
  - exists (snd (transfer (Some sender) (Some receiver) r amount description s)),
           [Log LogWarning "Could not send!"; e].
    rewrite Hrun. repeat split.
Qed.

(** The invariant of the divvy loop: it never buys, and at its end
    [sentSome] says whether a send returned [OK].  It throws only when a
    terminal is missing; with every partner having one, that is the
    requestor's, and then nothing was sent. *)
Lemma divvy_loop_spec (colony : Colony) (resource : string) (partners : list Colony) :
  forall (remaining : number) (sentSome : bool) (s : St World) o s',
    handleRequestInstance_divvy colony resource partners remaining sentSome s = (o, s') ->
    exists new,
      trace s' = (new ++ trace s)%list /\
      existsb isBuy new = false /\
      match o with
      | Ret (inl _) => True
      | Ret (inr (_, ss)) => ss = sentSome || existsb isOkSend new
      | Throw =>
          (forall p, In p partners -> terminal p <> None) ->
          existsb isOkSend new = false /\ terminal colony = None
      end.
Proof.
  induction partners as [| partner rest IH]; intros remaining sentSome s o s' Hrun.
  - inversion Hrun; subst. exists []. simpl. rewrite orb_false_r. auto.
  - cbn [handleRequestInstance_divvy] in Hrun.
    destruct (terminal partner) as [t|] eqn:Et.
    2:{ inversion Hrun; subst o s'. exists [].
        split; [reflexivity |]. split; [reflexivity |].
        intros Hterm. exfalso. apply (Hterm partner); [left; reflexivity | exact Et]. }
    unfold storeOf, isReadyOf, markOverloadedOf, bind, getWorld, ret in Hrun.
    destruct (thresholds_run partner resource s) as (s1 & Erun & Hc).
    rewrite Erun in Hrun.
    pose proof (cacheExt_world _ _ Hc) as Hw.
    pose proof (cacheExt_trace _ _ Hc) as Ht.
    set (th := thresholdsOf (net s) partner resource) in *.
    set (sendAmount := Num.min3 (Num.sub (Fin (store (world s) t resource)) (target th))
                                remaining (maxAmountFor resource)) in *.
    destruct (isReady (world s1) t) eqn:Eready.
    + destruct (terminal colony) as [tc|] eqn:Etc.
      * destruct (transfer_trace t tc resource sendAmount "request for resource" s1)
          as (s2 & new & Etr & Htr & Hnew).
        rewrite Etr in Hrun.
        set (resp := fst (send (world s1) t resource sendAmount (room_name tc))) in *.
        destruct (bool_decide (resp = OK)) eqn:Eok.
        -- cbn [fst snd] in Hrun.
           destruct (Num.le (Num.sub remaining sendAmount) (Fin 0)).
           ++ inversion Hrun; subst o s'. exists new. rewrite Htr, Ht.
              split; [reflexivity |]. split; [| exact I].
              rewrite Hnew. reflexivity.
           ++ destruct (IH _ _ _ _ _ Hrun) as (new2 & Htr2 & Hbuy2 & Hout2).
              exists (new2 ++ new)%list. rewrite Htr2, Htr, Ht.
              split; [apply app_assoc |].
              rewrite !existsb_app.
              split; [rewrite Hbuy2, Hnew; reflexivity |].
              destruct o as [[u | [rem ss]] |]; [exact I | |].
              ** rewrite Hnew. simpl. rewrite Eok. rewrite !orb_true_r.
                 rewrite Hout2. reflexivity.
              ** intros Hterm.
                 destruct (Hout2 (fun p Hp => Hterm p (or_intror Hp))) as [_ Hnone].
                 discriminate.
        -- rewrite markOverloaded_run in Hrun. cbn [fst snd] in Hrun.
           destruct (Num.le remaining (Fin 0)).
           ++ inversion Hrun; subst o s'. exists new. cbn [trace]. rewrite Htr, Ht.
              split; [reflexivity |]. split; [| exact I].
              rewrite Hnew. reflexivity.
           ++ destruct (IH _ _ _ _ _ Hrun) as (new2 & Htr2 & Hbuy2 & Hout2).
              cbn [trace] in Htr2.
              exists (new2 ++ new)%list. rewrite Htr2, Htr, Ht.
              split; [apply app_assoc |].
              rewrite !existsb_app.
              split; [rewrite Hbuy2, Hnew; reflexivity |].
              destruct o as [[u | [rem ss]] |]; [exact I | |].
              ** rewrite Hnew. simpl. rewrite Eok. simpl. rewrite orb_false_r. exact Hout2.
              ** intros Hterm.
                 destruct (Hout2 (fun p Hp => Hterm p (or_intror Hp))) as [_ Hnone].
                 discriminate.
      * unfold transfer, throw in Hrun. inversion Hrun; subst o s'.
        exists []. rewrite Ht. auto.
    + rewrite markOverloaded_run in Hrun. cbn [fst snd] in Hrun.
      destruct (Num.le remaining (Fin 0)).
      * inversion Hrun; subst o s'. exists []. cbn [trace]. rewrite Ht.
        split; [reflexivity |]. split; [reflexivity | exact I].
      * destruct (IH _ _ _ _ _ Hrun) as (new2 & Htr2 & Hbuy2 & Hout2).
        cbn [trace] in Htr2.
        exists new2. rewrite Htr2, Ht.
        split; [reflexivity |]. split; [exact Hbuy2 |].
        destruct o as [[u | [rem ss]] |]; [exact I | exact Hout2 |].
        intros Hterm. apply Hout2. intros p Hp. apply Hterm. right. exact Hp.
Qed.

End DivvyLoop.

Section SingleLoop.

Context {World : Type} `{!Host World}.

(** The single-partner search either returns [true], having asked at most
    one terminal to send [requestAmount], or does nothing but fill the
    cache. *)
Lemma single_loop_spec (colony : Colony) (resource : string) (requestAmount : number)
    (partnerSets : list (list Colony)) :
  forall (s : St World) o s',
    handleRequestInstance_single colony resource requestAmount partnerSets s = (o, s') ->
    exists new,
      trace s' = (new ++ trace s)%list /\
      (forall b, o = Ret (Some b) -> b = true) /\
      (o = Ret None -> cacheExt s s') /\
      (o = Ret (Some true) \/ new = []) /\
      (new = [] \/
       exists t d resp,
         new = if bool_decide (resp = OK)
               then [Send (world s) t resource requestAmount d resp]
               else [Log LogWarning "Could not send!";
                     Send (world s) t resource requestAmount d resp]).
Proof.
  induction partnerSets as [| partners rest IH]; intros s o s' Hrun.
  - inversion Hrun; subst. exists [].
    split; [reflexivity |]. split; [discriminate |].
    split; [intros _; apply cacheExt_refl |]. auto.
  - cbn [handleRequestInstance_single] in Hrun.
    unfold bind at 1 in Hrun.
    match type of Hrun with
    | context [filterM ?pred partners s] =>
        destruct (cachePure_run (filterM pred partners) s
                    (List.filter
                       (fun partner =>
                          Num.ge (Num.sub (get_num (assets partner) resource) requestAmount)
                                 (target (thresholdsOf (net s) partner resource)))
                       partners)) as (s1 & E1 & Hc1)
    end.
    { apply cachePure_filterM. intros x.
      eapply cachePure_bind; [apply cachePure_thresholds | apply cachePure_ret]. }
    rewrite E1 in Hrun. clear E1.
    set (vp1 := List.filter _ partners) in *.
    unfold bind at 1 in Hrun.
    assert (Hvp : exists vp s2,
               (if Nat.eqb (length vp1) 0
                then filterM
                       (fun partner =>
                          let* thp := thresholds partner resource in
                          let* thc := thresholds colony resource in
                          ret (Num.ge (Num.sub (get_num (assets partner) resource)
                                               requestAmount)
                                      (Num.sub (target thp) (tolerance thc))))
                       partners
                else ret vp1) s1 = (Ret vp, s2) /\ cacheExt s s2).
    { destruct (Nat.eqb (length vp1) 0).
      - eexists.
        eapply (cachePure_ext _ s s1 _ Hc1).
        apply cachePure_filterM with
          (p := fun partner =>
                  Num.ge (Num.sub (get_num (assets partner) resource) requestAmount)
                         (Num.sub (target (thresholdsOf (net s) partner resource))
                                  (tolerance (thresholdsOf (net s) colony resource)))).
        intros x.
        eapply cachePure_bind; [apply cachePure_thresholds |].
        eapply cachePure_bind; [apply cachePure_thresholds | apply cachePure_ret].
      - exists vp1, s1. split; [reflexivity | exact Hc1]. }
    destruct Hvp as (vp & s2 & E2 & Hc2).
    rewrite E2 in Hrun. clear E2.
    pose proof (cacheExt_world _ _ Hc2) as Hw.
    pose proof (cacheExt_trace _ _ Hc2) as Ht.
    destruct (0 <? length vp)%nat eqn:Elen.
    + assert (Enz : Nat.eqb (length vp) 0 = false).
      { apply Nat.ltb_lt in Elen. apply Nat.eqb_neq. lia. }
      unfold getBestSenderColony, bind, getNet, ret in Hrun.
      rewrite Enz in Hrun.
      match type of Hrun with
      | context [maxBy vp ?f] => destruct (maxBy vp f) as [best|]
      end.
      2:{ unfold throw in Hrun. inversion Hrun; subst o s'.
          exists []. rewrite Ht.
          split; [reflexivity |]. split; [discriminate |].
          split; [discriminate |]. auto. }
      unfold storeOf, isReadyOf, markOverloadedOf in Hrun.
      destruct (terminal best) as [t|].
      2:{ unfold throw in Hrun. inversion Hrun; subst o s'.
          exists []. rewrite Ht.
          split; [reflexivity |]. split; [discriminate |].
          split; [discriminate |]. auto. }
      unfold bind, getWorld, ret in Hrun. cbn beta iota in Hrun.
      destruct (isReady (world s2) t).
      * destruct (terminal colony) as [tc|].
        2:{ unfold transfer, throw in Hrun. cbn beta iota in Hrun.
            inversion Hrun; subst o s'.
            exists []. rewrite Ht.
            split; [reflexivity |]. split; [discriminate |].
            split; [discriminate |]. auto. }
        destruct (transfer_trace t tc resource requestAmount "request for resource" s2)
          as (s3 & new & Etr & Htr & Hnew).
        rewrite Etr in Hrun. inversion Hrun; subst o s'.
        exists new. rewrite Htr, Ht.
        split; [reflexivity |].
        split; [intros b E; inversion E; reflexivity |].
        split; [discriminate |].
        split; [left; reflexivity |].
        right. rewrite Hw in Hnew. eauto.
      * rewrite markOverloaded_run in Hrun. inversion Hrun; subst o s'.
        exists []. cbn [trace]. rewrite Ht.
        split; [reflexivity |].
        split; [intros b E; inversion E; reflexivity |].
        split; [discriminate |]. auto.
    + destruct (IH _ _ _ Hrun) as (new & Htr & Hb & Hnone & Hdone & Hshape).
      exists new. rewrite Htr, Ht.
      split; [reflexivity |]. split; [exact Hb |].
      split; [intros E; eapply cacheExt_trans; [exact Hc2 | apply Hnone; exact E] |].
      split; [exact Hdone |].
      rewrite Hw in Hshape. exact Hshape.
Qed.

End SingleLoop.

Section DivvySuccess.

Context {World : Type} `{!Host World}.

Lemma In_take {A} (n : nat) (l : list A) (x : A) : In x (take n l) -> In x l.
Proof.
  revert n. induction l as [| y l IH]; intros [| n]; simpl; auto.
  - intros [].
  - intros [-> | Hin]; [left; reflexivity | right; eapply IH; exact Hin].
Qed.

Lemma In_sortBy_insert {A} (x y : A * number) (l : list (A * number)) :
  In x (sortBy_insert y l) -> x = y \/ In x l.
Proof.
  induction l as [| z l IH]; simpl.
  - intros [-> | []]; auto.
  - destruct (compareAscending (snd y) (snd z) <=? 0)%Z; simpl.
    + intros [-> | [-> | Hin]]; auto.
    + intros [-> | Hin]; auto. destruct (IH Hin); auto.
Qed.

Lemma In_sortBy {A} (keyed : list (A * number)) (x : A) :
  In x (sortBy keyed) -> exists k, In (x, k) keyed.
Proof.
  unfold sortBy. intros Hin. apply in_map_iff in Hin.
  destruct Hin as ([x' k] & Ex & Hin). simpl in Ex. subst x'.
  exists k. induction keyed as [| y keyed IH]; simpl in *; [contradiction |].
  destruct (In_sortBy_insert _ _ _ Hin) as [E | Hin']; auto.
Qed.

Lemma divvyPartners_subset (resource : string) (partnerSets : list (list Colony))
    (n : TerminalNetworkV2) (x : Colony) :
  In x (take 3
          (sortBy
             (List.map
                (fun partner =>
                   (partner,
                    Num.sub (get_num (assets partner) resource)
                            (target (thresholdsOf n partner resource))))
                (List.filter
                   (fun partner =>
                      Num.gt (get_num (assets partner) resource)
                             (target (thresholdsOf n partner resource)))
                   (concat partnerSets))))) ->
  In x (concat partnerSets) /\
  Num.gt (get_num (assets x) resource) (target (thresholdsOf n x resource)) = true.
Proof.
  intros Hin. apply In_take in Hin. apply In_sortBy in Hin.
  destruct Hin as (k & Hin). apply in_map_iff in Hin.
  destruct Hin as (y & Ey & Hin). inversion Ey; subst y.
  apply filter_In in Hin. exact Hin.
Qed.

(** A call of [handleRequestInstance] with divvying allowed: once a send
    has returned [OK] nothing is bought, and the call returns [true] unless
    a partner without a terminal makes it throw. *)
Lemma handleRequestInstance_run (s : St World) (colony : Colony) (resource : string)
    (requestAmount : number) (partnerSets : list (list Colony)) (opts : RequestOpts) :
  allowDivvying opts = true ->
  forall o s',
    handleRequestInstance colony resource requestAmount partnerSets opts s = (o, s') ->
    exists new,
      trace s' = (new ++ trace s)%list /\
      (existsb isOkSend new = true ->
       existsb isBuy new = false /\
       ((forall p, In p (concat partnerSets) -> terminal p <> None) -> o = Ret true)).
Proof.
  intros Hdivvy o s' Hrun.
  unfold handleRequestInstance in Hrun. unfold bind at 1 in Hrun.
  destruct (handleRequestInstance_single colony resource requestAmount partnerSets s)
    as [o1 s1] eqn:E1.
  destruct (single_loop_spec _ _ _ _ _ _ _ E1)
    as (new1 & Htr1 & Hb1 & Hnone1 & Hdone1 & Hshape1).
  assert (Hbuy1 : existsb isBuy new1 = false).
  { destruct Hshape1 as [-> | (t & d & resp & ->)]; [reflexivity |].
    destruct (bool_decide (resp = OK)); reflexivity. }
  destruct o1 as [[b |] |].
  - rewrite (Hb1 b eq_refl) in Hrun. inversion Hrun; subst o s'.
    exists new1. split; [exact Htr1 |]. intros _. split; [exact Hbuy1 | reflexivity].
  - destruct Hdone1 as [E | ->]; [discriminate |].
    rewrite Hdivvy in Hrun. unfold bind at 1 in Hrun. unfold bind at 1 in Hrun.
    destruct (cachePure_run _ _ _ (cachePure_divvyPartners resource partnerSets s1))
      as (s2 & E2 & Hc2).
    rewrite E2 in Hrun. clear E2.
    set (vp := take 3 (sortBy _)) in *.
    assert (Hvp : (forall p, In p (concat partnerSets) -> terminal p <> None) ->
                  forall p, In p vp -> terminal p <> None).
    { intros Hterm p Hp. apply Hterm. apply (divvyPartners_subset _ _ _ _ Hp). }
    unfold bind at 1 in Hrun.
    destruct (handleRequestInstance_divvy colony resource vp requestAmount false s2)
      as [o3 s3] eqn:E3.
    destruct (divvy_loop_spec _ _ _ _ _ _ _ _ E3) as (new3 & Htr3 & Hbuy3 & Hout3).
    rewrite (cacheExt_trace _ _ Hc2) in Htr3. simpl in Htr1. rewrite Htr1 in Htr3.
    destruct o3 as [[u | [rem ss]] |].
    + destruct u. unfold ret at 1 in Hrun. cbn beta iota in Hrun.
      inversion Hrun; subst o s'.
      exists new3. split; [exact Htr3 |]. intros _. split; [exact Hbuy3 | reflexivity].
    + unfold ret at 1 in Hrun. cbn beta iota in Hrun.
      simpl in Hout3. subst ss.
      destruct (existsb isOkSend new3) eqn:Eok.
      * inversion Hrun; subst o s'.
        exists new3. split; [exact Htr3 |]. intros _. split; [exact Hbuy3 | reflexivity].
      * assert (Hvac : exists new, trace s' = (new ++ trace s)%list /\
                                   existsb isOkSend new = false).
        { destruct (allowMarketBuy opts).
          - unfold bind, getWorld in Hrun.
            destruct (String.eqb resource RESOURCE_ENERGY
                      && Num.lt (credits (world s3)) canBuyEnergyAbove).
            { inversion Hrun; subst o s'. exists new3. auto. }
            destruct (isBoost resource && Num.lt (credits (world s3)) canBuyBoostsAbove).
            { inversion Hrun; subst o s'. exists new3. auto. }
            destruct (buy (world s3) (terminal colony) resource requestAmount)
              as [r w'] eqn:Ebuy.
            unfold setWorld, emit, ret in Hrun. cbn beta iota in Hrun.
            destruct (Num.ge r (Fin 0)); inversion Hrun; subst o s'; cbn [trace];
              exists (Buy (terminal colony) resource requestAmount r :: new3);
              rewrite Htr3; (split; [reflexivity | simpl; exact Eok]).
          - inversion Hrun; subst o s'. exists new3. auto. }
        destruct Hvac as (new & Htr & Hno). exists new. split; [exact Htr |].
        rewrite Hno. discriminate.
    + inversion Hrun; subst o s'. exists new3. split; [exact Htr3 |].
      intros Hok. split; [exact Hbuy3 |]. intros Hterm.
      destruct (Hout3 (Hvp Hterm)) as [Hno _]. congruence.
  - destruct Hdone1 as [E | ->]; [discriminate |].
    inversion Hrun; subst o s'. exists []. split; [exact Htr1 |]. discriminate.
Qed.

End DivvySuccess.

(* ===================================================================== *)
(** ** The order of the divvy partners *)
(* ===================================================================== *)

Section DivvyOrder.

Context {World : Type} `{!Host World}.

Lemma gt_sub_number (a b : number) :
  Num.gt a b = true -> Num.is_nan (Num.sub a b) = false.
Proof. destruct a, b; simpl; try discriminate; auto. Qed.

Lemma StronglySorted_take {A} (R : A -> A -> Prop) (n : nat) (l : list A) :
  StronglySorted R l -> StronglySorted R (take n l).
Proof.
  intros Hs. revert n. induction Hs as [| x l Hs IH Hx]; intros [| n]; simpl;
    try constructor.
  - apply IH.
  - apply List.Forall_forall. intros y Hy. apply In_take in Hy.
    rewrite List.Forall_forall in Hx. apply Hx. exact Hy.
Qed.

Lemma StronglySorted_keys {A} (f : A -> number) (l : list (A * number)) :
  Forall (fun y => snd y = f (fst y)) l ->
  StronglySorted keyLe l ->
  StronglySorted (fun a b => Num.le (f a) (f b) = true) (fst <$> l).
Proof.
  intros Hf Hs. induction Hs as [| x l Hs IH Hx]; simpl; [constructor |].
  inversion Hf as [| ? ? Ex Hf']; subst.
  constructor; [apply IH; exact Hf' |].
  apply List.Forall_forall. intros b Hb. apply in_map_iff in Hb.
  destruct Hb as (y & <- & Hy).
  rewrite List.Forall_forall in Hx, Hf'.
  specialize (Hx y Hy). specialize (Hf' y Hy).
  unfold keyLe in Hx. rewrite Ex, Hf' in Hx. exact Hx.
Qed.

(** X26.  The partners of the divvy fallback, in general: at most three of the
    flattened partners whose assets exceed their target, in the order of
    ascending excess. *)
Theorem divvyPartners_ascending (s : St World) (resource : string)
    (partnerSets : list (list Colony)) :
  exists validPartners s1,
    divvyPartners resource partnerSets s = (Ret validPartners, s1) /\
    cacheExt s s1 /\
    (length validPartners <= 3)%nat /\
    (forall p, In p validPartners ->
               In p (concat partnerSets) /\
               Num.gt (get_num (assets p) resource)
                      (target (thresholdsOf (net s) p resource)) = true) /\
    StronglySorted
      (fun a b => Num.le (excess (net s) resource a) (excess (net s) resource b) = true)
      validPartners.
Proof.
  destruct (cachePure_run _ _ _ (cachePure_divvyPartners resource partnerSets s))
    as (s1 & E & Hc).
  eexists _, s1. split; [exact E |]. split; [exact Hc |].
  split; [rewrite length_take; lia |].
  split; [intros p Hin; apply (divvyPartners_subset _ _ _ _ Hin) |].
  apply StronglySorted_take. unfold sortBy.
  set (keyed := List.map _ _).
  assert (Hkeys : Forall (fun y : Colony * number => snd y = excess (net s) resource (fst y))
                         keyed).
  { apply List.Forall_forall. intros y Hy. apply in_map_iff in Hy.
    destruct Hy as (p & <- & _). reflexivity. }
  assert (Hnum : Forall (fun y : Colony * number => Num.is_nan (snd y) = false) keyed).
  { apply List.Forall_forall. intros y Hy. apply in_map_iff in Hy.
    destruct Hy as (p & <- & Hp). apply filter_In in Hp. destruct Hp as [_ Hp].
    simpl. apply gt_sub_number. exact Hp. }
  destruct (sortBy_ascending keyed Hnum) as [Hsorted Hin].
  apply StronglySorted_keys; [| exact Hsorted].
  apply List.Forall_forall. intros y Hy. apply Hin in Hy.
  rewrite List.Forall_forall in Hkeys. apply Hkeys. exact Hy.
Qed.

End DivvyOrder.

(* ===================================================================== *)
(** ** The request handler: what is sent, and when the market is asked *)
(* ===================================================================== *)

Section RequestHandler.

Context {World : Type} `{!Host World}.

(** C8.  In [handleRequestInstance] with [allowDivvying] set, once a send
    has returned [OK] the market is not reached: no [buy] is made in that
    call, whatever part of the request is still unmet; and the call returns
    [true], the partners all having the terminal that [partner.terminal!]
    takes for granted. *)
Theorem C8_divvy_success_suppresses_market (s : St World) (colony : Colony)
    (resource : string) (requestAmount : number) (partnerSets : list (list Colony))
    (opts : RequestOpts) :
  allowDivvying opts = true ->
  exists new,
    trace (snd (handleRequestInstance colony resource requestAmount partnerSets opts s))
    = (new ++ trace s)%list /\
    (existsb isOkSend new = true ->
     existsb isBuy new = false /\
     ((forall p, In p (concat partnerSets) -> terminal p <> None) ->
      fst (handleRequestInstance colony resource requestAmount partnerSets opts s)
      = Ret true)).
Proof.
  intros Hdivvy.
  destruct (handleRequestInstance colony resource requestAmount partnerSets opts s)
    as [o s'] eqn:Hrun.
  apply (handleRequestInstance_run s colony resource requestAmount partnerSets opts
           Hdivvy o s' Hrun).
Qed.

Lemma sub_lt_0 (x : Q) (b : number) :
  Num.lt (Fin x) b = true -> Num.lt (Num.sub (Fin x) b) (Fin 0) = true.
Proof.
  destruct b as [y| | |]; simpl; try discriminate; auto.
  intros Hlt. q_bool. lra.
Qed.

Lemma maxAmountFor_number (resource : string) :
  Num.is_nan (maxAmountFor resource) = false.
Proof. unfold maxAmountFor. destruct (String.eqb resource RESOURCE_ENERGY); reflexivity. Qed.

(** C10.  The partners of the divvy fallback are filtered on their total
    assets ([assets[resource] > target]), while the amount asked of a
    partner is [min(store[resource] - target, remainingAmount, maxAmount)]
    with the store of its terminal.  So when a partner that passes the
    filter has a ready terminal holding less than its target, the amount is
    negative and [send] is called with it. *)
Theorem C10_divvy_sends_negative_amount (s : St World) (colony partner : Colony)
    (resource : string) (rest : list Colony) (remainingAmount : number)
    (sentSome : bool) (t tc : StructureTerminal) :
  let th := thresholdsOf (net s) partner resource in
  let amount := Num.min3 (Num.sub (Fin (store (world s) t resource)) (target th))
                         remainingAmount (maxAmountFor resource) in
  (forall partnerSets,
     exists validPartners s1,
       divvyPartners resource partnerSets s = (Ret validPartners, s1) /\
       forall p, In p validPartners ->
                 In p (concat partnerSets) /\
                 Num.gt (get_num (assets p) resource)
                        (target (thresholdsOf (net s) p resource)) = true) /\
  (terminal partner = Some t ->
   terminal colony = Some tc ->
   isReady (world s) t = true ->
   Num.gt (get_num (assets partner) resource) (target th) = true ->
   Num.lt (Fin (store (world s) t resource)) (target th) = true ->
   Num.is_nan remainingAmount = false ->
   Num.lt amount (Fin 0) = true /\
   exists response,
     In (Send (world s) t resource amount (room_name tc) response)
        (trace (snd (handleRequestInstance_divvy colony resource (partner :: rest)
                       remainingAmount sentSome s)))).
Proof.
  intros th amount. split.
  { intros partnerSets.
    destruct (cachePure_run _ _ _ (cachePure_divvyPartners resource partnerSets s))
      as (s1 & E & _).
    eexists _, s1. split; [exact E |].
    intros p Hin. apply (divvyPartners_subset _ _ _ _ Hin). }
  intros Et Etc Hready _ Hstore Hrem.
  split.
  { apply min3_lt_1; [apply sub_lt_0; exact Hstore | exact Hrem |].
    apply maxAmountFor_number. }
  destruct (handleRequestInstance_divvy colony resource (partner :: rest)
              remainingAmount sentSome s) as [o s'] eqn:Hrun.
  cbn [handleRequestInstance_divvy] in Hrun. rewrite Et, Etc in Hrun.
  unfold storeOf, isReadyOf, markOverloadedOf, bind, getWorld, ret in Hrun.
  destruct (thresholds_run partner resource s) as (s1 & Erun & Hc).
  rewrite Erun in Hrun.
  pose proof (cacheExt_world _ _ Hc) as Hw.
  pose proof (cacheExt_trace _ _ Hc) as Ht.
  fold th in Hrun. fold amount in Hrun.
  rewrite Hw, Hready in Hrun.
  destruct (transfer_trace t tc resource amount "request for resource" s1)
    as (s2 & new & Etr & Htr & Hnew).
  rewrite Etr in Hrun. rewrite Hw in Hnew.
  set (resp := fst (send (world s1) t resource amount (room_name tc))) in *.
  exists (fst (send (world s) t resource amount (room_name tc))).
  assert (Hin : In (Send (world s) t resource amount (room_name tc)
                         (fst (send (world s) t resource amount (room_name tc))))
                   (trace s2)).
  { rewrite Htr. apply in_or_app. left. rewrite Hnew.
    destruct (bool_decide (fst (send (world s) t resource amount (room_name tc)) = OK));
      simpl; auto. }
  cbn [fst snd].
  destruct (bool_decide (resp = OK)).
  - cbn [fst snd] in Hrun.
    destruct (Num.le (Num.sub remainingAmount amount) (Fin 0)).
    + inversion Hrun; subst. exact Hin.
    + destruct (divvy_loop_spec _ _ _ _ _ _ _ _ Hrun) as (new2 & Htr2 & _).
      rewrite Htr2. apply in_or_app. right. exact Hin.
  - rewrite markOverloaded_run in Hrun. cbn [fst snd] in Hrun.
    destruct (Num.le remainingAmount (Fin 0)).
    + inversion Hrun; subst. exact Hin.
    + destruct (divvy_loop_spec _ _ _ _ _ _ _ _ Hrun) as (new2 & Htr2 & _).
      rewrite Htr2. apply in_or_app. right. exact Hin.
Qed.

End RequestHandler.

(** A request of 20000 that no single partner covers: three partners send
    1000, 2000 and 3000, the call returns [true] with 14000 still unmet,
    and nothing is bought although the market is allowed. *)
Lemma C8_divvy_success_suppresses_market_witness :
  let run := handleRequestInstance Scenario.requestor "U" (Fin 20000)
               Scenario.fourPartnerSets Scenario.requestOpts Scenario.fourPartners in
  fst run = Ret true /\
  existsb isBuy (trace (snd run)) = false /\
  Scenario.sends (trace (snd run))
  = [("W1N1", "U", Fin 1000, "W5N5", OK);
     ("W2N2", "U", Fin 2000, "W5N5", OK);
     ("W3N3", "U", Fin 3000, "W5N5", OK)].
Proof.
  intros run.
  destruct (C8_divvy_success_suppresses_market
              Scenario.fourPartners Scenario.requestor "U" (Fin 20000)
              Scenario.fourPartnerSets Scenario.requestOpts) as (new & Htr & Hok).
  - reflexivity.
  - fold run in Htr, Hok.
    change (trace Scenario.fourPartners) with (@nil (Effect Demo.World)) in Htr.
    rewrite app_nil_r in Htr.
    destruct Hok as [Hbuy Hret].
    + rewrite <- Htr. vm_compute. reflexivity.
    + split.
      * apply Hret. simpl. intros p [<- | [<- | [<- | [<- | []]]]]; discriminate.
      * split; [rewrite Htr; exact Hbuy |]. vm_compute. reflexivity.
Defined.

(** A partner with 9000 of utrium in all, 1000 of it in its terminal, and
    a target of 7000: it passes the filter and its terminal is asked to
    send [-6000]. *)
Lemma C10_divvy_sends_negative_amount_witness :
  let run := handleRequestInstance_divvy Scenario.requestor "U"
               [Scenario.lowTerminal] (Fin 20000) false Scenario.lowTerminalState in
  Num.gt (get_num (assets Scenario.lowTerminal) "U") (Fin 7000) = true /\
  (exists response w,
     In (Send w {| room_name := "W1N1"; my := true |} "U" (Fin (-6000)) "W5N5" response)
        (trace (snd run))) /\
  Scenario.sends
    (trace (snd (handleRequestInstance Scenario.requestor "U" (Fin 20000)
                   [[]; [Scenario.lowTerminal]; []; []] Scenario.requestOpts
                   Scenario.lowTerminalState)))
  = [("W1N1", "U", Fin (-6000), "W5N5", ERR_INVALID_ARGS)].
Proof.
  intros run.
  destruct (C10_divvy_sends_negative_amount
              Scenario.lowTerminalState Scenario.requestor Scenario.lowTerminal "U"
              [] (Fin 20000) false
              {| room_name := "W1N1"; my := true |}
              {| room_name := "W5N5"; my := true |}) as [_ Hneg].
  destruct Hneg as [Hlt (response & Hin)]; try reflexivity.
  split; [reflexivity |].
  split; [| vm_compute; reflexivity].
  exists response, (world Scenario.lowTerminalState).
  exact Hin.
Defined.

(** C1 fails in the single-partner path of the request handler:
    [sendAmount] is computed there but [transfer] is given
    [requestAmount].  A colony has requested 10000 utrium and a passive
    provider holds 30000: the 10000 are sent whole, above the cap of
    3000. *)
Lemma C1_request_path_sends_requestAmount :
  let run := handleRequestInstance Scenario.poor "U" (Fin 10000)
               [[]; [Scenario.rich]; []; []]
               Scenario.requestOpts Scenario.richAndPoor in
  fst run = Ret true /\
  Scenario.sends (trace (snd run)) = [("W1N1", "U", Fin 10000, "W2N2", OK)] /\
  Num.le (Fin 10000) (maxAmountFor "U") = false /\
  forallb sendWithinBounds (trace (snd run)) = false.
Proof. vm_compute. repeat split. Qed.

(* ===================================================================== *)
(** ** The provide handler *)
(* ===================================================================== *)

Section ProvideHandler.

Context {World : Type} `{!Host World}.

Lemma add_nan_r (a b : number) : Num.is_nan b = true -> Num.add a b = NaN.
Proof. destruct a, b; simpl; try discriminate; reflexivity. Qed.

Lemma sub_nan_r (a b : number) : Num.is_nan b = true -> Num.sub a b = NaN.
Proof. destruct a, b; simpl; try discriminate; reflexivity. Qed.

Lemma filter_nonempty {A} (p : A -> bool) (xs : list A) :
  (0 <? length (List.filter p xs))%nat = true -> exists x, p x = true.
Proof.
  intros Hlen. destruct (List.filter p xs) as [| x l] eqn:E; [discriminate |].
  exists x. assert (Hin : In x (List.filter p xs)) by (rewrite E; left; reflexivity).
  apply filter_In in Hin. apply Hin.
Qed.

(** The push loop of the provide handler asks at most one terminal to
    send, and what it asks for is within the cap and within the store. *)
Lemma push_loop_spec (colony : Colony) (resource : string) (sendAmount : number)
    (partnerSets : list (list Colony)) :
  forall (s : St World) o s',
    handleProvideInstance_push colony resource sendAmount partnerSets s = (o, s') ->
    exists new,
      trace s' = (new ++ trace s)%list /\
      forallb sendWithinBounds new = true /\
      existsb isBuy new = false.
Proof.
  induction partnerSets as [| partners rest IH]; intros s o s' Hrun.
  - inversion Hrun; subst. exists []. auto.
  - cbn [handleProvideInstance_push] in Hrun.
    set (p1 := fun partner : Colony =>
                 Num.le (Num.add (get_num (assets partner) resource) sendAmount)
                        (target (thresholdsOf (net s) partner resource))
                 && Num.ge (Num.sub (getRemainingSpace partner false) sendAmount)
                           minColonySpace).
    set (p2 := fun partner : Colony =>
                 Num.le (Num.add (get_num (assets partner) resource) sendAmount)
                        (Num.add (target (thresholdsOf (net s) partner resource))
                                 (tolerance (thresholdsOf (net s) colony resource)))
                 && Num.ge (Num.sub (getRemainingSpace partner false) sendAmount)
                           minColonySpace).
    set (p3 := fun partner : Colony =>
                 if Num.lt (Num.sub (getRemainingSpace partner false) sendAmount)
                           minColonySpace
                 then false
                 else match surplus (thresholdsOf (net s) partner resource) with
                      | Some sp =>
                          Num.lt (Num.add (get_num (assets partner) resource) sendAmount) sp
                      | None =>
                          Num.le (Num.add (get_num (assets partner) resource) sendAmount)
                                 (Num.add (target (thresholdsOf (net s) partner resource))
                                          (tolerance (thresholdsOf (net s) partner resource)))
                      end).
    unfold bind at 1 in Hrun.
    match type of Hrun with
    | context [filterM ?pred partners s] =>
        destruct (cachePure_run (filterM pred partners) s (List.filter p1 partners))
          as (s1 & E1 & Hc1)
    end.
    { apply cachePure_filterM. intros x.
      eapply cachePure_bind; [apply cachePure_thresholds | apply cachePure_ret]. }
    rewrite E1 in Hrun. clear E1.
    unfold bind at 1 in Hrun.
    match type of Hrun with
    | context [(if ?c then filterM ?pred partners else ret ?v) s1] =>
        assert (Hvp2 : exists vp s2,
                   (if c then filterM pred partners else ret v) s1 = (Ret vp, s2) /\
                   cacheExt s s2 /\
                   (vp = List.filter p1 partners \/ vp = List.filter p2 partners))
    end.
    { destruct (Nat.eqb (length (List.filter p1 partners)) 0).
      - destruct (cachePure_ext (filterM
                    (fun partner =>
                       let* thp := thresholds partner resource in
                       let* thc := thresholds colony resource in
                       ret (Num.le (Num.add (get_num (assets partner) resource) sendAmount)
                                   (Num.add (target thp) (tolerance thc))
                            && Num.ge (Num.sub (getRemainingSpace partner false) sendAmount)
                                      minColonySpace)) partners)
                    s s1 (List.filter p2 partners) Hc1) as (s2 & E2 & Hc2).
        { apply cachePure_filterM. intros x.
          eapply cachePure_bind; [apply cachePure_thresholds |].
          eapply cachePure_bind; [apply cachePure_thresholds | apply cachePure_ret]. }
        eexists _, s2. split; [exact E2 |]. split; [exact Hc2 | right; reflexivity].
      - eexists _, s1. split; [reflexivity |]. split; [exact Hc1 | left; reflexivity]. }
    destruct Hvp2 as (vp2 & s2 & E2 & Hc2 & Hvp2).
    rewrite E2 in Hrun. clear E2.
    unfold bind at 1 in Hrun.
    match type of Hrun with
    | context [(if ?c then filterM ?pred partners else ret ?v) s2] =>
        assert (Hvp3 : exists vp s3,
                   (if c then filterM pred partners else ret v) s2 = (Ret vp, s3) /\
                   cacheExt s s3 /\
                   (vp = List.filter p1 partners \/ vp = List.filter p2 partners
                    \/ vp = List.filter p3 partners))
    end.
    { destruct (Nat.eqb (length vp2) 0).
      - destruct (cachePure_ext (filterM
                    (fun partner =>
                       if Num.lt (Num.sub (getRemainingSpace partner false) sendAmount)
                                 minColonySpace
                       then ret false
                       else
                         let* th := thresholds partner resource in
                         match surplus th with
                         | Some s =>
                             ret (Num.lt (Num.add (get_num (assets partner) resource)
                                                  sendAmount) s)
                         | None =>
                             ret (Num.le (Num.add (get_num (assets partner) resource)
                                                  sendAmount)
                                         (Num.add (target th) (tolerance th)))
                         end) partners)
                    s s2 (List.filter p3 partners) Hc2) as (s3 & E3 & Hc3).
        { apply cachePure_filterM. intros x. unfold p3.
          destruct (Num.lt (Num.sub (getRemainingSpace x false) sendAmount) minColonySpace);
            [apply cachePure_ret |].
          eapply cachePure_bind; [apply cachePure_thresholds |].
          destruct (surplus (thresholdsOf (net s) x resource)); apply cachePure_ret. }
        eexists _, s3. split; [exact E3 |]. split; [exact Hc3 | auto].
      - eexists _, s2. split; [reflexivity |]. split; [exact Hc2 |].
        destruct Hvp2; auto. }
    destruct Hvp3 as (vp & s3 & E3 & Hc3 & Hvp3).
    rewrite E3 in Hrun. clear E3.
    pose proof (cacheExt_world _ _ Hc3) as Hw.
    pose proof (cacheExt_trace _ _ Hc3) as Ht.
    destruct (0 <? length vp)%nat eqn:Elen.
    + assert (Hnum : Num.is_nan sendAmount = false).
      { destruct (Num.is_nan sendAmount) eqn:Enan; [| reflexivity]. exfalso.
        assert (Hp : exists x, p1 x = true \/ p2 x = true \/ p3 x = true).
        { destruct Hvp3 as [-> | [-> | ->]];
            destruct (filter_nonempty _ _ Elen) as (x & Hx); exists x; auto. }
        destruct Hp as (x & [Hx | [Hx | Hx]]).
        - unfold p1 in Hx. rewrite (add_nan_r _ _ Enan) in Hx. discriminate.
        - unfold p2 in Hx. rewrite (add_nan_r _ _ Enan) in Hx. discriminate.
        - unfold p3 in Hx. rewrite (sub_nan_r _ _ Enan), (add_nan_r _ _ Enan) in Hx.
          simpl in Hx. destruct (surplus (thresholdsOf (net s) x resource)); discriminate. }
      match type of Hrun with
      | context [minBy vp ?f] => destruct (minBy vp f) as [best|]
      end.
      2:{ unfold throw in Hrun. inversion Hrun; subst o s'.
          exists []. rewrite Ht. auto. }
      unfold storeOf, isReadyOf, markOverloadedOf in Hrun.
      destruct (terminal colony) as [t|].
      2:{ unfold bind, throw in Hrun. inversion Hrun; subst o s'.
          exists []. rewrite Ht. auto. }
      unfold bind, getWorld, ret in Hrun. cbn beta iota in Hrun.
      set (amount := Num.min3 sendAmount (Fin (store (world s3) t resource))
                              (maxAmountFor resource)) in *.
      destruct (isReady (world s3) t).
      * destruct (terminal best) as [tb|].
        2:{ unfold transfer, throw in Hrun. cbn beta iota in Hrun.
            inversion Hrun; subst o s'. exists []. rewrite Ht. auto. }
        destruct (transfer_trace t tb resource amount "provide instance for resource" s3)
          as (s4 & new & Etr & Htr & Hnew).
        rewrite Etr in Hrun. inversion Hrun; subst o s'.
        exists new. rewrite Htr, Ht. split; [reflexivity |].
        assert (Hok : sendWithinBounds
                        (Send (world s3) t resource amount (room_name tb)
                              (fst (send (world s3) t resource amount (room_name tb))))
                      = true).
        { assert (Hnan : Num.is_nan amount = false).
          { unfold amount. rewrite min3_nan, Hnum, maxAmountFor_number. reflexivity. }
          unfold sendWithinBounds. unfold amount in *.
          rewrite (min3_le_3 _ _ _ Hnan), (min3_le_2 _ _ _ Hnan). reflexivity. }
        rewrite Hnew.
        destruct (bool_decide (fst (send (world s3) t resource amount (room_name tb)) = OK));
          (split; [cbn [forallb]; rewrite Hok; reflexivity | reflexivity]).
      * rewrite markOverloaded_run in Hrun. inversion Hrun; subst o s'.
        exists []. cbn [trace]. rewrite Ht. auto.
    + destruct (IH _ _ _ Hrun) as (new & Htr & Hb & Hbuy).
      exists new. rewrite Htr, Ht. auto.
Qed.

(** X27.  The provide handler as a whole: whatever it sends is within the cap
    of the resource and within the store of the sending terminal. *)
Theorem handleProvideInstance_sends_within_bounds (s : St World) (colony : Colony)
    (resource : string) (sendAmount : number) (partnerSets : list (list Colony))
    (opts : ProvideOpts) :
  exists new,
    trace (snd (handleProvideInstance colony resource sendAmount partnerSets opts s))
    = (new ++ trace s)%list /\
    forallb sendWithinBounds new = true.
Proof.
  destruct (handleProvideInstance colony resource sendAmount partnerSets opts s)
    as [o s'] eqn:Hrun.
  unfold handleProvideInstance in Hrun. unfold bind at 1 in Hrun.
  assert (Hpush : exists o1 s1 new1,
             (if allowPushToOtherRooms opts
              then handleProvideInstance_push colony resource sendAmount partnerSets
              else ret None) s = (o1, s1) /\
             trace s1 = (new1 ++ trace s)%list /\
             forallb sendWithinBounds new1 = true).
  { destruct (allowPushToOtherRooms opts).
    - destruct (handleProvideInstance_push colony resource sendAmount partnerSets s)
        as [o1 s1] eqn:E1.
      destruct (push_loop_spec _ _ _ _ _ _ _ E1) as (new1 & Htr1 & Hb1 & _).
      exists o1, s1, new1. auto.
    - exists (Ret None), s, []. auto. }
  destruct Hpush as (o1 & s1 & new1 & E1 & Htr1 & Hb1).
  rewrite E1 in Hrun. clear E1. cbn [fst snd].
  destruct o1 as [[b |] |].
  - inversion Hrun; subst o s'. exists new1. auto.
  - destruct (allowMarketSell opts).
    + unfold bind, getWorld in Hrun.
      match type of Hrun with
      | context [sell ?w ?t ?r ?a ?o] => destruct (sell w t r a o) as [code w'] eqn:Esell
      end.
      unfold setWorld, emit, ret in Hrun. cbn beta iota in Hrun.
      destruct (Num.ge code (Fin 0)); inversion Hrun; subst o s'; cbn [trace];
        eexists (_ :: new1); rewrite Htr1; (split; [reflexivity |]);
        simpl; exact Hb1.
    + inversion Hrun; subst o s'. exists new1. auto.
  - inversion Hrun; subst o s'. exists new1. auto.
Qed.

End ProvideHandler.

(* ===================================================================== *)
(** ** More on the classifier *)
(* ===================================================================== *)

Section ClassifierMore.

Context {World : Type} `{!Host World}.

(** [getColonyState] returns [classify] of what it reads; it at most fills
    the cache, and logs exactly when the state is [error]. *)
Lemma getColonyState_run (s : St World) (colony : Colony) (resource : string) :
  let st := classify (thresholdsOf (net s) colony resource)
                     (get_num (assets colony) resource)
                     (getRemainingSpace colony false) in
  exists s1,
    cacheExt s s1 /\
    getColonyState colony resource s
    = (Ret st,
       if bool_decide (st = error)
       then {| net := net s1; world := world s1;
               trace := Log LogError "Shouldn't reach this part of TerminalNetwork code!"
                        :: trace s1 |}
       else s1).
Proof.
  intros st.
  destruct (thresholds_run colony resource s) as (s1 & Hrun & Hc).
  exists s1. split; [exact Hc |].
  unfold getColonyState, bind. rewrite Hrun.
  subst st. unfold classify.
  repeat match goal with
         | |- context [if ?g then ret _ else _] => destruct g; [reflexivity |]
         end.
  reflexivity.
Qed.

Lemma le_or_gt (a b : number) :
  Num.is_nan a = false -> Num.is_nan b = false ->
  Num.gt a b = negb (Num.le a b).
Proof.
  unfold Num.gt.
  destruct a as [x| | |], b as [y| | |]; simpl; try discriminate; auto.
Qed.

Lemma classify_never_error (th : Thresholds) (amount space : number) :
  Num.is_nan amount = false ->
  is_finite (target th) = true ->
  is_finite (tolerance th) = true ->
  (forall sp, surplus th = Some sp -> Num.is_nan sp = false) ->
  classify th amount space <> error.
Proof.
  intros Ha Ht Htol Hsp. unfold classify.
  destruct (target th) as [t| | |] eqn:Et; try discriminate.
  destruct (tolerance th) as [tol| | |] eqn:Etol; try discriminate.
  assert (Hsum : Num.is_nan (Num.add (Fin t) (Fin tol)) = false) by reflexivity.
  assert (Hfloor : Num.is_nan (Num.max2 (Num.sub (Fin t) (Fin tol)) (Fin 0)) = false).
  { simpl. destruct (Qle_bool _ _); reflexivity. }
  set (hi := Num.add (Fin t) (Fin tol)) in *.
  set (floor := Num.max2 (Num.sub (Fin t) (Fin tol)) (Fin 0)) in *.
  destruct (match surplus th with Some sp => Num.gt amount sp | None => false end
            || (Num.gt amount hi && Num.lt space minColonySpace)) eqn:EAP;
    [discriminate |].
  apply orb_false_iff in EAP. destruct EAP as [Esur _].
  destruct (Num.gt amount hi) eqn:Eabove.
  - assert (Hpp : Num.ge (match surplus th with Some sp => sp | None => PInf end) amount
                  = true).
    { unfold Num.ge. destruct (surplus th) as [sp|] eqn:Es.
      - rewrite (le_or_gt _ _ Ha (Hsp sp eq_refl)) in Esur.
        apply negb_false_iff in Esur. exact Esur.
      - destruct amount; simpl; auto; discriminate. }
    rewrite Hpp. discriminate.
  - rewrite andb_false_r.
    rewrite (le_or_gt _ _ Ha Hsum) in Eabove. apply negb_false_iff in Eabove.
    unfold Num.ge at 1. rewrite Eabove. simpl.
    unfold Num.ge. destruct (Num.le floor amount) eqn:Efl; [discriminate |].
    assert (Hlt : Num.lt amount floor = true).
    { change (Num.gt floor amount = true). rewrite (le_or_gt _ _ Hfloor Ha), Efl.
      reflexivity. }
    rewrite Hlt. discriminate.
Qed.

(** X1.  The last line of [getColonyState] ("should never reach here") is
    indeed never reached when the amount is a number and the thresholds
    are finite numbers (the surplus, if set, a number): the state returned
    is one of the four tiers and nothing is logged. *)
Theorem getColonyState_never_error (s : St World) (colony : Colony) (resource : string) :
  let th := thresholdsOf (net s) colony resource in
  Num.is_nan (get_num (assets colony) resource) = false ->
  is_finite (target th) = true ->
  is_finite (tolerance th) = true ->
  (forall sp, surplus th = Some sp -> Num.is_nan sp = false) ->
  exists st s',
    getColonyState colony resource s = (Ret st, s') /\
    st <> error /\ st <> activeRequestor /\
    trace s' = trace s.
Proof.
  intros th Ha Ht Htol Hsp.
  destruct (getColonyState_run s colony resource) as (s1 & Hc & Hrun).
  cbv zeta in Hrun. fold th in Hrun.
  pose proof (classify_never_error th _ (getRemainingSpace colony false) Ha Ht Htol Hsp)
    as Hne.
  rewrite Hrun. eexists _, _. split; [reflexivity |].
  split; [exact Hne |].
  split.
  - unfold classify.
    repeat match goal with
           | |- context [if ?g then _ else _] => destruct g
           end; discriminate.
  - rewrite bool_decide_eq_false_2 by exact Hne. apply (cacheExt_trace _ _ Hc).
Qed.

Lemma classify_nan (th : Thresholds) (space : number) : classify th NaN space = error.
Proof.
  unfold classify, Num.ge, Num.gt.
  destruct (surplus th) as [[| | |]|], (Num.add (target th) (tolerance th)),
    (Num.max2 (Num.sub (target th) (tolerance th)) (Fin 0)); reflexivity.
Qed.

(** X2.  An amount that is not a number (an asset entry that is missing)
    falls through every comparison: the state is [error] and the error is
    logged. *)
Theorem getColonyState_nan_is_error (s : St World) (colony : Colony) (resource : string) :
  assets colony !! resource = None \/ assets colony !! resource = Some NaN ->
  exists s' msg,
    getColonyState colony resource s = (Ret error, s') /\
    trace s' = Log LogError msg :: trace s.
Proof.
  intros Hmissing.
  assert (Ha : get_num (assets colony) resource = NaN).
  { unfold get_num. destruct Hmissing as [-> | ->]; reflexivity. }
  destruct (getColonyState_run s colony resource) as (s1 & Hc & Hrun).
  cbv zeta in Hrun. rewrite Ha, classify_nan in Hrun.
  rewrite Hrun. eexists _, _. split; [reflexivity |].
  simpl. rewrite (cacheExt_trace _ _ Hc). reflexivity.
Qed.

Lemma classify_dont_want (amount space : number) :
  classify THRESHOLDS_DONT_WANT amount space
  = if Num.gt amount (Fin 0) then activeProvider
    else if Num.eqb amount (Fin 0) then equilibrium
    else if Num.lt amount (Fin 0) then passiveRequestor
    else error.
Proof.
  unfold classify, Num.ge, Num.gt. cbn [surplus target tolerance THRESHOLDS_DONT_WANT].
  change (Num.max2 (Num.sub (Fin 0) (Fin 0)) (Fin 0)) with (Fin 0).
  change (Num.add (Fin 0) (Fin 0)) with (Fin (0 + 0)).
  destruct amount as [x| | |]; try reflexivity.
  cbn [Num.lt Num.le Num.eqb]. unfold Num.Qlt_bool.
  destruct (Qle_bool x 0) eqn:E1, (Qle_bool 0 x) eqn:E2, (Qle_bool (0 + 0) x) eqn:E3,
    (Qle_bool x (0 + 0)) eqn:E4, (Qeq_bool x 0) eqn:E5; simpl; try reflexivity;
    exfalso; q_bool; try lra; try (apply E5; lra).
Qed.

(** X3.  After [exportResource] with its default thresholds (don't want),
    the colony is an active provider of the resource as soon as it holds
    any of it, and in equilibrium when it holds none. *)
Theorem exportResource_default_classification (s : St World) (colony : Colony)
    (resource : string) :
  let amount := get_num (assets colony) resource in
  exists s1 s2,
    exportResource colony resource THRESHOLDS_DONT_WANT s = (Ret tt, s1) /\
    getColonyState colony resource s1
    = (Ret (if Num.gt amount (Fin 0) then activeProvider
            else if Num.eqb amount (Fin 0) then equilibrium
            else if Num.lt amount (Fin 0) then passiveRequestor
            else error), s2).
Proof.
  intros amount.
  destruct (exportResource_run colony resource THRESHOLDS_DONT_WANT s)
    as (s1 & Hexp & Hset & _).
  destruct (getColonyState_run s1 colony resource) as (s2 & Hc & Hrun).
  cbv zeta in Hrun.
  assert (Hth : thresholdsOf (net s1) colony resource = THRESHOLDS_DONT_WANT).
  { unfold thresholdsOf. rewrite Hset. reflexivity. }
  rewrite Hth, classify_dont_want in Hrun. fold amount in Hrun.
  exists s1. eexists. split; [exact Hexp | exact Hrun].
Qed.

End ClassifierMore.

Lemma getColonyState_never_error_witness :
  exists st s',
    getColonyState Scenario.rich "U" Scenario.richAndPoor = (Ret st, s') /\
    st <> error /\ st <> activeRequestor /\
    trace s' = trace Scenario.richAndPoor.
Proof.
  apply (getColonyState_never_error Scenario.richAndPoor Scenario.rich "U").
  - vm_compute. reflexivity.
  - vm_compute. reflexivity.
  - vm_compute. reflexivity.
  - intros sp Hsp. vm_compute in Hsp. inversion Hsp. reflexivity.
Defined.

Lemma getColonyState_nan_is_error_witness :
  exists s' msg,
    getColonyState Scenario.rich "energy" Scenario.richAndPoor = (Ret error, s') /\
    trace s' = Log LogError msg :: trace Scenario.richAndPoor.
Proof.
  apply (getColonyState_nan_is_error Scenario.richAndPoor Scenario.rich "energy").
  left. vm_compute. reflexivity.
Defined.

(* ===================================================================== *)
(** ** More on the thresholds *)
(* ===================================================================== *)

Section ThresholdsMore.

Context {World : Type} `{!Host World}.

Lemma classify_power (amount space : number) :
  Num.le (Fin 0) amount = true ->
  classify THRESHOLDS_POWER amount space
  = if Num.gt amount (Fin 5000)
    then (if Num.lt space minColonySpace then activeProvider else passiveProvider)
    else equilibrium.
Proof.
  intros Hpos.
  unfold classify, Num.ge, Num.gt. cbn [surplus target tolerance THRESHOLDS_POWER].
  change (Num.max2 (Num.sub (Fin 2500) (Fin 2500)) (Fin 0)) with (Fin 0).
  change (Num.add (Fin 2500) (Fin 2500)) with (Fin (2500 + 2500)).
  destruct amount as [x| | |]; try discriminate.
  - cbn [Num.lt Num.le] in *. unfold Num.Qlt_bool.
    destruct (Num.lt space minColonySpace);
    destruct (Qle_bool x 5000) eqn:E1, (Qle_bool x (2500 + 2500)) eqn:E2,
      (Qle_bool 0 x) eqn:E3, (Qle_bool x 0) eqn:E4; simpl; try reflexivity;
      exfalso; q_bool; lra.
  - simpl. destruct (Num.lt space minColonySpace); reflexivity.
Qed.

(** X4.  Power and ops have their target equal to their tolerance, "to
    prevent active buying": without an override, a colony holding a
    non-negative amount of either is never a requestor of it.  It is in
    equilibrium up to 5000 and a provider above. *)
Theorem power_and_ops_never_requested (s : St World) (colony : Colony)
    (resource : string) :
  let amount := get_num (assets colony) resource in
  resource = RESOURCE_POWER \/ resource = RESOURCE_OPS ->
  colonyThreshold (net s) (name colony) resource = None ->
  Num.le (Fin 0) amount = true ->
  fst (getColonyState colony resource s)
  = Ret (if Num.gt amount (Fin 5000)
         then (if Num.lt (getRemainingSpace colony false) minColonySpace
               then activeProvider else passiveProvider)
         else equilibrium).
Proof.
  intros amount Hres Hnone Hpos.
  destruct (getColonyState_run s colony resource) as (s1 & Hc & Hrun).
  cbv zeta in Hrun. rewrite Hrun. cbn [fst]. f_equal.
  assert (Hth : thresholdsOf (net s) colony resource = THRESHOLDS_POWER).
  { unfold thresholdsOf. rewrite Hnone.
    destruct Hres as [-> | ->]; reflexivity. }
  rewrite Hth. apply classify_power. exact Hpos.
Qed.

(** X5.  An override is read back: after [exportResource(c, r, th)],
    [thresholds] returns [th] for every colony object named like [c] and
    for [r]; and for any other pair it returns what it returned before,
    unless [r] is energy and the energy thresholds were not computed yet
    (the override then changes the mean). *)
Theorem exportResource_thresholds_roundtrip (s : St World) (c c' : Colony)
    (r r' : string) (th : Thresholds) :
  let s1 := snd (exportResource c r th s) in
  fst (exportResource c r th s) = Ret tt /\
  (name c' = name c -> fst (thresholds c' r s1) = Ret th) /\
  (name c' <> name c \/ r' <> r ->
   r <> RESOURCE_ENERGY \/ _energyThresholds (net s) <> None ->
   fst (thresholds c' r' s1) = fst (thresholds c' r' s)).
Proof.
  intros s1.
  destruct (exportResource_run c r th s) as (s1' & Hexp & Hset & Hcache).
  assert (Es1 : s1 = s1') by (subst s1; rewrite Hexp; reflexivity).
  rewrite Hexp. split; [reflexivity |].
  destruct (thresholds_run c' r s1) as (s2 & Hrun & _).
  split.
  - intros Hname. rewrite Hrun. cbn [fst]. f_equal.
    unfold thresholdsOf. rewrite Hname, Es1, Hset. reflexivity.
  - intros Hother Hmean.
    destruct (thresholds_run c' r' s1) as (s3 & Hrun1 & _).
    destruct (thresholds_run c' r' s) as (s4 & Hrun0 & _).
    rewrite Hrun1, Hrun0. cbn [fst]. f_equal.
    assert (Hct : forall cn rn, colonyThreshold (net s1) cn rn
                  = if decide (name c = cn /\ r = rn) then Some th
                    else colonyThreshold (net s) cn rn).
    { intros cn rn. subst s1. unfold exportResource, bind, getNet.
      destruct (colonyThreshold (net s) (name c) r); cbn;
        unfold colonyThreshold; cbn; apply lookup2_insert. }
    unfold thresholdsOf. rewrite Hct.
    rewrite decide_False by (intros [E1 E2]; destruct Hother as [Hn | Hn]; congruence).
    destruct (colonyThreshold (net s) (name c') r'); [reflexivity |].
    destruct (String.eqb_spec r' RESOURCE_ENERGY) as [Er | _]; [| reflexivity].
    rewrite Es1, Hcache.
    destruct (_energyThresholds (net s)) as [e|] eqn:Ecache; [reflexivity |].
    destruct Hmean as [Hr | Hn]; [| contradiction].
    unfold freshEnergyThresholds.
    assert (Hne : nonExceptionalColonies (net s1') = nonExceptionalColonies (net s)).
    { rewrite <- Es1. unfold nonExceptionalColonies.
      assert (Hcol : colonies (net s1) = colonies (net s)).
      { subst s1. unfold exportResource, bind, getNet.
        destruct (colonyThreshold (net s) (name c) r); reflexivity. }
      rewrite Hcol. apply filter_ext. intros x. rewrite Hct.
      rewrite decide_False by (intros [_ E2]; congruence). reflexivity. }
    rewrite Hne. reflexivity.
Qed.

(** X6.  An energy override made before the energy thresholds are
    computed takes the colony out of the mean: the colonies averaged over
    afterwards are those averaged over before, less every colony named like
    the one overridden. *)
Theorem energy_override_leaves_the_mean (s : St World) (c : Colony) (th : Thresholds) :
  let s1 := snd (exportResource c RESOURCE_ENERGY th s) in
  nonExceptionalColonies (net s1)
  = List.filter (fun x => negb (String.eqb (name x) (name c)))
                (nonExceptionalColonies (net s)) /\
  (_energyThresholds (net s) = None ->
   fst (getEnergyThresholds s1) = Ret (freshEnergyThresholds (net s1))).
Proof.
  intros s1.
  assert (Hct : forall cn rn, colonyThreshold (net s1) cn rn
                = if decide (name c = cn /\ RESOURCE_ENERGY = rn) then Some th
                  else colonyThreshold (net s) cn rn).
  { intros cn rn. subst s1. unfold exportResource, bind, getNet.
    destruct (colonyThreshold (net s) (name c) RESOURCE_ENERGY); cbn;
      unfold colonyThreshold; cbn; apply lookup2_insert. }
  assert (Hcol : colonies (net s1) = colonies (net s)).
  { subst s1. unfold exportResource, bind, getNet.
    destruct (colonyThreshold (net s) (name c) RESOURCE_ENERGY); reflexivity. }
  split.
  - unfold nonExceptionalColonies. rewrite Hcol. clear Hcol.
    generalize (colonies (net s)). intros l0.
    induction l0 as [| x l IH]; [reflexivity |].
    cbn [List.filter]. rewrite Hct.
    destruct (String.eqb_spec (name x) (name c)) as [E | E].
    + rewrite decide_True by (split; congruence). cbn [defined negb].
      rewrite andb_false_r.
      destruct (defined (storage x)
                && negb (defined (colonyThreshold (net s) (name x) RESOURCE_ENERGY)));
        cbn [List.filter]; rewrite ?E; rewrite ?String.eqb_refl; exact IH.
    + rewrite decide_False by (intros [E1 _]; congruence).
      destruct (defined (storage x)
                && negb (defined (colonyThreshold (net s) (name x) RESOURCE_ENERGY)));
        cbn [List.filter]; [| exact IH].
      destruct (String.eqb_spec (name x) (name c)); [contradiction |].
      cbn [negb]. rewrite IH. reflexivity.
  - intros Hnone.
    destruct (getEnergyThresholds_run s1) as (s2 & Hrun & _).
    rewrite Hrun. cbn [fst].
    assert (Hcache : _energyThresholds (net s1) = None).
    { subst s1. rewrite exportResource_cache. exact Hnone. }
    rewrite Hcache. reflexivity.
Qed.

End ThresholdsMore.

Lemma power_and_ops_never_requested_witness :
  fst (getColonyState (Demo.colonyWith "W1N1" "power" 0) "power"
         (Scenario.beginTick [Demo.colonyWith "W1N1" "power" 0] ∅))
  = Ret equilibrium.
Proof.
  apply (power_and_ops_never_requested
           (Scenario.beginTick [Demo.colonyWith "W1N1" "power" 0] ∅)
           (Demo.colonyWith "W1N1" "power" 0) "power").
  - left. reflexivity.
  - vm_compute. reflexivity.
  - vm_compute. reflexivity.
Defined.

(* ===================================================================== *)
(** ** The tables of the module *)
(* ===================================================================== *)

Section Tables.

Context {World : Type} `{!Host World} `{!TickHost World}.

Lemma zipObject_from {A} (f : string -> A) (keys : list string) (m : gmap string A)
    (k : string) :
  fold_left (fun obj kv => <[fst kv := snd kv]> obj) (zip keys (f <$> keys)) m !! k
  = if decide (k ∈ keys) then Some (f k) else m !! k.
Proof.
  revert m. induction keys as [| x keys IH]; intros m.
  - rewrite decide_False by apply not_elem_of_nil. reflexivity.
  - cbn [fmap list_fmap zip zip_with fold_left]. fold (fmap f keys).
    change (zip_with pair keys (f <$> keys)) with (zip keys (f <$> keys)).
    rewrite IH. cbn [fst snd].
    destruct (decide (k ∈ keys)) as [Hin | Hnin].
    + rewrite decide_True by (apply elem_of_cons; auto). reflexivity.
    + destruct (decide (k = x)) as [-> | Hne].
      * rewrite decide_True by (apply elem_of_cons; auto). apply lookup_insert_eq.
      * rewrite decide_False by (rewrite elem_of_cons; tauto).
        apply lookup_insert_ne. congruence.
Qed.

Lemma zipObject_lookup {A} (f : string -> A) (keys : list string) (k : string) :
  zipObject keys (f <$> keys) !! k = if decide (k ∈ keys) then Some (f k) else None.
Proof. unfold zipObject. rewrite zipObject_from. reflexivity. Qed.

(** X7.  The object [ALL_THRESHOLDS] holds, for every resource other than
    energy, what [getThresholds] answers for it, and nothing else: reading
    it for a resource of the table is calling the function. *)
Theorem ALL_THRESHOLDS_object_lookup (resource : string) :
  ALL_THRESHOLDS_object !! resource
  = if decide (resource ∈ RESOURCES_ALL_EXCEPT_ENERGY)
    then Some (ALL_THRESHOLDS resource) else None.
Proof. unfold ALL_THRESHOLDS_object. apply zipObject_lookup. Qed.

Lemma includes_spec (xs : list string) (x : string) :
  includes xs x = true <-> x ∈ xs.
Proof.
  unfold includes. rewrite existsb_exists. split.
  - intros (y & Hin & E). apply String.eqb_eq in E. subst y.
    apply list_elem_of_In. exact Hin.
  - intros Hin. exists x. split; [apply list_elem_of_In; exact Hin | apply String.eqb_refl].
Qed.

(** X8.  Every resource of the game is handled: [RESOURCE_EXCHANGE_ORDER]
    holds exactly the prioritized resources and the resources of
    [RESOURCES_ALL], the prioritized ones first and in their order. *)
Theorem RESOURCE_EXCHANGE_ORDER_covers (resource : string) :
  (resource ∈ RESOURCE_EXCHANGE_ORDER
   <-> resource ∈ _resourcePrioritiesOrdered \/ resource ∈ RESOURCES_ALL) /\
  take (length _resourcePrioritiesOrdered) RESOURCE_EXCHANGE_ORDER
  = _resourcePrioritiesOrdered.
Proof.
  split.
  - unfold RESOURCE_EXCHANGE_ORDER, _resourcePrioritiesEverythingElse.
    rewrite elem_of_app.
    rewrite (list_elem_of_In (List.filter _ _)), filter_In, <- list_elem_of_In.
    rewrite negb_true_iff.
    destruct (includes _resourcePrioritiesOrdered resource) eqn:E.
    + apply includes_spec in E. tauto.
    + tauto.
  - unfold RESOURCE_EXCHANGE_ORDER. apply take_app_length.
Qed.

(** X9.  No resource is handled twice in a tick when the tables it is
    built from list none twice: [RESOURCE_EXCHANGE_ORDER] has no
    duplicates. *)
Theorem RESOURCE_EXCHANGE_ORDER_NoDup :
  NoDup _resourcePrioritiesOrdered -> NoDup RESOURCES_ALL ->
  NoDup RESOURCE_EXCHANGE_ORDER.
Proof.
  intros Hord Hall. unfold RESOURCE_EXCHANGE_ORDER. apply NoDup_app.
  split; [exact Hord |]. split.
  - intros x Hin Hin'. unfold _resourcePrioritiesEverythingElse in Hin'.
    apply list_elem_of_In, filter_In in Hin'. destruct Hin' as [_ Hneg].
    apply negb_true_iff in Hneg.
    apply includes_spec in Hin. congruence.
  - unfold _resourcePrioritiesEverythingElse.
    apply NoDup_ListNoDup, List.NoDup_filter, NoDup_ListNoDup. exact Hall.
Qed.

Lemma indexOf_spec (xs : list string) (x : string) :
  if decide (x ∈ xs)
  then exists i : nat, indexOf xs x = Z.of_nat i /\ xs !! i = Some x /\
                       forall j : nat, (j < i)%nat -> xs !! j <> Some x
  else indexOf xs x = (-1)%Z.
Proof.
  induction xs as [| y xs IH].
  - rewrite decide_False by apply not_elem_of_nil. reflexivity.
  - cbn [indexOf]. destruct (String.eqb_spec y x) as [-> | Hne].
    + rewrite decide_True by (apply elem_of_cons; auto). exists 0%nat.
      split; [reflexivity |]. split; [reflexivity |]. intros j Hj. lia.
    + destruct (decide (x ∈ xs)) as [Hin | Hnin].
      * rewrite decide_True by (apply elem_of_cons; auto). destruct IH as (i & Ei & Hi & Hfirst).
        exists (S i). rewrite Ei.
        destruct (Z.ltb_spec (Z.of_nat i) 0); [lia |].
        split; [lia |]. split; [exact Hi |].
        intros [| j] Hj; cbn; [congruence | apply Hfirst; lia].
      * rewrite decide_False by (rewrite elem_of_cons; intros [? | ?]; congruence).
        rewrite IH. reflexivity.
Qed.

(** X10.  The priority of a resource is its first position in
    [RESOURCE_EXCHANGE_ORDER]; resources outside it have none. *)
Theorem resourceExchangePriority (resource : string) (i : Z) :
  _resourceExchangePrioritiesLookup !! resource = Some i
  <-> (0 <= i)%Z /\ RESOURCE_EXCHANGE_ORDER !! Z.to_nat i = Some resource /\
      forall j : nat, (j < Z.to_nat i)%nat ->
                      RESOURCE_EXCHANGE_ORDER !! j <> Some resource.
Proof.
  unfold _resourceExchangePrioritiesLookup. rewrite zipObject_lookup.
  pose proof (indexOf_spec RESOURCE_EXCHANGE_ORDER resource) as Hspec.
  destruct (decide (resource ∈ RESOURCE_EXCHANGE_ORDER)) as [Hin | Hnin].
  - destruct Hspec as (k & Ek & Hk & Hfirst). rewrite Ek. split.
    + intros E. inversion E; subst i. rewrite Nat2Z.id.
      split; [lia |]. split; assumption.
    + intros (Hpos & Hi & Hfirst'). f_equal.
      destruct (Nat.lt_trichotomy k (Z.to_nat i)) as [Hlt | [Heq | Hgt]].
      * exfalso. exact (Hfirst' k Hlt Hk).
      * lia.
      * exfalso. exact (Hfirst (Z.to_nat i) Hgt Hi).
  - split; [discriminate |]. intros (_ & Hi & _). exfalso. apply Hnin.
    eapply list_elem_of_lookup_2. exact Hi.
Qed.

End Tables.

Lemma RESOURCE_EXCHANGE_ORDER_NoDup_witness :
  NoDup (RESOURCE_EXCHANGE_ORDER (TickHost0 := DemoTick.tick)).
Proof.
  apply (RESOURCE_EXCHANGE_ORDER_NoDup (TickHost0 := DemoTick.tick)).
  - apply (bool_decide_unpack _). vm_compute. reflexivity.
  - apply (bool_decide_unpack _). vm_compute. reflexivity.
Defined.

(* ===================================================================== *)
(** ** Registration and the start of a tick *)
(* ===================================================================== *)

Section Lifecycle.

Context {World : Type} `{!Host World}.

Lemma addColony_run (colony : Colony) (s : St World) :
  addColony colony s
  = if eligible colony
    then (Ret tt, {| net := set_colonies (colonies (net s) ++ [colony]) (net s);
                     world := world s; trace := trace s |})
    else (Ret tt, {| net := net s; world := world s;
                     trace := Log LogError "Cannot add colony to terminal network!"
                              :: trace s |}).
Proof.
  unfold addColony, eligible.
  destruct (match terminal colony with
            | Some t => my t && (6 <=? level colony)%Z
            | None => false
            end); reflexivity.
Qed.

(** X11.  Registering colonies one after the other keeps exactly those
    with an owned terminal and level 6 or more, in the order of the calls,
    after the colonies already registered; so every colony the network
    holds has a terminal. *)
Theorem addColony_registers_the_eligible (cs : list Colony) (s : St World) :
  let s' := fold_left (fun s c => snd (addColony c s)) cs s in
  colonies (net s') = (colonies (net s) ++ List.filter eligible cs)%list /\
  (forall c, In c (List.filter eligible cs) ->
             exists t, terminal c = Some t /\ my t = true /\ (6 <= level c)%Z).
Proof.
  split.
  - revert s. induction cs as [| c cs IH]; intros s.
    + cbn. rewrite app_nil_r. reflexivity.
    + cbn [fold_left List.filter]. rewrite IH, addColony_run.
      destruct (eligible c); cbn; [| reflexivity].
      rewrite <- app_assoc. reflexivity.
  - intros c Hin. apply filter_In in Hin. destruct Hin as [_ He].
    unfold eligible in He. destruct (terminal c) as [t |]; [| discriminate].
    apply andb_true_iff in He. destruct He as [Hmy Hlvl].
    exists t. split; [reflexivity |]. split; [exact Hmy |].
    apply Z.leb_le. exact Hlvl.
Qed.

Lemma init_fold_lookup (cs : list Colony) (m : gmap string (gmap string TN_STATE))
    (k : string) :
  fold_left (fun m colony => <[name colony := ∅]> m) cs m !! k
  = if decide (k ∈ name <$> cs) then Some ∅ else m !! k.
Proof.
  revert m. induction cs as [| c cs IH]; intros m.
  - rewrite decide_False by apply not_elem_of_nil. reflexivity.
  - cbn [fold_left fmap list_fmap]. fold (fmap name cs). rewrite IH.
    destruct (decide (k ∈ name <$> cs)) as [Hin | Hnin].
    + rewrite decide_True by (apply elem_of_cons; auto). reflexivity.
    + destruct (decide (k = name c)) as [-> | Hne].
      * rewrite decide_True by (apply elem_of_cons; auto). apply lookup_insert_eq.
      * rewrite decide_False by (rewrite elem_of_cons; tauto).
        apply lookup_insert_ne. congruence.
Qed.

Lemma init_run (s : St World) :
  init s
  = (Ret tt,
     {| net :=
          set_colonyStates
            (fold_left (fun m colony => <[name colony := ∅]> m) (colonies (net s))
                       (colonyStates (net s)))
            (set_network_assets
               (if isEmpty (network_assets (net s))
                then mergeSum (assets <$> colonies (net s))
                else network_assets (net s))
               (net s));
        world := world s; trace := trace s |}).
Proof.
  unfold init, getAssets, bind, getNet, modifyNet, ret. cbn.
  destruct (isEmpty (network_assets (net s))); reflexivity.
Qed.

(** X12.  [init()] returns, empties the state table of every registered
    colony (by name) and leaves the table of any other name, the
    thresholds, the registered colonies and the world as they are; the
    network assets are summed over the colonies unless a sum is already
    held. *)
Theorem init_resets_colonyStates (s : St World) :
  let s' := snd (init s) in
  fst (init s) = Ret tt /\
  (forall k, colonyStates (net s') !! k
             = if decide (k ∈ name <$> colonies (net s)) then Some ∅
               else colonyStates (net s) !! k) /\
  network_assets (net s')
  = (if isEmpty (network_assets (net s))
     then mergeSum (assets <$> colonies (net s)) else network_assets (net s)) /\
  colonyThresholds (net s') = colonyThresholds (net s) /\
  _energyThresholds (net s') = _energyThresholds (net s) /\
  colonies (net s') = colonies (net s) /\
  world s' = world s /\ trace s' = trace s.
Proof.
  intros s'. subst s'. rewrite init_run. cbn [fst snd net world trace].
  split; [reflexivity |]. split.
  - intros k. cbn. apply init_fold_lookup.
  - repeat split; reflexivity.
Qed.

(** X13.  After [init()], a request of a registered colony that lacks the
    amount never throws: it returns, and the colony's state table holds
    the one entry [resource -> activeRequestor]. *)
Theorem requestResource_after_init (s : St World) (requestor : Colony)
    (resource : string) (amount tolerance : number) :
  In requestor (colonies (net s)) ->
  Num.ge (get_num (assets requestor) resource) amount = false ->
  let s1 := snd (init s) in
  let s2 := snd (requestResource requestor resource amount tolerance s1) in
  fst (requestResource requestor resource amount tolerance s1) = Ret tt /\
  colonyStates (net s2) !! name requestor = Some {[ resource := activeRequestor ]} /\
  colonyThreshold (net s2) (name requestor) resource
  = Some {| target := amount; surplus := None; tolerance := tolerance |}.
Proof.
  intros Hin Hlt s1 s2.
  assert (Hentry : colonyStates (net s1) !! name requestor = Some ∅).
  { subst s1. rewrite init_run. cbn. rewrite init_fold_lookup.
    rewrite decide_True; [reflexivity |].
    apply list_elem_of_fmap. exists requestor. split; [reflexivity |].
    apply list_elem_of_In. exact Hin. }
  subst s2. rewrite requestResource_run, Hlt. cbv zeta. rewrite Hentry.
  cbn [fst snd net]. split; [reflexivity |]. split.
  - cbn. rewrite lookup_insert_eq. reflexivity.
  - unfold colonyThreshold. cbn. rewrite lookup_insert_eq, lookup_insert_eq.
    reflexivity.
Qed.

End Lifecycle.

Lemma requestResource_after_init_witness :
  let c := Demo.colonyWith "W1N1" "XGHO2" 1000 in
  let s1 := snd (init (Demo.start [c] ∅)) in
  let s2 := snd (requestResource c "XGHO2" (Fin 3000) (Fin 0) s1) in
  fst (requestResource c "XGHO2" (Fin 3000) (Fin 0) s1) = Ret tt /\
  colonyStates (net s2) !! "W1N1" = Some {[ "XGHO2" := activeRequestor ]} /\
  colonyThreshold (net s2) "W1N1" "XGHO2"
  = Some {| target := Fin 3000; surplus := None; tolerance := Fin 0 |}.
Proof.
  apply (requestResource_after_init
           (Demo.start [Demo.colonyWith "W1N1" "XGHO2" 1000] ∅)
           (Demo.colonyWith "W1N1" "XGHO2" 1000) "XGHO2" (Fin 3000) (Fin 0)).
  - left. reflexivity.
  - vm_compute. reflexivity.
Defined.

(* ===================================================================== *)
(** ** The assignment of states *)
(* ===================================================================== *)

Section Assign.

Context {World : Type} `{!Host World} `{!TickHost World}.

Lemma bind_run {A B} (m : M World A) (k : A -> M World B) (s s1 : St World) (a : A) :
  m s = (Ret a, s1) -> bind m k s = k a s1.
Proof. intros E. unfold bind. rewrite E. reflexivity. Qed.

Lemma bind_throw {A B} (m : M World A) (k : A -> M World B) (s s1 : St World) :
  m s = (Throw, s1) -> bind m k s = (Throw, s1).
Proof. intros E. unfold bind. rewrite E. reflexivity. Qed.

Lemma forEach_app {A} (xs ys : list A) (f : A -> M World unit) (s : St World) :
  forEach (xs ++ ys) f s = (forEach xs f;; forEach ys f) s.
Proof.
  revert s. induction xs as [| x xs IH]; intros s; [reflexivity |].
  cbn [app forEach]. unfold bind.
  destruct (f x s) as [[[] |] s1]; [| reflexivity].
  rewrite IH. reflexivity.
Qed.

Lemma forEach_map {A B} (g : A -> B) (xs : list A) (f : B -> M World unit)
    (s : St World) :
  forEach (List.map g xs) f s = forEach xs (fun x => f (g x)) s.
Proof.
  revert s. induction xs as [| x xs IH]; intros s; [reflexivity |].
  cbn [List.map forEach]. unfold bind.
  destruct (f (g x) s) as [[[] |] s1]; [apply IH | reflexivity].
Qed.

Lemma forEach_visits {A B} (xs : list A) (ys : list B) (f : A -> B -> M World unit)
    (s : St World) :
  forEach xs (fun x => forEach ys (f x)) s
  = forEach (flat_map (fun x => List.map (pair x) ys) xs)
            (fun p => f (fst p) (snd p)) s.
Proof.
  revert s. induction xs as [| x xs IH]; intros s; [reflexivity |].
  cbn [flat_map forEach]. rewrite forEach_app. unfold bind.
  rewrite forEach_map. cbn [fst snd].
  change (fun x0 : B => f x x0) with (f x).
  destruct (forEach ys (f x) s) as [[[] |] s1]; [apply IH | reflexivity].
Qed.

Lemma thresholdsOf_ext (n n' : TerminalNetworkV2) (c : Colony) (r : string) :
  (forall k q, colonyThreshold n' k q = colonyThreshold n k q) ->
  colonies n' = colonies n ->
  _energyThresholds n' = _energyThresholds n ->
  thresholdsOf n' c r = thresholdsOf n c r.
Proof.
  intros Hct Hcol Hcache. unfold thresholdsOf. rewrite Hct, Hcache.
  destruct (colonyThreshold n (name c) r); [reflexivity |].
  destruct (String.eqb r RESOURCE_ENERGY); [| reflexivity].
  destruct (_energyThresholds n); [reflexivity |].
  unfold freshEnergyThresholds.
  assert (Hne : nonExceptionalColonies n' = nonExceptionalColonies n).
  { unfold nonExceptionalColonies. rewrite Hcol. apply filter_ext.
    intros x. rewrite Hct. reflexivity. }
  rewrite Hne. reflexivity.
Qed.

Lemma cacheExt_fields (s s' : St World) :
  cacheExt s s' ->
  colonies (net s') = colonies (net s) /\
  colonyStates (net s') = colonyStates (net s) /\
  notifications (net s') = notifications (net s) /\
  forall t, tierOf t (net s') = tierOf t (net s).
Proof.
  intros [-> | [_ ->]].
  - repeat split; reflexivity.
  - repeat split; reflexivity.
Qed.

Lemma value_zero (st : TN_STATE) : (TN_STATE_value st =? 0)%Z = true <-> st = error.
Proof. destruct st; cbn; split; intros E; try discriminate; reflexivity. Qed.

Lemma value_nonzero (st : TN_STATE) : (TN_STATE_value st =? 0)%Z = false <-> st <> error.
Proof. destruct st; cbn; split; intros E; try discriminate; congruence. Qed.

(** One visit of the loops, for a colony that has its state table. *)
Lemma visit_run (c : Colony) (r : string) (s : St World)
    (m : gmap string TN_STATE) :
  colonyStates (net s) !! name c = Some m ->
  let a := assignedState (net s) c r in
  exists s',
    assignColonyStates_visit c r s = (Ret tt, s') /\
    world s' = world s /\
    colonies (net s') = colonies (net s) /\
    stats (net s') = stats (net s) /\
    notifications (net s') = notifications (net s) /\
    (forall c' r', thresholdsOf (net s') c' r' = thresholdsOf (net s) c' r') /\
    (colonyStates (net s') = colonyStates (net s) /\ m !! r = Some a /\ a <> error
     \/ colonyStates (net s') = <[name c := <[r := a]> m]> (colonyStates (net s))) /\
    (forall t, tierOf t (net s')
               = if decide (t = a /\ a <> error) then pushTo r c (tierOf t (net s))
                 else tierOf t (net s)) /\
    (exists new, trace s' = (new ++ trace s)%list /\ forallb isLog new = true).
Proof.
  intros Hentry a.
  unfold assignColonyStates_visit.
  set (sa := match colonyThresholds (net s) !! name c with
             | Some _ => s
             | None => {| net := set_colonyThresholds
                                   (<[name c := ∅]> (colonyThresholds (net s))) (net s);
                          world := world s; trace := trace s |}
             end).
  assert (Hsa_ct : forall k q, colonyThreshold (net sa) k q = colonyThreshold (net s) k q).
  { intros k q. subst sa. destruct (colonyThresholds (net s) !! name c) eqn:E;
      [reflexivity |].
    unfold colonyThreshold. cbn.
    destruct (decide (name c = k)) as [<- | Hne].
    - rewrite lookup_insert_eq, E. apply lookup_empty.
    - rewrite lookup_insert_ne by exact Hne. reflexivity. }
  assert (Hsa : world sa = world s /\ trace sa = trace s /\
                colonies (net sa) = colonies (net s) /\
                _energyThresholds (net sa) = _energyThresholds (net s) /\
                colonyStates (net sa) = colonyStates (net s) /\
                stats (net sa) = stats (net s) /\
                notifications (net sa) = notifications (net s) /\
                forall t, tierOf t (net sa) = tierOf t (net s)).
  { subst sa. destruct (colonyThresholds (net s) !! name c);
      repeat split; try reflexivity; intros []; reflexivity. }
  destruct Hsa as (Hsa_w & Hsa_tr & Hsa_col & Hsa_cache & Hsa_st & Hsa_stats & Hsa_not
                   & Hsa_tier).
  assert (Hsa_th : forall c' r', thresholdsOf (net sa) c' r' = thresholdsOf (net s) c' r').
  { intros c' r'. apply thresholdsOf_ext; assumption. }
  assert (Hstep_a :
    (let* n := getNet in
     (match colonyThresholds n !! name c with
      | Some _ => ret tt
      | None =>
          modifyNet (set_colonyThresholds (<[name c := ∅]> (colonyThresholds n)))
      end)) s = (Ret tt, sa)).
  { unfold bind, getNet. subst sa.
    destruct (colonyThresholds (net s) !! name c); reflexivity. }
  unfold bind at 1, getNet at 1. cbn beta iota.
  unfold bind at 1.
  replace ((match colonyThresholds (net s) !! name c with
            | Some _ => ret tt
            | None =>
                modifyNet (set_colonyThresholds
                             (<[name c := ∅]> (colonyThresholds (net s))))
            end) s) with (@Ret unit tt, sa)
    by (subst sa; destruct (colonyThresholds (net s) !! name c); reflexivity).
  cbn beta iota.
  unfold bind at 1, getNet at 1. cbn beta iota.
  rewrite Hsa_st, Hentry.
  (* the state settled on *)
  set (computed := classify (thresholdsOf (net s) c r) (get_num (assets c) r)
                            (getRemainingSpace c false)).
  assert (Ha : a = match m !! r with
                   | Some st => if (TN_STATE_value st =? 0)%Z then computed else st
                   | None => computed
                   end).
  { subst a. unfold assignedState, colonyState. rewrite Hentry. reflexivity. }
  destruct (getColonyState_run sa c r) as (s1 & Hc & Hrun). cbv zeta in Hrun.
  rewrite Hsa_th in Hrun. fold computed in Hrun.
  destruct (cacheExt_fields _ _ Hc) as (H1_col & H1_st & H1_not & H1_tier).
  pose proof (cacheExt_world _ _ Hc) as H1_w.
  pose proof (cacheExt_trace _ _ Hc) as H1_tr.
  pose proof (cacheExt_stats _ _ Hc) as H1_stats.
  assert (H1_th : forall c' r', thresholdsOf (net s1) c' r' = thresholdsOf (net s) c' r').
  { intros c' r'. rewrite (cacheExt_thresholdsOf _ _ c' r' Hc). apply Hsa_th. }
  assert (Hkept : forall st, m !! r = Some st -> st <> error ->
            a = st /\
            exists s',
              (let* state := ret st in
               match state with
               | activeProvider =>
                   modifyNet (fun n => set_activeProviders
                                         (pushTo r c (activeProviders n)) n)
               | passiveProvider =>
                   modifyNet (fun n => set_passiveProviders
                                         (pushTo r c (passiveProviders n)) n)
               | equilibrium =>
                   modifyNet (fun n => set_equilibriumNodes
                                         (pushTo r c (equilibriumNodes n)) n)
               | passiveRequestor =>
                   modifyNet (fun n => set_passiveRequestors
                                         (pushTo r c (passiveRequestors n)) n)
               | activeRequestor =>
                   modifyNet (fun n => set_activeRequestors
                                         (pushTo r c (activeRequestors n)) n)
               | error => log LogError "TN_STATE.error type encountered!"
               end) sa = (Ret tt, s') /\
              world s' = world s /\
              colonies (net s') = colonies (net s) /\
              stats (net s') = stats (net s) /\
              notifications (net s') = notifications (net s) /\
              (forall c' r', thresholdsOf (net s') c' r' = thresholdsOf (net s) c' r') /\
              colonyStates (net s') = colonyStates (net s) /\
              (forall t, tierOf t (net s')
                         = if decide (t = st /\ st <> error)
                           then pushTo r c (tierOf t (net s))
                           else tierOf t (net s)) /\
              trace s' = trace s).
  { intros st Hst Hne. split.
    - rewrite Ha, Hst. apply value_nonzero in Hne. rewrite Hne. reflexivity.
    - destruct st; try congruence;
        (eexists; split; [reflexivity |]; cbn;
         do 4 (split; [assumption |]);
         split; [intros c' r'; rewrite <- Hsa_th; apply thresholdsOf_ext; reflexivity |];
         split; [assumption |];
         split; [| assumption];
         intros t; rewrite <- Hsa_tier;
         destruct t; cbn;
         try (rewrite decide_True by (split; congruence); reflexivity);
         rewrite decide_False by (intros [? ?]; congruence); reflexivity). }
  assert (Hcomp : (m !! r = None \/ m !! r = Some error) ->
            a = computed /\
            exists s',
              (let* state :=
                 (let* st := getColonyState c r in
                  modifyNet (fun n =>
                    set_colonyStates
                      (<[name c := <[r := st]> m]> (colonyStates n)) n);;
                  ret st) in
               match state with
               | activeProvider =>
                   modifyNet (fun n => set_activeProviders
                                         (pushTo r c (activeProviders n)) n)
               | passiveProvider =>
                   modifyNet (fun n => set_passiveProviders
                                         (pushTo r c (passiveProviders n)) n)
               | equilibrium =>
                   modifyNet (fun n => set_equilibriumNodes
                                         (pushTo r c (equilibriumNodes n)) n)
               | passiveRequestor =>
                   modifyNet (fun n => set_passiveRequestors
                                         (pushTo r c (passiveRequestors n)) n)
               | activeRequestor =>
                   modifyNet (fun n => set_activeRequestors
                                         (pushTo r c (activeRequestors n)) n)
               | error => log LogError "TN_STATE.error type encountered!"
               end) sa = (Ret tt, s') /\
              world s' = world s /\
              colonies (net s') = colonies (net s) /\
              stats (net s') = stats (net s) /\
              notifications (net s') = notifications (net s) /\
              (forall c' r', thresholdsOf (net s') c' r' = thresholdsOf (net s) c' r') /\
              colonyStates (net s')
              = <[name c := <[r := computed]> m]> (colonyStates (net s)) /\
              (forall t, tierOf t (net s')
                         = if decide (t = computed /\ computed <> error)
                           then pushTo r c (tierOf t (net s))
                           else tierOf t (net s)) /\
              (exists new, trace s' = (new ++ trace s)%list /\ forallb isLog new = true)).
  { intros Hm. split.
    - rewrite Ha. destruct Hm as [-> | ->]; reflexivity.
    - unfold bind at 1. unfold bind at 1. rewrite Hrun.
      destruct computed eqn:Ecomp;
        (rewrite ?bool_decide_eq_true_2 by reflexivity;
         rewrite ?bool_decide_eq_false_2 by discriminate;
         eexists; split; [reflexivity |]; cbn;
         split; [congruence |];
         split; [congruence |];
         split; [congruence |];
         split; [congruence |];
         split; [intros c' r'; rewrite <- H1_th; apply thresholdsOf_ext; reflexivity |];
         split; [rewrite H1_st, Hsa_st; reflexivity |];
         split;
         [ intros t; rewrite <- Hsa_tier, <- H1_tier;
           destruct t; cbn;
           try (rewrite decide_True by (split; congruence); reflexivity);
           rewrite decide_False by (intros [? ?]; congruence); reflexivity
         | first [ exists []; split; [cbn; congruence | reflexivity]
                 | eexists [_; _]; split; [cbn; rewrite H1_tr, Hsa_tr; reflexivity
                                          | reflexivity] ] ]). }
  destruct (m !! r) as [st |] eqn:Hm.
  - destruct (TN_STATE_value st =? 0)%Z eqn:Hv.
    + apply value_zero in Hv. subst st.
      destruct Hcomp as (Ea & s' & Hrun' & Hrest); [right; reflexivity |].
      exists s'. split; [exact Hrun' |]. rewrite Ea.
      destruct Hrest as (? & ? & ? & ? & ? & Hst & ? & ?).
      repeat (split; [assumption |]). split; [right; exact Hst |]. split; assumption.
    + apply value_nonzero in Hv.
      destruct (Hkept st eq_refl Hv) as (Ea & s' & Hrun' & Hrest).
      exists s'. split; [exact Hrun' |]. rewrite Ea.
      destruct Hrest as (? & ? & ? & ? & ? & Hst & ? & Htr).
      repeat (split; [assumption |]).
      split; [left; split; [exact Hst | split; [reflexivity | exact Hv]] |].
      split; [assumption |]. exists []. split; [exact Htr | reflexivity].
  - destruct Hcomp as (Ea & s' & Hrun' & Hrest); [left; reflexivity |].
    exists s'. split; [exact Hrun' |]. rewrite Ea.
    destruct Hrest as (? & ? & ? & ? & ? & Hst & ? & ?).
    repeat (split; [assumption |]). split; [right; exact Hst |]. split; assumption.
Qed.


Lemma tierFrame_refl (s : St World) : tierFrame s s.
Proof.
  unfold tierFrame. do 4 (split; [reflexivity |]).
  split; [intros c r; reflexivity |].
  split; [intros k; tauto |].
  split; [intros k r st E _; exact E |].
  split; [intros t r x Hx; exact Hx |].
  exists []. split; reflexivity.
Qed.

Lemma tierFrame_trans (s1 s2 s3 : St World) :
  tierFrame s1 s2 -> tierFrame s2 s3 -> tierFrame s1 s3.
Proof.
  intros (Hw & Hc & Hst & Hn & Hth & He & Hp & Hg & new1 & Htr1 & Hl1)
         (Hw' & Hc' & Hst' & Hn' & Hth' & He' & Hp' & Hg' & new2 & Htr2 & Hl2).
  unfold tierFrame.
  split; [congruence |]. split; [congruence |]. split; [congruence |].
  split; [congruence |].
  split; [intros c r; rewrite Hth'; apply Hth |].
  split; [intros k; rewrite He'; apply He |].
  split; [intros k r st E Hne; apply Hp'; [apply Hp |]; assumption |].
  split; [intros t r x Hx; apply Hg', Hg; exact Hx |].
  exists (new2 ++ new1)%list. split.
  - rewrite Htr2, Htr1, app_assoc. reflexivity.
  - rewrite forallb_app, Hl1, Hl2. reflexivity.
Qed.

Lemma assignedState_error (n : TerminalNetworkV2) (c : Colony) (r : string) :
  assignedState n c r = error ->
  classify (thresholdsOf n c r) (get_num (assets c) r) (getRemainingSpace c false)
  = error.
Proof.
  unfold assignedState. destruct (colonyState n (name c) r) as [st |]; [| auto].
  destruct (TN_STATE_value st =? 0)%Z eqn:Hv; [auto |].
  intros ->. discriminate.
Qed.

Lemma tierList_pushTo (t : TN_STATE) (n n' : TerminalNetworkV2) (r r' : string)
    (c : Colony) :
  tierOf t n' = pushTo r c (tierOf t n) ->
  tierList t n' r' = if decide (r' = r) then (tierList t n r ++ [c])%list
                     else tierList t n r'.
Proof.
  intros E. unfold tierList. rewrite E. unfold pushTo.
  destruct (decide (r' = r)) as [-> | Hne].
  - rewrite lookup_insert_eq. reflexivity.
  - rewrite lookup_insert_ne by congruence. reflexivity.
Qed.

(** What one visit does, on top of [tierFrame]. *)
Lemma visit_frame (c : Colony) (r : string) (s : St World) :
  colonyStates (net s) !! name c <> None ->
  let a := assignedState (net s) c r in
  exists s',
    assignColonyStates_visit c r s = (Ret tt, s') /\
    tierFrame s s' /\
    colonyState (net s') (name c) r = Some a /\
    (forall k r', colonyState (net s') k r' <> colonyState (net s) k r' ->
                  k = name c /\ r' = r) /\
    (forall t r' x, x ∈ tierList t (net s') r' ->
                    x ∈ tierList t (net s) r' \/
                    (x = c /\ r' = r /\ t <> error /\ a = t)) /\
    (a <> error -> c ∈ tierList a (net s') r).
Proof.
  intros Hentry a.
  destruct (colonyStates (net s) !! name c) as [m |] eqn:Hm; [| congruence].
  destruct (visit_run c r s m Hm)
    as (s' & Hrun & Hw & Hcol & Hstats & Hnot & Hth & Hst & Htier & Htr).
  fold a in Hst, Htier.
  assert (Hcs : forall k r',
            colonyState (net s') k r'
            = if decide (k = name c /\ r' = r) then Some a
              else colonyState (net s) k r').
  { intros k r'. unfold colonyState.
    destruct Hst as [(E & Hmr & _) | E]; rewrite E.
    - destruct (decide (k = name c /\ r' = r)) as [[-> ->] | _]; [| reflexivity].
      rewrite Hm. exact Hmr.
    - destruct (decide (k = name c)) as [-> | Hk].
      + rewrite lookup_insert_eq, Hm.
        destruct (decide (r' = r)) as [-> | Hr].
        * rewrite lookup_insert_eq, decide_True by auto. reflexivity.
        * rewrite lookup_insert_ne by congruence.
          rewrite decide_False by tauto. reflexivity.
      + rewrite lookup_insert_ne by congruence.
        rewrite decide_False by tauto. reflexivity. }
  assert (Htl : forall t r',
            tierList t (net s') r'
            = if decide (t = a /\ a <> error /\ r' = r)
              then (tierList t (net s) r ++ [c])%list
              else tierList t (net s) r').
  { intros t r'. specialize (Htier t).
    destruct (decide (t = a /\ a <> error)) as [[-> Hne] | Hno].
    - rewrite (tierList_pushTo _ _ _ _ _ _ Htier).
      destruct (decide (r' = r)) as [-> | Hr].
      + rewrite decide_True by auto. reflexivity.
      + rewrite decide_False by tauto. reflexivity.
    - unfold tierList. rewrite Htier. rewrite decide_False by tauto. reflexivity. }
  exists s'. split; [exact Hrun |]. split; [| split; [| split; [| split]]].
  - unfold tierFrame.
    do 5 (split; [assumption |]). split; [| split; [| split]].
    + intros k. destruct Hst as [(E & _) | E]; rewrite E; [tauto |].
      destruct (decide (name c = k)) as [<- | Hk].
      * rewrite lookup_insert_eq, Hm. split; discriminate.
      * rewrite lookup_insert_ne by exact Hk. tauto.
    + intros k r' st E Hne. rewrite Hcs.
      destruct (decide (k = name c /\ r' = r)) as [[-> ->] | _]; [| exact E].
      f_equal. subst a. unfold assignedState. rewrite E.
      apply value_nonzero in Hne. rewrite Hne. reflexivity.
    + intros t r' x Hx. rewrite Htl.
      destruct (decide (t = a /\ a <> error /\ r' = r)) as [(-> & _ & ->) | _];
        [| exact Hx].
      apply elem_of_app. left. exact Hx.
    + exact Htr.
  - rewrite Hcs, decide_True by auto. reflexivity.
  - intros k r' Hne. rewrite Hcs in Hne.
    destruct (decide (k = name c /\ r' = r)) as [? | _]; [assumption | congruence].
  - intros t r' x Hx. rewrite Htl in Hx.
    destruct (decide (t = a /\ a <> error /\ r' = r)) as [(-> & Hne & ->) | _];
      [| left; exact Hx].
    apply elem_of_app in Hx. destruct Hx as [Hx | Hx]; [left; exact Hx |].
    right. apply list_elem_of_singleton in Hx. auto.
  - intros Hne. rewrite Htl, decide_True by auto.
    apply elem_of_app. right. apply list_elem_of_singleton. reflexivity.
Qed.

Lemma visit_throw (c : Colony) (r : string) (s : St World) :
  colonyStates (net s) !! name c = None ->
  fst (assignColonyStates_visit c r s) = Throw.
Proof.
  intros Hnone. unfold assignColonyStates_visit, bind, getNet.
  destruct (colonyThresholds (net s) !! name c); cbn; rewrite Hnone; reflexivity.
Qed.

Lemma assignedState_after_visit (s s' : St World) (c0 c : Colony) (r0 r : string) :
  tierFrame s s' ->
  colonyState (net s') (name c0) r0 = Some (assignedState (net s) c0 r0) ->
  (forall k r', colonyState (net s') k r' <> colonyState (net s) k r' ->
                k = name c0 /\ r' = r0) ->
  (name c0 = name c -> r0 = r -> c0 = c) ->
  assignedState (net s') c r = assignedState (net s) c r.
Proof.
  intros (_ & _ & _ & _ & Hth & _) Hv1 Hv2 Hu.
  destruct (decide (name c0 = name c /\ r0 = r)) as [[En Er] | Hno].
  - specialize (Hu En Er). subst c0 r0.
    unfold assignedState at 1. rewrite Hv1, Hth.
    destruct (TN_STATE_value (assignedState (net s) c r) =? 0)%Z eqn:Hv;
      [| reflexivity].
    apply value_zero in Hv. rewrite Hv. apply assignedState_error. exact Hv.
  - assert (E : colonyState (net s') (name c) r = colonyState (net s) (name c) r).
    { destruct (decide (colonyState (net s') (name c) r
                        = colonyState (net s) (name c) r)) as [E | E]; [exact E |].
      exfalso. apply Hno. destruct (Hv2 _ _ E) as [-> ->]. auto. }
    unfold assignedState. rewrite E, Hth. reflexivity.
Qed.

(** The loops of [assignColonyStates], as one loop over the pairs. *)
Lemma loops_spec (pairs : list (Colony * string)) :
  forall s : St World,
    (forall p, In p pairs -> colonyStates (net s) !! name (fst p) <> None) ->
    exists s',
      forEach pairs (fun p => assignColonyStates_visit (fst p) (snd p)) s = (Ret tt, s') /\
      tierFrame s s' /\
      (forall c r, In (c, r) pairs ->
         (forall c', In (c', r) pairs -> name c' = name c -> c' = c) ->
         colonyState (net s') (name c) r = Some (assignedState (net s) c r)) /\
      (forall k r, colonyState (net s') k r <> colonyState (net s) k r ->
                   exists c, In (c, r) pairs /\ name c = k) /\
      (forall t r x, x ∈ tierList t (net s') r ->
                     x ∈ tierList t (net s) r \/
                     (In (x, r) pairs /\ t <> error /\
                      colonyState (net s') (name x) r = Some t)) /\
      (forall c r t, In (c, r) pairs ->
         (forall c', In (c', r) pairs -> name c' = name c -> c' = c) ->
         colonyState (net s') (name c) r = Some t -> t <> error ->
         c ∈ tierList t (net s') r).
Proof.
  induction pairs as [| [c0 r0] rest IH]; intros s Hent.
  - exists s. split; [reflexivity |]. split; [apply tierFrame_refl |].
    split; [intros c r [] |]. split; [intros k r Hne; congruence |].
    split; [intros t r x Hx; left; exact Hx |]. intros c r t [].
  - destruct (visit_frame c0 r0 s (Hent (c0, r0) (or_introl eq_refl)))
      as (s1 & Hrun1 & F01 & V1 & V2 & V3 & V4).
    assert (Hent1 : forall p, In p rest -> colonyStates (net s1) !! name (fst p) <> None).
    { intros p Hp. destruct F01 as (_ & _ & _ & _ & _ & He & _).
      rewrite He. apply Hent. right. exact Hp. }
    destruct (IH s1 Hent1) as (s' & Hrun & F1 & L1 & L2 & L3 & L4).
    pose proof F1 as (_ & _ & _ & _ & _ & _ & Hpersist & Hgrow & _).
    assert (Hstable : forall c r,
              (forall c', In (c', r) ((c0, r0) :: rest) -> name c' = name c -> c' = c) ->
              assignedState (net s1) c r = assignedState (net s) c r).
    { intros c r Hu. eapply assignedState_after_visit; eauto.
      intros En Er. subst r0. apply Hu; [left; reflexivity | exact En]. }
    assert (Hrest1 : forall c r, In (c, r) rest ->
              (forall c', In (c', r) ((c0, r0) :: rest) -> name c' = name c -> c' = c) ->
              colonyState (net s') (name c) r = Some (assignedState (net s) c r)).
    { intros c r Hin Hu. rewrite <- (Hstable c r Hu). apply L1; [exact Hin |].
      intros c' Hc'. apply Hu. right. exact Hc'. }
    assert (Hback : forall r,
              (forall c', In (c', r) ((c0, r0) :: rest) -> name c' = name c0 -> c' = c0) ->
              colonyState (net s') (name c0) r <> colonyState (net s1) (name c0) r ->
              In (c0, r) rest).
    { intros r Hu Hne. destruct (L2 _ _ Hne) as (c' & Hin & En).
      rewrite <- (Hu c' (or_intror Hin) En). exact Hin. }
    exists s'. split; [| split; [| split; [| split; [| split]]]].
    + cbn [forEach]. rewrite (bind_run _ _ _ _ _ Hrun1). exact Hrun.
    + eapply tierFrame_trans; eassumption.
    + intros c r [E | Hin] Hu; [| apply Hrest1; assumption].
      inversion E; subst c r.
      destruct (decide (assignedState (net s) c0 r0 = error)) as [Herr | Hok].
      * destruct (decide (colonyState (net s') (name c0) r0
                          = colonyState (net s1) (name c0) r0)) as [E' | E'].
        -- rewrite E'. exact V1.
        -- apply Hrest1; [| exact Hu]. apply Hback; assumption.
      * apply Hpersist; assumption.
    + intros k r Hne.
      destruct (decide (colonyState (net s1) k r = colonyState (net s) k r)) as [E' | E'].
      * rewrite <- E' in Hne. destruct (L2 _ _ Hne) as (c & Hin & En).
        exists c. split; [right; exact Hin | exact En].
      * destruct (V2 _ _ E') as [-> ->]. exists c0. split; [left |]; reflexivity.
    + intros t r x Hx. destruct (L3 _ _ _ Hx) as [Hx1 | (Hin & Hne & Hst)].
      * destruct (V3 _ _ _ Hx1) as [Hx0 | (-> & -> & Hne & Ea)]; [left; exact Hx0 |].
        right. split; [left; reflexivity |]. split; [exact Hne |].
        apply Hpersist; [| exact Hne]. rewrite <- Ea. exact V1.
      * right. split; [right; exact Hin |]. split; assumption.
    + intros c r t [E | Hin] Hu Hst Hne.
      * inversion E; subst c r.
        destruct (decide (assignedState (net s) c0 r0 = error)) as [Herr | Hok].
        -- apply L4; [| | exact Hst | exact Hne].
           ++ apply Hback; [exact Hu |]. rewrite V1, Hst, Herr. congruence.
           ++ intros c' Hc'. apply Hu. right. exact Hc'.
        -- pose proof (Hpersist _ _ _ V1 Hok) as Hst'.
           rewrite Hst in Hst'. inversion Hst'; subst t.
           apply Hgrow, V4. exact Hok.
      * apply L4; [exact Hin | | exact Hst | exact Hne].
        intros c' Hc'. apply Hu. right. exact Hc'.
Qed.

Lemma loops_throw (pairs : list (Colony * string)) :
  forall s : St World,
    (exists p, In p pairs /\ colonyStates (net s) !! name (fst p) = None) ->
    fst (forEach pairs (fun p => assignColonyStates_visit (fst p) (snd p)) s) = Throw.
Proof.
  induction pairs as [| [c0 r0] rest IH]; intros s (p & Hin & Hnone);
    [destruct Hin |].
  cbn [forEach fst snd].
  destruct (colonyStates (net s) !! name c0) as [m |] eqn:Hm.
  - assert (Hsome : colonyStates (net s) !! name c0 <> None) by congruence.
    destruct (visit_frame c0 r0 s Hsome) as (s1 & Hrun1 & F01 & _).
    rewrite (bind_run _ _ _ _ _ Hrun1). apply IH.
    destruct Hin as [<- | Hin]; [cbn in Hnone; congruence |].
    exists p. split; [exact Hin |].
    destruct F01 as (_ & _ & _ & _ & _ & He & _). apply He. exact Hnone.
  - pose proof (visit_throw c0 r0 s Hm) as Hthrow.
    unfold bind. destruct (assignColonyStates_visit c0 r0 s) as [[[] |] s1];
      [discriminate | reflexivity].
Qed.


(** The tier lists after one visit, as lists. *)
Lemma visit_tierList (c : Colony) (r : string) (s s' : St World) :
  colonyStates (net s) !! name c <> None ->
  assignColonyStates_visit c r s = (Ret tt, s') ->
  forall t r', t <> error ->
    tierList t (net s') r'
    = (tierList t (net s) r'
       ++ if bool_decide (r = r' /\ assignedState (net s) c r = t) then [c] else [])%list.
Proof.
  intros Hentry Hrun t r' Hne.
  destruct (colonyStates (net s) !! name c) as [m |] eqn:Hm; [| congruence].
  destruct (visit_run c r s m Hm) as (s1 & Hrun1 & _ & _ & _ & _ & _ & _ & Htier & _).
  cbv zeta in Htier. rewrite Hrun1 in Hrun. inversion Hrun; subst s1.
  specialize (Htier t).
  destruct (decide (t = assignedState (net s) c r /\ assignedState (net s) c r <> error))
    as [[Et _] | Hno].
  - rewrite (tierList_pushTo _ _ _ _ _ _ Htier).
    destruct (decide (r' = r)) as [-> | Hr].
    + rewrite bool_decide_eq_true_2 by auto. reflexivity.
    + rewrite bool_decide_eq_false_2 by (intros [? _]; congruence).
      rewrite app_nil_r. reflexivity.
  - unfold tierList. rewrite Htier.
    rewrite bool_decide_eq_false_2; [rewrite app_nil_r; reflexivity |].
    intros [_ E]. apply Hno. split; congruence.
Qed.

(** The tier lists after the loops, as lists: every visit whose state is
    [t] has appended its colony, in the order of the visits. *)
Lemma loops_lists (pairs : list (Colony * string)) :
  forall s s' : St World,
    (forall p, In p pairs -> colonyStates (net s) !! name (fst p) <> None) ->
    (forall c c' r, In (c, r) pairs -> In (c', r) pairs -> name c' = name c -> c' = c) ->
    forEach pairs (fun p => assignColonyStates_visit (fst p) (snd p)) s = (Ret tt, s') ->
    forall t r, t <> error ->
      tierList t (net s') r
      = (tierList t (net s) r
         ++ List.map fst
              (List.filter
                 (fun p => bool_decide (snd p = r /\
                                        assignedState (net s) (fst p) (snd p) = t))
                 pairs))%list.
Proof.
  induction pairs as [| [c0 r0] rest IH]; intros s s' Hent Hu Hrun t r Hne.
  - inversion Hrun; subst. cbn. rewrite app_nil_r. reflexivity.
  - pose proof (Hent (c0, r0) (or_introl eq_refl)) as Hent0. cbn [fst] in Hent0.
    destruct (visit_frame c0 r0 s Hent0) as (s1 & Hrun1 & F01 & V1 & V2 & _).
    cbn [forEach fst snd] in Hrun. rewrite (bind_run _ _ _ _ _ Hrun1) in Hrun.
    assert (Hent1 : forall p, In p rest -> colonyStates (net s1) !! name (fst p) <> None).
    { intros p Hp. destruct F01 as (_ & _ & _ & _ & _ & He & _).
      rewrite He. apply Hent. right. exact Hp. }
    assert (Hu1 : forall c c' r, In (c, r) rest -> In (c', r) rest ->
                                 name c' = name c -> c' = c).
    { intros c c' q Hc Hc'. apply (Hu c c' q); right; assumption. }
    rewrite (IH s1 s' Hent1 Hu1 Hrun t r Hne).
    rewrite (visit_tierList c0 r0 s s1 Hent0 Hrun1 t r Hne).
    assert (Hfilter :
      List.filter (fun p => bool_decide (snd p = r /\
                                         assignedState (net s1) (fst p) (snd p) = t)) rest
      = List.filter (fun p => bool_decide (snd p = r /\
                                           assignedState (net s) (fst p) (snd p) = t)) rest).
    { apply filter_ext_in. intros [c q] Hin. cbn [fst snd].
      rewrite (assignedState_after_visit s s1 c0 c r0 q F01 V1 V2); [reflexivity |].
      intros En Er. subst q. symmetry.
      apply (Hu c0 c r0); [left; reflexivity | right; exact Hin | congruence]. }
    rewrite Hfilter. rewrite <- app_assoc. f_equal.
    cbn [List.filter fst snd].
    destruct (bool_decide (r0 = r /\ assignedState (net s) c0 r0 = t)); reflexivity.
Qed.

Lemma filter_row_out (n : TerminalNetworkV2) (t : TN_STATE) (c : Colony)
    (rs : list string) (r : string) :
  ~ In r rs ->
  List.filter (fun p => bool_decide (snd p = r /\ assignedState n (fst p) (snd p) = t))
              (List.map (pair c) rs) = [].
Proof.
  induction rs as [| x rs IH]; intros Hnin; [reflexivity |].
  cbn [List.map List.filter fst snd].
  rewrite bool_decide_eq_false_2 by (intros [-> _]; apply Hnin; left; reflexivity).
  apply IH. intros Hin. apply Hnin. right. exact Hin.
Qed.

Lemma filter_row (n : TerminalNetworkV2) (t : TN_STATE) (c : Colony)
    (rs : list string) (r : string) :
  NoDup rs -> In r rs ->
  List.map fst
    (List.filter (fun p => bool_decide (snd p = r /\ assignedState n (fst p) (snd p) = t))
                 (List.map (pair c) rs))
  = if bool_decide (assignedState n c r = t) then [c] else [].
Proof.
  induction rs as [| x rs IH]; intros Hnd Hin; [destruct Hin |].
  apply NoDup_cons in Hnd. destruct Hnd as [Hx Hnd].
  cbn [List.map List.filter fst snd].
  destruct (decide (x = r)) as [-> | Hne].
  - rewrite filter_row_out by (rewrite <- list_elem_of_In; exact Hx).
    destruct (decide (assignedState n c r = t)) as [E | E].
    + rewrite !bool_decide_eq_true_2 by auto. reflexivity.
    + rewrite !bool_decide_eq_false_2 by tauto. reflexivity.
  - rewrite bool_decide_eq_false_2 by tauto.
    apply IH; [exact Hnd |]. destruct Hin as [E | Hin]; [congruence | exact Hin].
Qed.

Lemma filter_visits (n : TerminalNetworkV2) (t : TN_STATE) (cs : list Colony)
    (rs : list string) (r : string) :
  NoDup rs -> In r rs ->
  List.map fst
    (List.filter (fun p => bool_decide (snd p = r /\ assignedState n (fst p) (snd p) = t))
                 (visits cs rs))
  = List.filter (fun c => bool_decide (assignedState n c r = t)) cs.
Proof.
  intros Hnd Hin. induction cs as [| c cs IH]; [reflexivity |].
  unfold visits in *. cbn [flat_map List.filter].
  rewrite List.filter_app, List.map_app, IH, (filter_row n t c rs r Hnd Hin).
  destruct (bool_decide (assignedState n c r = t)); reflexivity.
Qed.

Lemma tierList_shuffleTier (w : World) (t : TN_STATE) (tier : gmap string (list Colony))
    (r : string) :
  default [] (shuffleTier w t tier !! r) ≡ₚ default [] (tier !! r).
Proof.
  unfold shuffleTier. rewrite map_lookup_imap.
  destruct (tier !! r) as [cols |]; cbn; [apply shuffle_Permutation | reflexivity].
Qed.

(** The five shuffles at the end of [assignColonyStates]. *)
Lemma assignColonyStates_run (s sL : St World) :
  assignColonyStates_loops (colonies (net s)) s = (Ret tt, sL) ->
  exists s',
    assignColonyStates s = (Ret tt, s') /\
    world s' = world sL /\ trace s' = trace sL /\
    colonies (net s') = colonies (net sL) /\
    colonyStates (net s') = colonyStates (net sL) /\
    colonyThresholds (net s') = colonyThresholds (net sL) /\
    _energyThresholds (net s') = _energyThresholds (net sL) /\
    stats (net s') = stats (net sL) /\
    notifications (net s') = notifications (net sL) /\
    terminalOverload (net s') = terminalOverload (net sL) /\
    forall t r, tierList t (net s') r ≡ₚ tierList t (net sL) r.
Proof.
  intros Hloops. unfold assignColonyStates.
  unfold bind at 1, getNet at 1. cbn beta iota.
  rewrite (bind_run _ _ _ _ _ Hloops).
  eexists. split; [reflexivity |]. cbn.
  do 9 (split; [reflexivity |]).
  intros t r. unfold tierList. destruct t; cbn; try apply tierList_shuffleTier.
  reflexivity.
Qed.

Lemma NoDup_names (cs : list Colony) :
  NoDup (name <$> cs) ->
  forall c c', In c cs -> In c' cs -> name c' = name c -> c' = c.
Proof.
  induction cs as [| x cs IH]; intros Hnd c c' [] .
  all: cbn [fmap list_fmap] in Hnd; fold (fmap name cs) in Hnd;
    apply NoDup_cons in Hnd; destruct Hnd as [Hx Hnd].
  - subst x. intros [-> | Hin] En; [reflexivity |].
    exfalso. apply Hx. rewrite <- En. apply list_elem_of_fmap.
    exists c'. split; [reflexivity | apply list_elem_of_In; exact Hin].
  - intros [-> | Hin'] En; [| apply IH; assumption].
    exfalso. apply Hx. rewrite En. apply list_elem_of_fmap.
    exists c. split; [reflexivity | apply list_elem_of_In; assumption].
Qed.

Lemma In_visits (cs : list Colony) (rs : list string) (c : Colony) (r : string) :
  In (c, r) (visits cs rs) <-> In c cs /\ In r rs.
Proof.
  unfold visits. rewrite in_flat_map. split.
  - intros (x & Hx & Hin). apply in_map_iff in Hin.
    destruct Hin as (y & E & Hy). inversion E; subst. auto.
  - intros [Hc Hr]. exists c. split; [exact Hc |]. apply in_map. exact Hr.
Qed.

(** The tier lists and the states after [assignColonyStates], for a
    network whose colonies have their state tables and distinct names. *)
Lemma assignColonyStates_spec (s : St World) :
  (forall c, In c (colonies (net s)) -> colonyStates (net s) !! name c <> None) ->
  NoDup (name <$> colonies (net s)) ->
  exists s',
    assignColonyStates s = (Ret tt, s') /\
    (exists sL, tierFrame s sL /\ world s' = world sL /\ trace s' = trace sL /\
                stats (net s') = stats (net sL) /\
                notifications (net s') = notifications (net sL) /\
                colonies (net s') = colonies (net sL) /\
                colonyThresholds (net s') = colonyThresholds (net sL) /\
                _energyThresholds (net s') = _energyThresholds (net sL)) /\
    (forall c r, In c (colonies (net s)) -> In r RESOURCE_EXCHANGE_ORDER ->
                 colonyState (net s') (name c) r = Some (assignedState (net s) c r)) /\
    (forall t r x,
       x ∈ tierList t (net s') r ->
       x ∈ tierList t (net s) r \/
       (In x (colonies (net s)) /\ In r RESOURCE_EXCHANGE_ORDER /\ t <> error /\
        assignedState (net s) x r = t)) /\
    (forall x r, In x (colonies (net s)) -> In r RESOURCE_EXCHANGE_ORDER ->
                 assignedState (net s) x r <> error ->
                 x ∈ tierList (assignedState (net s) x r) (net s') r) /\
    (forall t r, t <> error ->
       tierList t (net s') r
       ≡ₚ (tierList t (net s) r
           ++ List.map fst
                (List.filter
                   (fun p => bool_decide (snd p = r /\
                                          assignedState (net s) (fst p) (snd p) = t))
                   (visits (colonies (net s)) RESOURCE_EXCHANGE_ORDER)))%list).
Proof.
  intros Hent Hnd.
  set (pairs := visits (colonies (net s)) RESOURCE_EXCHANGE_ORDER).
  assert (Hent' : forall p, In p pairs -> colonyStates (net s) !! name (fst p) <> None).
  { intros [c r] Hp. apply In_visits in Hp. apply Hent. tauto. }
  destruct (loops_spec pairs s Hent') as (sL & Hrun & F & L1 & L2 & L3 & L4).
  assert (Hu : forall c r, In (c, r) pairs ->
                 forall c', In (c', r) pairs -> name c' = name c -> c' = c).
  { intros c r Hp c' Hp' En. apply In_visits in Hp, Hp'.
    apply (NoDup_names _ Hnd); tauto. }
  assert (Hloops : assignColonyStates_loops (colonies (net s)) s = (Ret tt, sL)).
  { unfold assignColonyStates_loops. rewrite forEach_visits. exact Hrun. }
  destruct (assignColonyStates_run s sL Hloops)
    as (s' & Hrun' & Hw & Htr & Hcol & Hst & Hct & Hcache & Hstats & Hnot & _ & Hperm).
  exists s'. split; [exact Hrun' |]. split; [| split; [| split; [| split]]].
  - exists sL. repeat (split; [assumption |]). assumption.
  - intros c r Hc Hr. unfold colonyState. rewrite Hst.
    apply L1; [apply In_visits; auto |]. apply Hu. apply In_visits. auto.
  - intros t r x Hx. rewrite Hperm in Hx.
    destruct (L3 _ _ _ Hx) as [Hx0 | (Hp & Hne & Hstate)]; [left; exact Hx0 |].
    right. pose proof Hp as Hp'. apply In_visits in Hp'. destruct Hp' as [Hc Hr].
    repeat (split; [assumption |]).
    rewrite (L1 x r Hp (Hu x r Hp)) in Hstate. congruence.
  - intros x r Hc Hr Hne. rewrite Hperm.
    assert (Hp : In (x, r) pairs) by (apply In_visits; auto).
    apply L4; [exact Hp | apply Hu; exact Hp | | exact Hne].
    apply L1; [exact Hp | apply Hu; exact Hp].
  - intros t r Hne. rewrite Hperm.
    rewrite (loops_lists pairs s sL Hent'); [reflexivity | | exact Hrun | exact Hne].
    intros c c' q Hc Hc'. apply (Hu c q Hc c' Hc').
Qed.

(** X14.  After [assignColonyStates], in a network whose tier lists are
    empty (as [refresh] leaves them) and whose colonies have distinct
    names and their state tables (as [init] leaves them): a colony is in
    the tier list of a state for a resource exactly when it is registered,
    the resource is one of the exchange order, and the state is the one
    already set for the pair (an override) or, there being none, the one
    the classifier gives; so every colony is in at most one tier list per
    resource, and in none when its state is [error].  When the exchange
    order lists no resource twice, the tier list is, up to the shuffle, the
    list of the registered colonies of that state: no colony is in it
    twice.  The world is not touched and nothing but log lines is added to
    the trace. *)
Theorem assignColonyStates_fills_the_tiers (s : St World) :
  (forall c, In c (colonies (net s)) -> colonyStates (net s) !! name c <> None) ->
  NoDup (name <$> colonies (net s)) ->
  (forall t r, tierList t (net s) r = []) ->
  exists s',
    assignColonyStates s = (Ret tt, s') /\
    (forall t r x,
       x ∈ tierList t (net s') r <->
       In x (colonies (net s)) /\ In r RESOURCE_EXCHANGE_ORDER /\ t <> error /\
       assignedState (net s) x r = t) /\
    (forall c r, In c (colonies (net s)) -> In r RESOURCE_EXCHANGE_ORDER ->
                 colonyState (net s') (name c) r = Some (assignedState (net s) c r)) /\
    (NoDup RESOURCE_EXCHANGE_ORDER ->
     forall t r, t <> error -> In r RESOURCE_EXCHANGE_ORDER ->
       tierList t (net s') r
       ≡ₚ List.filter (fun c => bool_decide (assignedState (net s) c r = t))
                      (colonies (net s))) /\
    world s' = world s /\
    (exists new, trace s' = (new ++ trace s)%list /\ forallb isLog new = true).
Proof.
  intros Hent Hnd Hempty.
  destruct (assignColonyStates_spec s Hent Hnd)
    as (s' & Hrun & (sL & F & Hw & Htr & _) & Hstates & Hsound & Hcomplete & Hlists).
  exists s'. split; [exact Hrun |]. split; [| split; [exact Hstates | split]].
  - intros t r x. split.
    + intros Hx. destruct (Hsound _ _ _ Hx) as [Hx0 | Hin]; [| exact Hin].
      rewrite Hempty in Hx0. apply not_elem_of_nil in Hx0. destruct Hx0.
    + intros (Hc & Hr & Hne & <-). apply Hcomplete; assumption.
  - intros Hord t r Hne Hr. rewrite (Hlists t r Hne), Hempty.
    cbn [app]. rewrite (filter_visits _ _ _ _ _ Hord Hr). reflexivity.
  - destruct F as (Hw0 & _ & _ & _ & _ & _ & _ & _ & Hlog).
    split; [congruence |]. rewrite Htr. exact Hlog.
Qed.

Lemma ops_in_order : In RESOURCE_OPS RESOURCE_EXCHANGE_ORDER.
Proof.
  unfold RESOURCE_EXCHANGE_ORDER, _resourcePrioritiesOrdered.
  apply in_or_app. left. apply in_or_app. right. left. reflexivity.
Qed.

(** X15.  [assignColonyStates] needs [init()]: if a registered colony has
    no state table, it throws. *)
Theorem assignColonyStates_throws_without_init (s : St World) (c : Colony) :
  In c (colonies (net s)) ->
  colonyStates (net s) !! name c = None ->
  fst (assignColonyStates s) = Throw.
Proof.
  intros Hin Hnone. unfold assignColonyStates.
  unfold bind at 1, getNet at 1. cbn beta iota.
  assert (Hthrow : fst (assignColonyStates_loops (colonies (net s)) s) = Throw).
  { unfold assignColonyStates_loops. rewrite forEach_visits.
    apply loops_throw. exists (c, RESOURCE_OPS). split; [| exact Hnone].
    apply In_visits. split; [exact Hin | apply ops_in_order]. }
  unfold bind.
  destruct (assignColonyStates_loops (colonies (net s)) s) as [[[] |] s1];
    [discriminate | reflexivity].
Qed.


(** X16.  A request is served as an active request: after [init()], a
    registered colony that calls [requestResource] for a resource of the
    exchange order (and lacks the amount) is put by [assignColonyStates]
    into the list of active requestors of that resource, whatever the
    classifier would say of its amount, and into no other tier list. *)
Theorem requestResource_reaches_activeRequestors (s : St World) (c : Colony)
    (r : string) (amount tol : number) :
  In c (colonies (net s)) ->
  NoDup (name <$> colonies (net s)) ->
  In r RESOURCE_EXCHANGE_ORDER ->
  Num.ge (get_num (assets c) r) amount = false ->
  (forall t, tierList t (net s) r = []) ->
  let s2 := snd (requestResource c r amount tol (snd (init s))) in
  exists s3,
    assignColonyStates s2 = (Ret tt, s3) /\
    colonyState (net s3) (name c) r = Some activeRequestor /\
    forall t, c ∈ tierList t (net s3) r <-> t = activeRequestor.
Proof.
  intros Hin Hnd Hr Hlt Hempty s2.
  assert (Hs2 : colonies (net s2) = colonies (net s) /\
                colonyStates (net s2)
                = <[name c := {[ r := activeRequestor ]}]>
                    (fold_left (fun m colony => <[name colony := ∅]> m)
                               (colonies (net s)) (colonyStates (net s))) /\
                forall t, tierOf t (net s2) = tierOf t (net s)).
  { subst s2. rewrite init_run. cbn [snd]. rewrite requestResource_run, Hlt.
    cbv zeta. cbn [net set_colonyStates colonyStates].
    rewrite init_fold_lookup.
    rewrite decide_True
      by (apply list_elem_of_fmap; exists c; split;
          [reflexivity | apply list_elem_of_In; exact Hin]).
    cbn. split; [reflexivity |]. split; [reflexivity |]. intros []; reflexivity. }
  destruct Hs2 as (Hcol & Hst & Htier).
  assert (Hent : forall c', In c' (colonies (net s2)) ->
                            colonyStates (net s2) !! name c' <> None).
  { intros c' Hc'. rewrite Hst. rewrite Hcol in Hc'.
    destruct (decide (name c = name c')) as [E | E].
    - rewrite E, lookup_insert_eq. discriminate.
    - rewrite lookup_insert_ne by exact E. rewrite init_fold_lookup.
      rewrite decide_True; [discriminate |].
      apply list_elem_of_fmap. exists c'. split; [reflexivity |].
      apply list_elem_of_In. exact Hc'. }
  assert (Hnd2 : NoDup (name <$> colonies (net s2))) by (rewrite Hcol; exact Hnd).
  assert (Ha : assignedState (net s2) c r = activeRequestor).
  { unfold assignedState, colonyState. rewrite Hst, lookup_insert_eq.
    rewrite lookup_singleton_eq. reflexivity. }
  destruct (assignColonyStates_spec s2 Hent Hnd2)
    as (s3 & Hrun & _ & Hstates & Hsound & Hcomplete & _).
  rewrite Hcol in Hstates, Hsound, Hcomplete.
  exists s3. split; [exact Hrun |]. split.
  - rewrite (Hstates c r Hin Hr), Ha. reflexivity.
  - intros t. split.
    + intros Hx. destruct (Hsound _ _ _ Hx) as [Hx0 | (_ & _ & _ & E)].
      * unfold tierList in Hx0. rewrite Htier in Hx0.
        fold (tierList t (net s) r) in Hx0. rewrite Hempty in Hx0.
        apply not_elem_of_nil in Hx0. destruct Hx0.
      * congruence.
    + intros ->. rewrite <- Ha. apply Hcomplete; [exact Hin | exact Hr |].
      rewrite Ha. discriminate.
Qed.

End Assign.

Lemma assignColonyStates_fills_the_tiers_witness :
  exists s',
    assignColonyStates Scenario.richAndPoor = (Ret tt, s') /\
    (forall t r x,
       x ∈ tierList t (net s') r <->
       In x (colonies (net Scenario.richAndPoor)) /\ In r RESOURCE_EXCHANGE_ORDER /\
       t <> error /\ assignedState (net Scenario.richAndPoor) x r = t) /\
    (forall c r, In c (colonies (net Scenario.richAndPoor)) ->
                 In r RESOURCE_EXCHANGE_ORDER ->
                 colonyState (net s') (name c) r
                 = Some (assignedState (net Scenario.richAndPoor) c r)) /\
    (NoDup RESOURCE_EXCHANGE_ORDER ->
     forall t r, t <> error -> In r RESOURCE_EXCHANGE_ORDER ->
       tierList t (net s') r
       ≡ₚ List.filter
            (fun c => bool_decide (assignedState (net Scenario.richAndPoor) c r = t))
            (colonies (net Scenario.richAndPoor))) /\
    world s' = world Scenario.richAndPoor /\
    (exists new, trace s' = (new ++ trace Scenario.richAndPoor)%list /\
                 forallb isLog new = true).
Proof.
  apply (assignColonyStates_fills_the_tiers Scenario.richAndPoor).
  - intros c [<- | [<- | []]]; vm_compute; discriminate.
  - apply (bool_decide_unpack _). vm_compute. reflexivity.
  - intros t r. destruct t; reflexivity.
Defined.

Lemma assignColonyStates_throws_without_init_witness :
  fst (assignColonyStates (Demo.start [Scenario.rich] ∅)) = Throw.
Proof.
  apply (assignColonyStates_throws_without_init
           (Demo.start [Scenario.rich] ∅) Scenario.rich).
  - left. reflexivity.
  - reflexivity.
Defined.

Lemma requestResource_reaches_activeRequestors_witness :
  let s := snd (refresh (Demo.start [Scenario.rich; Scenario.poor]
                           {[ "W1N1" := {[ "U" := 30000%Q ]} ]})) in
  let s2 := snd (requestResource Scenario.poor "U" (Fin 10000) (Fin 0) (snd (init s))) in
  exists s3,
    assignColonyStates s2 = (Ret tt, s3) /\
    colonyState (net s3) "W2N2" "U" = Some activeRequestor /\
    forall t, Scenario.poor ∈ tierList t (net s3) "U" <-> t = activeRequestor.
Proof.
  apply (requestResource_reaches_activeRequestors
           (snd (refresh (Demo.start [Scenario.rich; Scenario.poor]
                            {[ "W1N1" := {[ "U" := 30000%Q ]} ]})))
           Scenario.poor "U" (Fin 10000) (Fin 0)).
  - right. left. reflexivity.
  - apply (bool_decide_unpack _). vm_compute. reflexivity.
  - vm_compute. tauto.
  - vm_compute. reflexivity.
  - intros t. destruct t; reflexivity.
Defined.

(* ===================================================================== *)
(** ** The handlers of a tick *)
(* ===================================================================== *)

Section Handlers.

Context {World : Type} `{!Host World} `{!TickHost World}.

(** A relation between the states before and after that holds of every
    iteration holds of the loop, however it ends. *)
Lemma forEach_rel {A} (R : St World -> St World -> Prop) (xs : list A)
    (body : A -> M World unit) :
  (forall s, R s s) ->
  (forall a b c, R a b -> R b c -> R a c) ->
  (forall x s o s', In x xs -> body x s = (o, s') -> R s s') ->
  forall s o s', forEach xs body s = (o, s') -> R s s'.
Proof.
  intros Hrefl Htrans. induction xs as [| x xs IH]; intros Hbody s o s' Hrun.
  - inversion Hrun; subst. apply Hrefl.
  - cbn [forEach] in Hrun. unfold bind in Hrun.
    destruct (body x s) as [[[] |] s1] eqn:E.
    + eapply Htrans; [eapply Hbody; [left; reflexivity | exact E] |].
      eapply IH; [| exact Hrun]. intros y t o' t' Hy. apply Hbody. right. exact Hy.
    + inversion Hrun; subst. eapply Hbody; [left; reflexivity | exact E].
Qed.

Lemma bind_rel {A B} (R : St World -> St World -> Prop) (m : M World A)
    (k : A -> M World B) (s : St World) :
  (forall a b c, R a b -> R b c -> R a c) ->
  (forall o1 s1, m s = (o1, s1) -> R s s1) ->
  (forall a s1 o s', m s = (Ret a, s1) -> k a s1 = (o, s') -> R s1 s') ->
  forall o s', bind m k s = (o, s') -> R s s'.
Proof.
  intros Htrans Hm Hk o s' Hrun. unfold bind in Hrun.
  destruct (m s) as [[a |] s1] eqn:E.
  - eapply Htrans; [apply (Hm _ _ eq_refl) | eapply Hk; [reflexivity | exact Hrun]].
  - inversion Hrun; subst. apply (Hm _ _ eq_refl).
Qed.

Lemma grows_refl (p : Effect World -> bool) (s : St World) : grows p s s.
Proof. exists []. split; reflexivity. Qed.

Lemma grows_trans (p : Effect World -> bool) (a b c : St World) :
  grows p a b -> grows p b c -> grows p a c.
Proof.
  intros (n1 & E1 & H1) (n2 & E2 & H2). exists (n2 ++ n1)%list. split.
  - rewrite E2, E1, app_assoc. reflexivity.
  - rewrite forallb_app, H1, H2. reflexivity.
Qed.

Lemma grows_same (p : Effect World -> bool) (s s' : St World) :
  trace s' = trace s -> grows p s s'.
Proof. intros E. exists []. split; [exact E | reflexivity]. Qed.

Lemma grows_impl (p q : Effect World -> bool) (s s' : St World) :
  (forall e, p e = true -> q e = true) -> grows p s s' -> grows q s s'.
Proof.
  intros Hpq (new & E & Hp). exists new. split; [exact E |].
  apply forallb_forall. intros e He. apply Hpq.
  rewrite forallb_forall in Hp. apply Hp. exact He.
Qed.

Lemma notBuy_existsb (new : list (Effect World)) :
  forallb notBuy new = true <-> existsb isBuy new = false.
Proof.
  induction new as [| e new IH]; cbn; [tauto |].
  unfold notBuy at 1. destruct (isBuy e); cbn; [split; discriminate | exact IH].
Qed.

(** A request instance places no buy order unless [allowMarketBuy] is
    set. *)
Lemma handleRequestInstance_grows (colony : Colony) (resource : string)
    (requestAmount : number) (partnerSets : list (list Colony)) (opts : RequestOpts)
    (s : St World) :
  allowMarketBuy opts = false ->
  forall o s',
    handleRequestInstance colony resource requestAmount partnerSets opts s = (o, s') ->
    grows notBuy s s'.
Proof.
  intros Hgate o s' Hrun.
  unfold handleRequestInstance in Hrun. unfold bind at 1 in Hrun.
  destruct (handleRequestInstance_single colony resource requestAmount partnerSets s)
    as [o1 s1] eqn:E1.
  destruct (single_loop_spec _ _ _ _ _ _ _ E1)
    as (new1 & Htr1 & Hb1 & Hnone1 & Hdone1 & Hshape1).
  assert (G1 : grows notBuy s s1).
  { exists new1. split; [exact Htr1 |].
    destruct Hshape1 as [-> | (t & d & resp & ->)]; [reflexivity |].
    destruct (bool_decide (resp = OK)); reflexivity. }
  destruct o1 as [[b |] |].
  - unfold ret in Hrun. inversion Hrun; subst o s'. exact G1.
  - rewrite Hgate in Hrun.
    destruct (allowDivvying opts).
    + unfold bind at 1 in Hrun. unfold bind at 1 in Hrun.
      destruct (cachePure_run _ _ _ (cachePure_divvyPartners resource partnerSets s1))
        as (s2 & E2 & Hc2).
      rewrite E2 in Hrun. clear E2.
      set (vp := take 3 (sortBy _)) in *.
      unfold bind at 1 in Hrun.
      destruct (handleRequestInstance_divvy colony resource vp requestAmount false s2)
        as [o3 s3] eqn:E3.
      destruct (divvy_loop_spec _ _ _ _ _ _ _ _ E3) as (new3 & Htr3 & Hbuy3 & _).
      assert (G3 : grows notBuy s s3).
      { eapply grows_trans; [exact G1 |].
        eapply grows_trans; [apply grows_same, (cacheExt_trace _ _ Hc2) |].
        exists new3. split; [exact Htr3 | apply notBuy_existsb; exact Hbuy3]. }
      destruct o3 as [[u | [rem ss]] |].
      * destruct u. unfold ret in Hrun. inversion Hrun; subst o s'. exact G3.
      * unfold ret in Hrun. destruct ss; inversion Hrun; subst o s'; exact G3.
      * inversion Hrun; subst o s'. exact G3.
    + unfold bind, ret in Hrun. inversion Hrun; subst o s'. exact G1.
  - inversion Hrun; subst o s'. exact G1.
Qed.

Lemma thresholds_grows (p : Effect World -> bool) (colony : Colony) (resource : string)
    (s : St World) :
  exists s1, thresholds colony resource s
             = (Ret (thresholdsOf (net s) colony resource), s1) /\
             world s1 = world s /\ grows p s s1.
Proof.
  destruct (thresholds_run colony resource s) as (s1 & E & Hc).
  exists s1. split; [exact E |]. split; [apply (cacheExt_world _ _ Hc) |].
  apply grows_same, (cacheExt_trace _ _ Hc).
Qed.

Lemma notify_grows (p : Effect World -> bool) (msg : Notification) (s : St World)
    o s' :
  notify msg s = (o, s') -> grows p s s'.
Proof. intros E. inversion E; subst. apply grows_same. reflexivity. Qed.

Lemma handleRequestors_visit_grows
    (prioritizedPartners : list (gmap string (list Colony))) (opts : RequestOpts)
    (resource : string) (colony : Colony) (s : St World) :
  allowMarketBuy opts = false ->
  forall o s',
    handleRequestors_visit prioritizedPartners opts resource colony s = (o, s') ->
    grows notBuy s s'.
Proof.
  intros Hgate o s' Hrun. unfold handleRequestors_visit in Hrun.
  unfold bind at 1, getWorld at 1 in Hrun. cbn beta iota in Hrun.
  destruct (receiveOnlyOncePerTick opts
            && match terminal colony with
               | Some t => hasReceived (world s) t
               | None => false
               end).
  { inversion Hrun; subst. apply grows_refl. }
  destruct (thresholds_grows notBuy colony resource s) as (s1 & E1 & _ & G1).
  rewrite (bind_run _ _ _ _ _ E1) in Hrun.
  match type of Hrun with
  | context [Num.le ?amt (Fin 0)] => set (requestAmount := amt) in *
  end.
  destruct (Num.le requestAmount (Fin 0)).
  { inversion Hrun; subst. exact G1. }
  eapply grows_trans; [exact G1 |].
  revert Hrun. apply bind_rel; [apply grows_trans | |].
  - intros o1 s2. apply handleRequestInstance_grows. exact Hgate.
  - intros success s2 o2 s3 _ Hrest.
    unfold bind, getWorld in Hrest. cbn beta iota in Hrest.
    destruct (negb success && (Z.rem (time (world s2)) 5 =? 0)%Z).
    + eapply notify_grows. exact Hrest.
    + inversion Hrest; subst. apply grows_refl.
Qed.

Lemma handleRequestors_grows
    (requestors : gmap string (list Colony))
    (prioritizedPartners : list (gmap string (list Colony)))
    (opts : PartialRequestOpts) (s : St World) o s' :
  opt_allowMarketBuy opts = Some false \/
  (opt_allowMarketBuy opts = None /\ Num.gt (credits (world s)) canBuyAbove = false) ->
  handleRequestors requestors prioritizedPartners opts s = (o, s') ->
  grows notBuy s s'.
Proof.
  intros Hgate Hrun.
  assert (Hopts : allowMarketBuy (requestDefaults (world s) opts) = false).
  { unfold requestDefaults. cbn. destruct Hgate as [-> | [-> E]]; [reflexivity | exact E]. }
  unfold handleRequestors in Hrun.
  unfold bind at 1, getWorld at 1 in Hrun. cbn beta iota zeta in Hrun.
  revert Hrun. apply forEach_rel; [apply grows_refl | apply grows_trans |].
  intros resource s1 o1 s2 _. apply forEach_rel; [apply grows_refl | apply grows_trans |].
  intros colony s3 o3 s4 _. apply handleRequestors_visit_grows. exact Hopts.
Qed.

(** X17.  [handleRequestors] places no buy order when [allowMarketBuy] is
    passed as false, and none when it is left out while the credits are
    not above [canBuyAbove] at the time of the call. *)
Theorem handleRequestors_buys_only_when_allowed
    (requestors : gmap string (list Colony))
    (prioritizedPartners : list (gmap string (list Colony)))
    (opts : PartialRequestOpts) (s : St World) :
  opt_allowMarketBuy opts = Some false \/
  (opt_allowMarketBuy opts = None /\ Num.gt (credits (world s)) canBuyAbove = false) ->
  exists new,
    trace (snd (handleRequestors requestors prioritizedPartners opts s))
    = (new ++ trace s)%list /\
    existsb isBuy new = false.
Proof.
  intros Hgate.
  destruct (handleRequestors requestors prioritizedPartners opts s) as [o s'] eqn:Hrun.
  destruct (handleRequestors_grows _ _ _ _ _ _ Hgate Hrun)
    as (new & E & Hnew).
  exists new. split; [exact E |]. apply notBuy_existsb. exact Hnew.
Qed.

Lemma boundedNotBuy_split (new : list (Effect World)) :
  forallb boundedNotBuy new = true <->
  forallb sendWithinBounds new = true /\ existsb isBuy new = false.
Proof.
  rewrite <- notBuy_existsb.
  induction new as [| e new IH]; cbn; [tauto |].
  unfold boundedNotBuy at 1. rewrite !andb_true_iff, IH. tauto.
Qed.

(** A provide instance sends within bounds and places no buy order. *)
Lemma handleProvideInstance_grows (colony : Colony) (resource : string)
    (sendAmount : number) (partnerSets : list (list Colony)) (opts : ProvideOpts)
    (s : St World) :
  forall o s',
    handleProvideInstance colony resource sendAmount partnerSets opts s = (o, s') ->
    grows boundedNotBuy s s'.
Proof.
  intros o s' Hrun.
  unfold handleProvideInstance in Hrun. unfold bind at 1 in Hrun.
  assert (Hpush : exists o1 s1,
             (if allowPushToOtherRooms opts
              then handleProvideInstance_push colony resource sendAmount partnerSets
              else ret None) s = (o1, s1) /\
             grows boundedNotBuy s s1).
  { destruct (allowPushToOtherRooms opts).
    - destruct (handleProvideInstance_push colony resource sendAmount partnerSets s)
        as [o1 s1] eqn:E1.
      destruct (push_loop_spec _ _ _ _ _ _ _ E1) as (new1 & Htr1 & Hb1 & Hnb1).
      exists o1, s1. split; [reflexivity |]. exists new1. split; [exact Htr1 |].
      apply boundedNotBuy_split. auto.
    - exists (Ret None), s. split; [reflexivity | apply grows_refl]. }
  destruct Hpush as (o1 & s1 & E1 & G1).
  rewrite E1 in Hrun. clear E1.
  destruct o1 as [[b |] |].
  - inversion Hrun; subst o s'. exact G1.
  - destruct (allowMarketSell opts).
    + unfold bind, getWorld in Hrun.
      match type of Hrun with
      | context [sell ?w ?t ?r ?a ?o] => destruct (sell w t r a o) as [code w'] eqn:Esell
      end.
      unfold setWorld, emit, ret in Hrun. cbn beta iota in Hrun.
      eapply grows_trans; [exact G1 |].
      destruct (Num.ge code (Fin 0)); inversion Hrun; subst o s'; cbn [trace];
        eexists [_]; (split; [reflexivity |]); reflexivity.
    + inversion Hrun; subst o s'. exact G1.
  - inversion Hrun; subst o s'. exact G1.
Qed.

Lemma handleProviders_visit_grows
    (prioritizedPartners : list (gmap string (list Colony))) (opts : ProvideOpts)
    (resource : string) (colony : Colony) (s : St World) :
  forall o s',
    handleProviders_visit prioritizedPartners opts resource colony s = (o, s') ->
    grows boundedNotBuy s s'.
Proof.
  intros o s' Hrun. unfold handleProviders_visit in Hrun.
  unfold bind at 1, getWorld at 1 in Hrun. cbn beta iota in Hrun.
  destruct (match terminal colony with
            | Some t => negb (isReady (world s) t)
            | None => false
            end).
  { inversion Hrun; subst. apply grows_refl. }
  destruct (thresholds_grows boundedNotBuy colony resource s) as (s1 & E1 & _ & G1).
  rewrite (bind_run _ _ _ _ _ E1) in Hrun.
  match type of Hrun with
  | context [Num.le ?amt (Fin 0)] => set (sendAmount := amt) in *
  end.
  destruct (Num.le sendAmount (Fin 0)).
  { inversion Hrun; subst. exact G1. }
  eapply grows_trans; [exact G1 |].
  revert Hrun. apply bind_rel; [apply grows_trans | |].
  - intros o1 s2. apply handleProvideInstance_grows.
  - intros success s2 o2 s3 _ Hrest.
    unfold bind, getWorld in Hrest. cbn beta iota in Hrest.
    destruct (negb success && (Z.rem (time (world s2)) 5 =? 0)%Z).
    + eapply notify_grows. exact Hrest.
    + inversion Hrest; subst. apply grows_refl.
Qed.

Lemma handleProviders_grows (providers : gmap string (list Colony))
    (prioritizedPartners : list (gmap string (list Colony)))
    (opts : PartialProvideOpts) (s : St World) :
  forall o s',
    handleProviders providers prioritizedPartners opts s = (o, s') ->
    grows boundedNotBuy s s'.
Proof.
  intros o s'. unfold handleProviders. cbv zeta.
  apply forEach_rel; [apply grows_refl | apply grows_trans |].
  intros resource s1 o1 s2 _. apply forEach_rel; [apply grows_refl | apply grows_trans |].
  intros colony s3 o3 s4 _. apply handleProviders_visit_grows.
Qed.

(** X18.  Whatever [handleProviders] sends is within the cap of the
    resource and within the store of the sending terminal at the time of
    the send; and it places no buy order. *)
Theorem handleProviders_sends_within_bounds (providers : gmap string (list Colony))
    (prioritizedPartners : list (gmap string (list Colony)))
    (opts : PartialProvideOpts) (s : St World) :
  exists new,
    trace (snd (handleProviders providers prioritizedPartners opts s))
    = (new ++ trace s)%list /\
    forallb sendWithinBounds new = true /\
    existsb isBuy new = false.
Proof.
  destruct (handleProviders providers prioritizedPartners opts s) as [o s'] eqn:Hrun.
  destruct (handleProviders_grows _ _ _ _ _ _ Hrun) as (new & E & Hnew).
  exists new. split; [exact E |]. apply boundedNotBuy_split. exact Hnew.
Qed.

(** X19.  Providers whose terminal is not ready are passed over: when no
    provider's terminal is ready, [handleProviders] returns and changes
    nothing. *)
Theorem handleProviders_skips_terminals_not_ready
    (providers : gmap string (list Colony))
    (prioritizedPartners : list (gmap string (list Colony)))
    (opts : PartialProvideOpts) (s : St World) :
  (forall r c, In r RESOURCE_EXCHANGE_ORDER -> In c (default [] (providers !! r)) ->
               exists t, terminal c = Some t /\ isReady (world s) t = false) ->
  handleProviders providers prioritizedPartners opts s = (Ret tt, s).
Proof.
  intros Hbusy. unfold handleProviders. cbv zeta.
  assert (Hloop : forall (A : Type) (xs : list A) (body : A -> M World unit),
            (forall x, In x xs -> body x s = (Ret tt, s)) ->
            forEach xs body s = (Ret tt, s)).
  { intros A xs body. induction xs as [| x xs IH]; intros Hb; [reflexivity |].
    cbn [forEach]. rewrite (bind_run _ _ _ _ _ (Hb x (or_introl eq_refl))).
    apply IH. intros y Hy. apply Hb. right. exact Hy. }
  apply Hloop. intros r Hr. apply Hloop. intros c Hc.
  destruct (Hbusy r c Hr Hc) as (t & Et & Hready).
  unfold handleProviders_visit, bind, getWorld. cbn beta iota.
  rewrite Et, Hready. reflexivity.
Qed.

Lemma isLog_notBuy (e : Effect World) : isLog e = true -> notBuy e = true.
Proof. destruct e; cbn; auto; discriminate. Qed.

Lemma boundedNotBuy_notBuy (e : Effect World) : boundedNotBuy e = true -> notBuy e = true.
Proof. unfold boundedNotBuy. intros E. apply andb_true_iff in E. tauto. Qed.

(** One visit of [assignColonyStates], however it ends. *)
Lemma visit_any (c : Colony) (r : string) (s : St World) o s' :
  assignColonyStates_visit c r s = (o, s') ->
  world s' = world s /\ grows isLog s s'.
Proof.
  intros Hrun.
  destruct (colonyStates (net s) !! name c) as [m |] eqn:Hm.
  - assert (Hsome : colonyStates (net s) !! name c <> None) by congruence.
    destruct (visit_frame c r s Hsome) as (s1 & Hrun1 & F & _).
    rewrite Hrun1 in Hrun. inversion Hrun; subst o s'.
    destruct F as (Hw & _ & _ & _ & _ & _ & _ & _ & Hlog). split; assumption.
  - unfold assignColonyStates_visit, bind, getNet in Hrun.
    destruct (colonyThresholds (net s) !! name c); cbn in Hrun; rewrite Hm in Hrun;
      inversion Hrun; subst o s'; (split; [reflexivity | apply grows_same; reflexivity]).
Qed.

Lemma assignColonyStates_any (s : St World) o s' :
  assignColonyStates s = (o, s') ->
  world s' = world s /\ grows isLog s s'.
Proof.
  set (R := fun a b : St World => world b = world a /\ grows isLog a b).
  assert (Hrefl : forall a, R a a) by (intros a; split; [reflexivity | apply grows_refl]).
  assert (Htrans : forall a b c, R a b -> R b c -> R a c).
  { intros a b c [E1 G1] [E2 G2]. split; [congruence | eapply grows_trans; eassumption]. }
  unfold assignColonyStates. unfold bind at 1, getNet at 1. cbn beta iota.
  intros Hrun. change (R s s'). revert o s' Hrun. apply bind_rel; [exact Htrans | |].
  - intros o1 s1. unfold assignColonyStates_loops.
    apply forEach_rel; [exact Hrefl | exact Htrans |].
    intros c a o2 b _. apply forEach_rel; [exact Hrefl | exact Htrans |].
    intros r a' o3 b' _. apply visit_any.
  - intros [] s1 o s' _ Hrest. unfold bind, getWorld, modifyNet in Hrest.
    cbn in Hrest. inversion Hrest; subst o s'. split; [reflexivity |].
    apply grows_same. reflexivity.
Qed.

(** X20.  In a tick whose credits are not above [canBuyAbove] the exchange
    of [run()] places no buy order: the active requestors are handled
    without [allowMarketBuy], the passive ones with [allowMarketBuy: false],
    and neither the assignment of states nor the providers' handler buys. *)
Theorem run_exchange_never_buys_below_canBuyAbove (s : St World) :
  Num.gt (credits (world s)) canBuyAbove = false ->
  exists new,
    trace (snd (run_exchange s)) = (new ++ trace s)%list /\
    existsb isBuy new = false.
Proof.
  intros Hcredits.
  destruct (run_exchange s) as [o s'] eqn:Hrun. cbn [snd].
  assert (G : grows notBuy s s').
  { unfold run_exchange in Hrun. revert o s' Hrun.
    apply bind_rel; [apply grows_trans | |].
    - intros o1 s1 E1. destruct (assignColonyStates_any _ _ _ E1) as [_ G1].
      eapply grows_impl; [apply isLog_notBuy | exact G1].
    - intros [] s1 o s' E1. destruct (assignColonyStates_any _ _ _ E1) as [Hw1 _].
      unfold bind at 1, getNet at 1. cbn beta iota.
      apply bind_rel; [apply grows_trans | |].
      + intros o2 s2 E2.
        eapply handleRequestors_grows; [| exact E2].
        right. split; [reflexivity |]. rewrite Hw1. exact Hcredits.
      + intros [] s2 o2 s3 _. unfold bind at 1, getNet at 1. cbn beta iota.
        apply bind_rel; [apply grows_trans | |].
        * intros o3 s4 E3. eapply grows_impl; [apply boundedNotBuy_notBuy |].
          eapply handleProviders_grows. exact E3.
        * intros [] s4 o4 s5 _. unfold bind at 1, getNet at 1. cbn beta iota.
          intros E4.
          eapply handleRequestors_grows; [| exact E4].
          left. reflexivity. }
  destruct G as (new & E & Hnew). exists new. split; [exact E |].
  apply notBuy_existsb. exact Hnew.
Qed.

End Handlers.

Section HandlersMore.

Context {World : Type} `{!Host World} `{!TickHost World}.

Lemma cachePure_forEach {A} (xs : list A) (body : A -> M World unit) (s0 : St World) :
  (forall x, In x xs -> cachePure (body x) s0 tt) ->
  cachePure (forEach xs body) s0 tt.
Proof.
  induction xs as [| x xs IH]; intros Hbody.
  - apply cachePure_ret.
  - cbn [forEach]. eapply cachePure_bind.
    + apply Hbody. left. reflexivity.
    + apply IH. intros y Hy. apply Hbody. right. exact Hy.
Qed.


(** X22.  Requestors that hold their target are passed over: when the
    amount to request (the target less the assets, plus the tolerance if
    [sendTargetPlusTolerance] is set) is at most 0 for every requestor,
    [handleRequestors] returns having sent and bought nothing; all it may
    have done is compute the energy thresholds. *)
Theorem handleRequestors_skips_satisfied (requestors : gmap string (list Colony))
    (prioritizedPartners : list (gmap string (list Colony)))
    (opts : PartialRequestOpts) (s : St World) :
  (forall r c, In r RESOURCE_EXCHANGE_ORDER -> In c (default [] (requestors !! r)) ->
     let th := thresholdsOf (net s) c r in
     let requestAmount := Num.sub (target th) (get_num (assets c) r) in
     Num.le (if default false (opt_sendTargetPlusTolerance opts)
             then Num.add requestAmount (tolerance th) else requestAmount)
            (Fin 0) = true) ->
  exists s',
    handleRequestors requestors prioritizedPartners opts s = (Ret tt, s') /\
    cacheExt s s'.
Proof.
  intros Hsat. unfold handleRequestors.
  unfold bind at 1, getWorld at 1. cbn beta iota zeta.
  apply cachePure_run. apply cachePure_forEach. intros r Hr.
  apply cachePure_forEach. intros c Hc.
  intros s1 Hc1. unfold handleRequestors_visit.
  unfold bind at 1, getWorld at 1. cbn beta iota.
  match goal with
  | |- context [if ?b then ret tt else _] => destruct b
  end.
  { exists s1. split; [reflexivity | exact Hc1]. }
  destruct (cachePure_thresholds c r s s1 Hc1) as (s2 & E & Hc2).
  rewrite (bind_run _ _ _ _ _ E).
  specialize (Hsat r c Hr Hc). cbv zeta in Hsat.
  cbn [requestDefaults sendTargetPlusTolerance]. rewrite Hsat.
  exists s2. split; [reflexivity | exact Hc2].
Qed.

End HandlersMore.

Lemma handleRequestors_buys_only_when_allowed_witness :
  exists new,
    trace (snd (handleRequestors {[ "U" := [Scenario.poor] ]} [] noRequestOpts
                  TickScenario.lowCredits))
    = (new ++ trace TickScenario.lowCredits)%list /\
    existsb isBuy new = false.
Proof.
  apply (handleRequestors_buys_only_when_allowed
           {[ "U" := [Scenario.poor] ]} [] noRequestOpts TickScenario.lowCredits).
  right. split; [reflexivity | vm_compute; reflexivity].
Defined.

Lemma handleProviders_skips_terminals_not_ready_witness :
  handleProviders {[ "U" := [Scenario.rich] ]} [{[ "U" := [Scenario.poor] ]}]
                  noProvideOpts TickScenario.busyProvider
  = (Ret tt, TickScenario.busyProvider).
Proof.
  apply (handleProviders_skips_terminals_not_ready
           {[ "U" := [Scenario.rich] ]} [{[ "U" := [Scenario.poor] ]}]
           noProvideOpts TickScenario.busyProvider).
  intros r c _ Hc. destruct (decide (r = "U")) as [-> | Hne].
  - vm_compute in Hc. destruct Hc as [<- | []].
    eexists. split; vm_compute; reflexivity.
  - rewrite lookup_singleton_ne in Hc by congruence. destruct Hc.
Defined.

Lemma run_exchange_never_buys_below_canBuyAbove_witness :
  exists new,
    trace (snd (run_exchange TickScenario.lowCredits))
    = (new ++ trace TickScenario.lowCredits)%list /\
    existsb isBuy new = false.
Proof.
  apply (run_exchange_never_buys_below_canBuyAbove TickScenario.lowCredits).
  vm_compute. reflexivity.
Defined.

Lemma handleRequestors_skips_satisfied_witness :
  exists s',
    handleRequestors {[ "U" := [Scenario.rich] ]} [] noRequestOpts Scenario.richAndPoor
    = (Ret tt, s') /\
    cacheExt Scenario.richAndPoor s'.
Proof.
  apply (handleRequestors_skips_satisfied
           {[ "U" := [Scenario.rich] ]} [] noRequestOpts Scenario.richAndPoor).
  intros r c _ Hc. destruct (decide (r = "U")) as [-> | Hne].
  - vm_compute in Hc. destruct Hc as [<- | []]. vm_compute. reflexivity.
  - rewrite lookup_singleton_ne in Hc by congruence. destruct Hc.
Defined.

(* ===================================================================== *)
(** ** Where the handlers send *)
(* ===================================================================== *)

Section Routing.

Context {World : Type} `{!Host World} `{!TickHost World}.

Variable P : Effect World -> Prop.
Hypothesis P_log : forall lvl msg, P (Log lvl msg).

Lemma hf_intro (s s' : St World) (new : list (Effect World)) :
  colonies (net s') = colonies (net s) ->
  colonyStates (net s') = colonyStates (net s) ->
  colonyThresholds (net s') = colonyThresholds (net s) ->
  _energyThresholds (net s') = _energyThresholds (net s) ->
  (forall t, tierOf t (net s') = tierOf t (net s)) ->
  trace s' = (new ++ trace s)%list -> Forall P new ->
  handlerFrame P s s'.
Proof.
  intros Hcol Hst Hct Hcache Htier Htr Hnew. unfold handlerFrame.
  do 4 (split; [assumption |]). split; [| exists new; auto].
  intros c r. apply thresholdsOf_ext; [| assumption | assumption].
  intros k q. unfold colonyThreshold. rewrite Hct. reflexivity.
Qed.

Lemma hf_refl (s : St World) : handlerFrame P s s.
Proof. apply (hf_intro s s []); auto. Qed.

Lemma hf_trans (a b c : St World) :
  handlerFrame P a b -> handlerFrame P b c -> handlerFrame P a c.
Proof.
  intros (Hc1 & Hs1 & Ht1 & Hti1 & Hth1 & n1 & E1 & F1)
         (Hc2 & Hs2 & Ht2 & Hti2 & Hth2 & n2 & E2 & F2).
  unfold handlerFrame.
  split; [congruence |]. split; [congruence |]. split; [congruence |].
  split; [intros t; rewrite Hti2; apply Hti1 |].
  split; [intros x r; rewrite Hth2; apply Hth1 |].
  exists (n2 ++ n1)%list. split; [rewrite E2, E1, app_assoc; reflexivity |].
  apply Forall_app. auto.
Qed.

Lemma hf_cacheExt (s s' : St World) : cacheExt s s' -> handlerFrame P s s'.
Proof.
  intros Hc. destruct (cacheExt_fields _ _ Hc) as (Hcol & Hst & _ & Htier).
  unfold handlerFrame.
  split; [exact Hcol |]. split; [exact Hst |].
  split; [apply (cacheExt_colonyThresholds _ _ Hc) |].
  split; [exact Htier |].
  split; [intros c r; apply (cacheExt_thresholdsOf _ _ c r Hc) |].
  exists []. split; [apply (cacheExt_trace _ _ Hc) | constructor].
Qed.

Lemma w_ret {A} (a : A) : within (handlerFrame P) (ret a).
Proof. intros s o s' E. inversion E; subst. apply hf_refl. Qed.

Lemma w_throw {A} : within (handlerFrame P) (@throw World A).
Proof. intros s o s' E. inversion E; subst. apply hf_refl. Qed.

Lemma w_getNet : within (handlerFrame P) getNet.
Proof. intros s o s' E. inversion E; subst. apply hf_refl. Qed.

Lemma w_getWorld : within (handlerFrame P) getWorld.
Proof. intros s o s' E. inversion E; subst. apply hf_refl. Qed.

Lemma w_bind {A B} (m : M World A) (k : A -> M World B) :
  within (handlerFrame P) m -> (forall a, within (handlerFrame P) (k a)) ->
  within (handlerFrame P) (bind m k).
Proof.
  intros Hm Hk s. apply bind_rel; [apply hf_trans | apply Hm |].
  intros a s1 o s' _. apply Hk.
Qed.

Lemma w_thresholds (c : Colony) (r : string) : within (handlerFrame P) (thresholds c r).
Proof.
  intros s o s' E. destruct (thresholds_run c r s) as (s1 & E1 & Hc).
  rewrite E1 in E. inversion E; subst. apply hf_cacheExt. exact Hc.
Qed.

Lemma w_filterM {A} (pred : A -> M World bool) (xs : list A) :
  (forall x, within (handlerFrame P) (pred x)) ->
  within (handlerFrame P) (filterM pred xs).
Proof.
  intros Hp. induction xs as [| x xs IH]; cbn [filterM]; [apply w_ret |].
  apply w_bind; [apply Hp | intros keep].
  apply w_bind; [exact IH | intros kept]. apply w_ret.
Qed.

Lemma w_mapM {A B} (f : A -> M World B) (xs : list A) :
  (forall x, within (handlerFrame P) (f x)) ->
  within (handlerFrame P) (mapM f xs).
Proof.
  intros Hf. induction xs as [| x xs IH]; cbn [mapM]; [apply w_ret |].
  apply w_bind; [apply Hf | intros y].
  apply w_bind; [exact IH | intros ys]. apply w_ret.
Qed.

Lemma w_forEach {A} (xs : list A) (body : A -> M World unit) :
  (forall x, In x xs -> within (handlerFrame P) (body x)) ->
  within (handlerFrame P) (forEach xs body).
Proof.
  intros Hb s. apply forEach_rel; [apply hf_refl | apply hf_trans |].
  intros x t o t' Hx. apply Hb. exact Hx.
Qed.

Lemma w_emit (e : Effect World) : P e -> within (handlerFrame P) (emit e).
Proof.
  intros He s o s' E. inversion E; subst.
  apply (hf_intro _ _ [e]); try reflexivity. constructor; [exact He | constructor].
Qed.

Lemma w_setWorld (w : World) : within (handlerFrame P) (setWorld w).
Proof. intros s o s' E. inversion E; subst. apply (hf_intro _ _ []); auto. Qed.

Lemma w_notify (msg : Notification) : within (handlerFrame P) (notify msg).
Proof.
  intros s o s' E. inversion E; subst.
  apply (hf_intro _ _ []); try reflexivity; try (intros []; reflexivity); constructor.
Qed.

Lemma w_markOverloadedOf (t : option StructureTerminal) :
  within (handlerFrame P) (markOverloadedOf t).
Proof.
  destruct t as [t |]; [| apply w_throw].
  intros s o s' E. cbn in E. rewrite markOverloaded_run in E. inversion E; subst.
  apply (hf_intro _ _ []); try reflexivity; try (intros []; reflexivity); constructor.
Qed.

Lemma w_storeOf (t : option StructureTerminal) (r : string) :
  within (handlerFrame P) (storeOf t r).
Proof.
  destruct t as [t |]; [| apply w_throw]. cbn.
  apply w_bind; [apply w_getWorld | intros w; apply w_ret].
Qed.

Lemma w_isReadyOf (t : option StructureTerminal) :
  within (handlerFrame P) (isReadyOf t).
Proof.
  destruct t as [t |]; [| apply w_throw]. cbn.
  apply w_bind; [apply w_getWorld | intros w; apply w_ret].
Qed.

Lemma w_transfer (sender receiver : option StructureTerminal) (r : string)
    (amount : number) (description : string) :
  (forall t tc w resp, sender = Some t -> receiver = Some tc ->
                       P (Send w t r amount (room_name tc) resp)) ->
  within (handlerFrame P) (transfer sender receiver r amount description).
Proof.
  intros Hsend. destruct sender as [t |]; [| apply w_throw].
  destruct receiver as [tc |]; [| apply w_throw].
  intros s o s' E. rewrite transfer_run in E. cbv zeta in E.
  specialize (Hsend t tc (world s)
                (fst (send (world s) t r amount (room_name tc))) eq_refl eq_refl).
  destruct (bool_decide _) in E.
  - inversion E; subst o s'.
    eapply (hf_intro _ _ [_]); try reflexivity; try (intros []; reflexivity).
    constructor; [exact Hsend | constructor].
  - inversion E; subst o s'.
    eapply (hf_intro _ _ [_; _]); try reflexivity;
      try (destruct (_ || _); reflexivity);
      try (intros []; destruct (_ || _); reflexivity).
    constructor; [apply P_log |]. constructor; [exact Hsend | constructor].
Qed.

Lemma w_getBestSenderColony (resource : string) (amount : number) (colony : Colony)
    (partners : list Colony) :
  within (handlerFrame P) (getBestSenderColony resource amount colony partners).
Proof.
  unfold getBestSenderColony. apply w_bind.
  - destruct (Nat.eqb (length partners) 0); [apply w_emit, P_log | apply w_ret].
  - intros _. apply w_bind; [apply w_getNet | intros n; apply w_ret].
Qed.

Ltac wstep :=
  lazymatch goal with
  | |- within _ (bind _ _) => apply w_bind; [| intros ?]
  | |- within _ (ret _) => apply w_ret
  | |- within _ throw => apply w_throw
  | |- within _ getNet => apply w_getNet
  | |- within _ getWorld => apply w_getWorld
  | |- within _ (thresholds _ _) => apply w_thresholds
  | |- within _ (filterM _ _) => apply w_filterM; intros ?
  | |- within _ (mapM _ _) => apply w_mapM; intros ?
  | |- within _ (storeOf _ _) => apply w_storeOf
  | |- within _ (isReadyOf _) => apply w_isReadyOf
  | |- within _ (markOverloadedOf _) => apply w_markOverloadedOf
  | |- within _ (getBestSenderColony _ _ _ _) => apply w_getBestSenderColony
  | |- within _ (notify _) => apply w_notify
  | |- within _ (setWorld _) => apply w_setWorld
  | |- within _ (if ?b then _ else _) => destruct b
  | |- within _ (match ?x with _ => _ end) => destruct x
  end.

Section Request.

Variables (colony : Colony) (resource : string).
Hypothesis P_send :
  forall w t a tc resp, terminal colony = Some tc ->
                        P (Send w t resource a (room_name tc) resp).
Hypothesis P_buy : forall a code, P (Buy (terminal colony) resource a code).

Lemma w_request_transfer (sender : option StructureTerminal) (amount : number)
    (description : string) :
  within (handlerFrame P)
         (transfer sender (terminal colony) resource amount description).
Proof. apply w_transfer. intros t tc w resp _ Etc. apply P_send. exact Etc. Qed.

Lemma w_single (requestAmount : number) (partnerSets : list (list Colony)) :
  within (handlerFrame P)
         (handleRequestInstance_single colony resource requestAmount partnerSets).
Proof.
  induction partnerSets as [| partners rest IH]; cbn [handleRequestInstance_single];
    [apply w_ret |].
  cbv zeta. repeat first [exact IH | apply w_request_transfer | wstep].
Qed.

Lemma w_divvy (validPartners : list Colony) :
  forall remaining sentSome,
    within (handlerFrame P)
           (handleRequestInstance_divvy colony resource validPartners remaining sentSome).
Proof.
  induction validPartners as [| partner rest IH]; intros remaining sentSome;
    cbn [handleRequestInstance_divvy]; [apply w_ret |].
  cbv zeta. repeat first [apply IH | apply w_request_transfer | wstep].
Qed.

Lemma w_handleRequestInstance (requestAmount : number) (partnerSets : list (list Colony))
    (opts : RequestOpts) :
  within (handlerFrame P)
         (handleRequestInstance colony resource requestAmount partnerSets opts).
Proof.
  unfold handleRequestInstance, divvyPartners. cbv zeta.
  apply w_bind; [apply w_single | intros single].
  destruct single as [b |]; [apply w_ret |].
  apply w_bind.
  - destruct (allowDivvying opts); [| apply w_ret].
    repeat first [apply w_divvy | wstep].
  - intros divvied. destruct divvied; [apply w_ret |].
    destruct (allowMarketBuy opts); [| apply w_ret].
    apply w_bind; [apply w_getWorld | intros w].
    destruct (_ && _); [apply w_ret |].
    destruct (_ && _); [apply w_ret |].
    destruct (buy w (terminal colony) resource requestAmount) as [code w'].
    apply w_bind; [apply w_setWorld | intros _].
    apply w_bind; [apply w_emit, P_buy | intros _].
    destruct (Num.ge code (Fin 0)); apply w_ret.
Qed.

End Request.

Section Provide.

Variables (colony : Colony) (resource : string).
Hypothesis P_send :
  forall w t a d resp, terminal colony = Some t -> P (Send w t resource a d resp).
Hypothesis P_sell : forall a o code, P (Sell (terminal colony) resource a o code).

Lemma w_provide_transfer (receiver : option StructureTerminal) (amount : number)
    (description : string) :
  within (handlerFrame P)
         (transfer (terminal colony) receiver resource amount description).
Proof. apply w_transfer. intros t tc w resp Et _. apply P_send. exact Et. Qed.

Lemma w_push (sendAmount : number) (partnerSets : list (list Colony)) :
  within (handlerFrame P)
         (handleProvideInstance_push colony resource sendAmount partnerSets).
Proof.
  induction partnerSets as [| partners rest IH]; cbn [handleProvideInstance_push];
    [apply w_ret |].
  cbv zeta. repeat first [exact IH | apply w_provide_transfer | wstep].
Qed.

Lemma w_handleProvideInstance (sendAmount : number) (partnerSets : list (list Colony))
    (opts : ProvideOpts) :
  within (handlerFrame P)
         (handleProvideInstance colony resource sendAmount partnerSets opts).
Proof.
  unfold handleProvideInstance. cbv zeta.
  apply w_bind; [destruct (allowPushToOtherRooms opts); [apply w_push | apply w_ret] |].
  intros pushed. destruct pushed as [b |]; [apply w_ret |].
  destruct (allowMarketSell opts); [| apply w_ret].
  apply w_bind; [apply w_getWorld | intros w].
  match goal with
  | |- context [sell ?w ?t ?r ?a ?o] => destruct (sell w t r a o) as [code w']
  end.
  apply w_bind; [apply w_setWorld | intros _].
  apply w_bind; [apply w_emit, P_sell | intros _].
  destruct (Num.ge code (Fin 0)); apply w_ret.
Qed.

End Provide.


Lemma hf_impl (Q : Effect World -> Prop) (s s' : St World) :
  (forall e, P e -> Q e) -> handlerFrame P s s' -> handlerFrame Q s s'.
Proof.
  intros Hpq (Hc & Hs & Ht & Hti & Hth & new & E & F).
  unfold handlerFrame. do 5 (split; [assumption |]).
  exists new. split; [exact E |]. eapply Forall_impl; [exact F | exact Hpq].
Qed.

End Routing.

Section RoutingTheorems.

Context {World : Type} `{!Host World} `{!TickHost World}.

Lemma w_handleRequestors (requestors : gmap string (list Colony))
    (prioritizedPartners : list (gmap string (list Colony)))
    (opts : PartialRequestOpts) :
  within (handlerFrame (requestEffect requestors RESOURCE_EXCHANGE_ORDER))
         (handleRequestors requestors prioritizedPartners opts).
Proof.
  set (P := requestEffect requestors RESOURCE_EXCHANGE_ORDER).
  assert (P_log : forall lvl msg, P (Log lvl msg)) by (intros; exact I).
  unfold handleRequestors.
  apply w_bind; [apply w_getWorld | intros w]. cbv zeta.
  apply w_forEach. intros r Hr. apply w_forEach. intros c Hc.
  unfold handleRequestors_visit.
  apply w_bind; [apply w_getWorld | intros w1].
  destruct (_ && _); [apply w_ret |].
  apply w_bind; [apply w_thresholds | intros th]. cbv zeta.
  destruct (Num.le _ (Fin 0)); [apply w_ret |].
  apply w_bind.
  - apply w_handleRequestInstance; [exact P_log | |].
    + intros w2 t a tc resp Etc. split; [exact Hr |]. exists c, tc. auto.
    + intros a code. split; [exact Hr |]. exists c. auto.
  - intros success. apply w_bind; [apply w_getWorld | intros w2].
    destruct (_ && _); [apply w_notify | apply w_ret].
Qed.

Lemma w_handleProviders (providers : gmap string (list Colony))
    (prioritizedPartners : list (gmap string (list Colony)))
    (opts : PartialProvideOpts) :
  within (handlerFrame (provideEffect providers RESOURCE_EXCHANGE_ORDER))
         (handleProviders providers prioritizedPartners opts).
Proof.
  set (P := provideEffect providers RESOURCE_EXCHANGE_ORDER).
  assert (P_log : forall lvl msg, P (Log lvl msg)) by (intros; exact I).
  unfold handleProviders. cbv zeta.
  apply w_forEach. intros r Hr. apply w_forEach. intros c Hc.
  unfold handleProviders_visit.
  apply w_bind; [apply w_getWorld | intros w1].
  match goal with
  | |- within _ (if ?b then _ else _) => destruct b; [apply w_ret |]
  end.
  apply w_bind; [apply w_thresholds | intros th]. cbv zeta.
  destruct (Num.le _ (Fin 0)); [apply w_ret |].
  apply w_bind.
  - apply w_handleProvideInstance; [exact P_log | |].
    + intros w2 t a d resp Et. split; [exact Hr |]. exists c. auto.
    + intros a o code. split; [exact Hr |]. exists c. auto.
  - intros success. apply w_bind; [apply w_getWorld | intros w2].
    destruct (_ && _); [apply w_notify | apply w_ret].
Qed.

(** X23.  [handleRequestors] changes neither the colonies, the states, the
    overrides, the tier lists nor any thresholds triple; every send it
    makes is addressed to the room of the terminal of one of the
    requestors of the resource sent, every buy order is placed for one of
    them, and it sells nothing. *)
Theorem handleRequestors_sends_to_requestors (requestors : gmap string (list Colony))
    (prioritizedPartners : list (gmap string (list Colony)))
    (opts : PartialRequestOpts) (s : St World) :
  handlerFrame (requestEffect requestors RESOURCE_EXCHANGE_ORDER) s
               (snd (handleRequestors requestors prioritizedPartners opts s)).
Proof.
  destruct (handleRequestors requestors prioritizedPartners opts s) as [o s'] eqn:E.
  exact (w_handleRequestors _ _ _ _ _ _ E).
Qed.

(** X24.  [handleProviders] changes neither the colonies, the states, the
    overrides, the tier lists nor any thresholds triple; every send it
    makes leaves the terminal of one of the providers of the resource
    sent, every sell order is placed for one of them, and it buys
    nothing. *)
Theorem handleProviders_sends_from_providers (providers : gmap string (list Colony))
    (prioritizedPartners : list (gmap string (list Colony)))
    (opts : PartialProvideOpts) (s : St World) :
  handlerFrame (provideEffect providers RESOURCE_EXCHANGE_ORDER) s
               (snd (handleProviders providers prioritizedPartners opts s)).
Proof.
  destruct (handleProviders providers prioritizedPartners opts s) as [o s'] eqn:E.
  exact (w_handleProviders _ _ _ _ _ _ E).
Qed.

(** X25.  The exchange of [run()], from the state in which
    [assignColonyStates] leaves the network: it changes neither the
    colonies, the states, the overrides, the tier lists nor any thresholds
    triple; and every send is addressed to the terminal of an active or a
    passive requestor of the resource, or leaves the terminal of an active
    provider of it. *)
Theorem run_exchange_moves_between_the_tiers (s : St World) :
  let s1 := snd (assignColonyStates s) in
  handlerFrame (exchangeEffect (net s1) RESOURCE_EXCHANGE_ORDER) s1
               (snd (run_exchange s)).
Proof.
  intros s1. subst s1. unfold run_exchange. unfold bind at 1.
  destruct (assignColonyStates s) as [[[] |] s1]; cbn [snd]; [| apply hf_refl].
  set (Q := exchangeEffect (net s1) RESOURCE_EXCHANGE_ORDER).
  unfold bind at 1, getNet at 1. cbn beta iota.
  unfold bind at 1.
  destruct (handleRequestors (activeRequestors (net s1)) _ noRequestOpts s1)
    as [o2 s2] eqn:E2.
  assert (F2 : handlerFrame Q s1 s2).
  { eapply hf_impl; [| exact (w_handleRequestors _ _ _ _ _ _ E2)].
    intros e He. left. exact He. }
  destruct o2 as [[] |]; cbn [snd]; [| exact F2].
  unfold bind at 1, getNet at 1. cbn beta iota.
  unfold bind at 1.
  destruct (handleProviders (activeProviders (net s2)) _ noProvideOpts s2)
    as [o3 s3] eqn:E3.
  pose proof F2 as (_ & _ & _ & Htier2 & _).
  assert (F3 : handlerFrame Q s2 s3).
  { eapply hf_impl; [| exact (w_handleProviders _ _ _ _ _ _ E3)].
    intros e He. right. left.
    change (activeProviders (net s2)) with (tierOf activeProvider (net s2)) in He.
    rewrite Htier2 in He. exact He. }
  destruct o3 as [[] |]; cbn [snd]; [| eapply hf_trans; eassumption].
  unfold bind at 1, getNet at 1. cbn beta iota.
  match goal with
  | |- handlerFrame _ _ (snd ?run) => destruct run as [o4 s4] eqn:E4
  end.
  pose proof F3 as (_ & _ & _ & Htier3 & _).
  assert (F4 : handlerFrame Q s3 s4).
  { eapply hf_impl; [| exact (w_handleRequestors _ _ _ _ _ _ E4)].
    intros e He. right. right.
    change (passiveRequestors (net s3)) with (tierOf passiveRequestor (net s3)) in He.
    rewrite Htier3, Htier2 in He. exact He. }
  cbn [snd]. eapply hf_trans; [| exact F4]. eapply hf_trans; eassumption.
Qed.

End RoutingTheorems.

(* ===================================================================== *)
(** ** Which partners the divvy fallback draws from *)
(* ===================================================================== *)

Section DivvyDraws.

Context {World : Type} `{!Host World}.












End DivvyDraws.


